(** * terraform-provider-awsdomains: the domain resource

    A shallow embedding of [internal/provider/domain_registration_resource.go]
    (the resource's [findHostedZoneID], [deleteRegistrarHostedZone], [Create],
    [Read] and [Delete]) and the properties of the registration orchestration
    and of the hosted-zone safe-delete policy.

    The two AWS clients are modelled as a record of handlers over an abstract
    remote state; every SDK call made by the resource is appended, with its
    answer, to a trace, and advances a clock. *)

From Stdlib Require Import String Ascii List ZArith NArith Bool Lia DecimalString.
From Equations Require Import Equations.
Import ListNotations.
Local Open Scope string_scope.
Local Open Scope Z_scope.

(** ** Go values *)

(** An SDK call answers with a value or with a Go [error]; of an error the
    resource only ever uses [err.Error()]. *)
Inductive result (A : Type) : Type :=
| Ok (a : A)
| Err (msg : string).
Arguments Ok {A} a.
Arguments Err {A} msg.

Definition isOk {A} (r : result A) : bool :=
  match r with Ok _ => true | Err _ => false end.

(** [aws.ToString]: the empty string for a nil pointer. *)
Definition ToString (p : option string) : string :=
  match p with Some s => s | None => "" end.

(** [strings.HasSuffix], [strings.TrimSuffix], [strings.TrimPrefix]. *)
Definition HasSuffix (s suffix : string) : bool :=
  (String.length suffix <=? String.length s)%nat
  && String.eqb
       (substring (String.length s - String.length suffix) (String.length suffix) s)
       suffix.

Definition TrimSuffix (s suffix : string) : string :=
  if HasSuffix s suffix
  then substring 0 (String.length s - String.length suffix) s
  else s.

Definition TrimPrefix (s pre : string) : string :=
  if String.prefix pre s
  then substring (String.length pre) (String.length s - String.length pre) s
  else s.

(** Two's complement wrap-around of Go's [int32] and [int64]. *)
Definition wrap (bits : Z) (z : Z) : Z :=
  (z + 2 ^ (bits - 1)) mod 2 ^ bits - 2 ^ (bits - 1).
Definition int32 (z : Z) : Z := wrap 32 z.
Definition int64 (z : Z) : Z := wrap 64 z.

(** [time.Duration] counts nanoseconds in an [int64]. *)
Definition Second : Z := 1000000000.

(** ** terraform-plugin-framework values *)

(** A [tftypes.String], [Int64] or [Bool]: null, unknown or known. *)
Inductive tfValue (A : Type) : Type :=
| tfNull
| tfUnknown
| tfKnown (a : A).
Arguments tfNull {A}.
Arguments tfUnknown {A}.
Arguments tfKnown {A} a.

Definition IsNull {A} (v : tfValue A) : bool :=
  match v with tfNull => true | _ => false end.
Definition IsUnknown {A} (v : tfValue A) : bool :=
  match v with tfUnknown => true | _ => false end.
Definition ValueString (v : tfValue string) : string :=
  match v with tfKnown s => s | _ => "" end.
Definition ValueInt64 (v : tfValue Z) : Z :=
  match v with tfKnown z => z | _ => 0 end.
Definition ValueBool (v : tfValue bool) : bool :=
  match v with tfKnown b => b | _ => false end.

(** A diagnostic added with [resp.Diagnostics.AddError(summary, detail)]. *)
Record Diagnostic : Type := AddError {
  Summary : string;
  Detail : string
}.

Definition HasError (ds : list Diagnostic) : bool :=
  match ds with [] => false | _ :: _ => true end.

(** ** The resource's model *)

Record ContactModel : Type := {
  FirstName : tfValue string;
  LastName : tfValue string;
  Email : tfValue string;
  PhoneNumber : tfValue string;
  AddressLine1 : tfValue string;
  AddressLine2 : tfValue string;
  City : tfValue string;
  State_ : tfValue string;
  ZipCode : tfValue string;
  CountryCode : tfValue string;
  ContactType : tfValue string
}.

Record DomainRegistrationResourceModel : Type := {
  ID : tfValue string;
  DomainName : tfValue string;
  DurationYears : tfValue Z;
  AutoRenew : tfValue bool;
  AdminContact : option ContactModel;
  RegistrantContact : option ContactModel;
  TechContact : option ContactModel;
  AdminPrivacy : tfValue bool;
  RegistrantPrivacy : tfValue bool;
  TechPrivacy : tfValue bool;
  Nameservers : list (tfValue string);
  AllowDelete : tfValue bool;
  DeleteHostedZone_ : tfValue bool;
  Status : tfValue string;
  ExpirationDate : tfValue string;
  CreationDate : tfValue string;
  RegistrationTimeout : tfValue Z;
  HostedZoneID : tfValue string
}.

(** ** AWS SDK shapes (route53domains and route53) *)

Record ContactDetail : Type := {
  cdFirstName : option string;
  cdLastName : option string;
  cdEmail : option string;
  cdPhoneNumber : option string;
  cdAddressLine1 : option string;
  cdAddressLine2 : option string;
  cdCity : option string;
  cdState : option string;
  cdZipCode : option string;
  cdCountryCode : string;
  cdContactType : string
}.

Definition ContactTypePerson : string := "PERSON".

Record RegisterDomainInput : Type := {
  rdDomainName : option string;
  rdDurationInYears : option Z;
  rdAutoRenew : option bool;
  rdAdminContact : option ContactDetail;
  rdRegistrantContact : option ContactDetail;
  rdTechContact : option ContactDetail;
  rdPrivacyProtectAdminContact : option bool;
  rdPrivacyProtectRegistrantContact : option bool;
  rdPrivacyProtectTechContact : option bool
}.

(** [types.OperationStatus] is a string type; these are the three values
    the resource compares a status with. *)
Definition OperationStatusSuccessful : string := "SUCCESSFUL".
Definition OperationStatusFailed : string := "FAILED".
Definition OperationStatusError : string := "ERROR".

Record GetOperationDetailOutput : Type := {
  opStatus : string;
  opMessage : option string
}.

(** The fields of [GetDomainDetailOutput] the resource reads; a date is
    kept as its [Format(time.RFC3339)] rendering. *)
Record GetDomainDetailOutput : Type := {
  ddAutoRenew : option bool;
  ddExpirationDate : option string;
  ddCreationDate : option string;
  ddStatusList : list string;
  ddNameservers : list (option string)
}.

Record HostedZoneConfig : Type := {
  Comment : option string;
  PrivateZone : bool
}.

Record HostedZone : Type := {
  Name : option string;
  Id : option string;
  Config : option HostedZoneConfig
}.

Record ResourceRecordSet : Type := {
  rrName : option string;
  rrType : string
}.

Record ListHostedZonesByNameInput : Type := {
  DNSName : option string;
  MaxItems : option Z
}.

(** ** Remote calls, the clock and the trace *)

(** One entry per SDK call or sleep, with the answer the call got. *)
Inductive Event : Type :=
| EvRegisterDomain (input : RegisterDomainInput) (r : result string)
| EvGetOperationDetail (operationId : string) (r : result GetOperationDetailOutput)
| EvUpdateDomainNameservers (domainName : string) (nameservers : list string)
    (r : result unit)
| EvGetDomainDetail (domainName : string) (r : result GetDomainDetailOutput)
| EvDeleteDomain (domainName : string) (r : result unit)
| EvListHostedZonesByName (input : ListHostedZonesByNameInput)
    (r : result (list HostedZone))
| EvListResourceRecordSets (hostedZoneId : string)
    (r : result (list ResourceRecordSet))
| EvDeleteHostedZone (id : string) (r : result unit)
| EvSleep (d : Z).

(** The two clients ([r.client] and [r.route53Client]) over a remote state
    [W]: a call answers and moves the remote state. [latency w] is the time
    the call that led to [w] took, [oversleep w] the time a sleep started in
    [w] lasts beyond the duration asked for. [RegisterDomain] answers with
    the operation id, which AWS always sets. *)
Record Services (W : Type) : Type := {
  RegisterDomain : RegisterDomainInput -> W -> result string * W;
  GetOperationDetail : string -> W -> result GetOperationDetailOutput * W;
  UpdateDomainNameservers : string -> list string -> W -> result unit * W;
  GetDomainDetail : string -> W -> result GetDomainDetailOutput * W;
  DeleteDomain : string -> W -> result unit * W;
  ListHostedZonesByName :
    ListHostedZonesByNameInput -> W -> result (list HostedZone) * W;
  ListResourceRecordSets : string -> W -> result (list ResourceRecordSet) * W;
  DeleteHostedZone : string -> W -> result unit * W;
  latency : W -> N;
  oversleep : W -> N
}.
Arguments RegisterDomain {W}.
Arguments GetOperationDetail {W}.
Arguments UpdateDomainNameservers {W}.
Arguments GetDomainDetail {W}.
Arguments DeleteDomain {W}.
Arguments ListHostedZonesByName {W}.
Arguments ListResourceRecordSets {W}.
Arguments DeleteHostedZone {W}.
Arguments latency {W}.
Arguments oversleep {W}.

(** What a run threads along: the wall clock (nanoseconds), the remote
    state and the calls made so far, oldest first. *)
Record St (W : Type) : Type := mkSt {
  clock : Z;
  remote : W;
  trace : list Event
}.
Arguments mkSt {W}.
Arguments clock {W}.
Arguments remote {W}.
Arguments trace {W}.

Definition M (W A : Type) : Type := St W -> A * St W.

Definition ret {W A} (a : A) : M W A := fun st => (a, st).

Definition bind {W A B} (m : M W A) (k : A -> M W B) : M W B :=
  fun st => let (a, st') := m st in k a st'.

Declare Scope prog_scope.
Delimit Scope prog_scope with prog.
Notation "x <- m ;; k" := (bind m (fun x => k))
  (at level 61, m at next level, right associativity) : prog_scope.
Notation "m ;;; k" := (bind m (fun _ => k))
  (at level 61, right associativity) : prog_scope.

(** An SDK call: ask the handler, let the call's time pass, log it. *)
Definition call {W R} (svc : Services W) (h : W -> R * W) (ev : R -> Event) : M W R :=
  fun st =>
    let (r, w) := h (remote st) in
    (r, mkSt (clock st + Z.of_N (latency svc w)) w (trace st ++ [ev r])).

(** [time.Now()]. *)
Definition Now {W} : M W Z := fun st => (clock st, st).

(** [time.Sleep(d)] pauses for at least [d]. *)
Definition Sleep {W} (svc : Services W) (d : Z) : M W unit :=
  fun st =>
    (tt, mkSt (clock st + d + Z.of_N (oversleep svc (remote st))) (remote st)
              (trace st ++ [EvSleep d])).

(** A run from remote state [w] at time [t0], with an empty trace. *)
Definition exec {W A} (m : M W A) (w : W) (t0 : Z) : A * St W :=
  m (mkSt t0 w []).

(** ** Hosted zones *)

(** The [error] values [findHostedZoneID] and [deleteRegistrarHostedZone]
    return, one constructor per [fmt.Errorf]:
    - [ListZonesFailed]: "failed to list hosted zones: %w"
    - [ZonePrivate]: "hosted zone is private, not deleting"
    - [CommentMismatch]: "hosted zone comment %q does not match expected registrar comment"
    - [ListRecordsFailed]: "failed to list records in hosted zone: %w"
    - [HasCustomRecord]: "hosted zone has custom record %s %s, not deleting"
    - [DeleteZoneFailed]: "failed to delete hosted zone: %w"
    - [ZoneNotFound]: "hosted zone not found for domain %s" *)
Inductive zoneError : Type :=
| ListZonesFailed (err : string)
| ZonePrivate
| CommentMismatch (comment : string)
| ListRecordsFailed (err : string)
| HasCustomRecord (recordName recordType : string)
| DeleteZoneFailed (err : string)
| ZoneNotFound (domainName : string).

Definition RegistrarComment : string := "HostedZone created by Route53 Registrar".

(** Both functions build the same request. *)
Definition zonesByNameInput (domainName : string) : ListHostedZonesByNameInput :=
  {| DNSName := Some domainName; MaxItems := Some 1 |}.

(** The test both loops make on a listed zone: its name without one
    trailing dot is the domain name. *)
Definition zoneNameIs (domainName : string) (zone : HostedZone) : bool :=
  String.eqb (TrimSuffix (ToString (Name zone)) ".") domainName.

(** The loop of [findHostedZoneID] over [output.HostedZones]. *)
Fixpoint findZoneIn (domainName : string) (zones : list HostedZone)
  : string + zoneError :=
  match zones with
  | [] => inr (ZoneNotFound domainName)
  | zone :: rest =>
      if zoneNameIs domainName zone
      then inl (TrimPrefix (ToString (Id zone)) "/hostedzone/")
      else findZoneIn domainName rest
  end.

(** Safety checks 1 and 2 read the zone's configuration. *)
Definition isPrivate (zone : HostedZone) : bool :=
  match Config zone with
  | Some c => PrivateZone c
  | None => false
  end.

Definition zoneComment (zone : HostedZone) : string :=
  match Config zone with
  | Some c => ToString (Comment c)
  | None => ""
  end.

(** Safety check 3 on one record: its type is neither NS nor SOA. *)
Definition isCustomRecord (record : ResourceRecordSet) : bool :=
  negb (String.eqb (rrType record) "NS") && negb (String.eqb (rrType record) "SOA").

(** The loop over [recordsOutput.ResourceRecordSets]: the first custom
    record, if there is one. *)
Fixpoint firstCustomRecord (records : list ResourceRecordSet)
  : option ResourceRecordSet :=
  match records with
  | [] => None
  | record :: rest =>
      if isCustomRecord record then Some record else firstCustomRecord rest
  end.

(** ** Registration *)

Definition awsString (v : tfValue string) : option string := Some (ValueString v).

Definition contactModelToAWS (m : option ContactModel) : option ContactDetail :=
  match m with
  | None => None
  | Some m =>
      Some {| cdFirstName := awsString (FirstName m);
              cdLastName := awsString (LastName m);
              cdEmail := awsString (Email m);
              cdPhoneNumber := awsString (PhoneNumber m);
              cdAddressLine1 := awsString (AddressLine1 m);
              cdAddressLine2 :=
                if negb (IsNull (AddressLine2 m)) && negb (IsUnknown (AddressLine2 m))
                then awsString (AddressLine2 m) else None;
              cdCity := awsString (City m);
              cdState := awsString (State_ m);
              cdZipCode := awsString (ZipCode m);
              cdCountryCode := ValueString (CountryCode m);
              cdContactType :=
                if negb (IsNull (ContactType m)) && negb (IsUnknown (ContactType m))
                then ValueString (ContactType m) else ContactTypePerson |}
  end.

Definition registerInputOf (data : DomainRegistrationResourceModel)
  : RegisterDomainInput :=
  {| rdDomainName := Some (ValueString (DomainName data));
     rdDurationInYears := Some (int32 (ValueInt64 (DurationYears data)));
     rdAutoRenew := Some (ValueBool (AutoRenew data));
     rdAdminContact := contactModelToAWS (AdminContact data);
     rdRegistrantContact := contactModelToAWS (RegistrantContact data);
     rdTechContact := contactModelToAWS (TechContact data);
     rdPrivacyProtectAdminContact := Some (ValueBool (AdminPrivacy data));
     rdPrivacyProtectRegistrantContact := Some (ValueBool (RegistrantPrivacy data));
     rdPrivacyProtectTechContact := Some (ValueBool (TechPrivacy data)) |}.

(** Field updates of the model ([data.X = ...]). *)
Definition setComputed (data : DomainRegistrationResourceModel)
    (id status expiration creation : tfValue string)
  : DomainRegistrationResourceModel :=
  {| ID := id;
     DomainName := DomainName data;
     DurationYears := DurationYears data;
     AutoRenew := AutoRenew data;
     AdminContact := AdminContact data;
     RegistrantContact := RegistrantContact data;
     TechContact := TechContact data;
     AdminPrivacy := AdminPrivacy data;
     RegistrantPrivacy := RegistrantPrivacy data;
     TechPrivacy := TechPrivacy data;
     Nameservers := Nameservers data;
     AllowDelete := AllowDelete data;
     DeleteHostedZone_ := DeleteHostedZone_ data;
     Status := status;
     ExpirationDate := expiration;
     CreationDate := creation;
     RegistrationTimeout := RegistrationTimeout data;
     HostedZoneID := HostedZoneID data |}.

Definition setHostedZoneID (data : DomainRegistrationResourceModel)
    (zoneID : tfValue string) : DomainRegistrationResourceModel :=
  {| ID := ID data;
     DomainName := DomainName data;
     DurationYears := DurationYears data;
     AutoRenew := AutoRenew data;
     AdminContact := AdminContact data;
     RegistrantContact := RegistrantContact data;
     TechContact := TechContact data;
     AdminPrivacy := AdminPrivacy data;
     RegistrantPrivacy := RegistrantPrivacy data;
     TechPrivacy := TechPrivacy data;
     Nameservers := Nameservers data;
     AllowDelete := AllowDelete data;
     DeleteHostedZone_ := DeleteHostedZone_ data;
     Status := Status data;
     ExpirationDate := ExpirationDate data;
     CreationDate := CreationDate data;
     RegistrationTimeout := RegistrationTimeout data;
     HostedZoneID := zoneID |}.

Definition setAutoRenewNameservers (data : DomainRegistrationResourceModel)
    (autoRenew : tfValue bool) (nameservers : list (tfValue string))
  : DomainRegistrationResourceModel :=
  {| ID := ID data;
     DomainName := DomainName data;
     DurationYears := DurationYears data;
     AutoRenew := autoRenew;
     AdminContact := AdminContact data;
     RegistrantContact := RegistrantContact data;
     TechContact := TechContact data;
     AdminPrivacy := AdminPrivacy data;
     RegistrantPrivacy := RegistrantPrivacy data;
     TechPrivacy := TechPrivacy data;
     Nameservers := nameservers;
     AllowDelete := AllowDelete data;
     DeleteHostedZone_ := DeleteHostedZone_ data;
     Status := Status data;
     ExpirationDate := ExpirationDate data;
     CreationDate := CreationDate data;
     RegistrationTimeout := RegistrationTimeout data;
     HostedZoneID := HostedZoneID data |}.

(** The four assignments made from a domain detail in [Create] and [Read]:
    the id always, a date when it is set, the first status when there is
    one. *)
Definition withDomainDetail (data : DomainRegistrationResourceModel)
    (domainName : string) (domainDetail : GetDomainDetailOutput)
  : DomainRegistrationResourceModel :=
  setComputed data
    (tfKnown domainName)
    (match ddStatusList domainDetail with
     | status :: _ => tfKnown status
     | [] => Status data
     end)
    (match ddExpirationDate domainDetail with
     | Some d => tfKnown d
     | None => ExpirationDate data
     end)
    (match ddCreationDate domainDetail with
     | Some d => tfKnown d
     | None => CreationDate data
     end).

(** A [CreateResponse] or [ReadResponse]: the diagnostics, and the state
    the response carries ([None]: no resource in the state). *)
Record Response : Type := {
  Diagnostics : list Diagnostic;
  State : option DomainRegistrationResourceModel
}.

(** [Delete] only ever touches the diagnostics of its response. *)
Record DeleteResponse : Type := {
  DeleteDiagnostics : list Diagnostic
}.

(** How an iteration of the polling loop of [Create] ends the loop: a
    [return] after [AddError], or a [break]. *)
Inductive loopExit : Type :=
| Returned (d : Diagnostic)
| LeftLoop.

Definition pollInterval : Z := 10 * Second.

(** Loop iterations still possible before [deadline]: each one that goes
    round again sleeps [pollInterval]. *)
Definition roundsLeft (deadline now : Z) : nat :=
  Z.to_nat ((deadline - now + (pollInterval - 1)) / pollInterval).

Definition inspect {A} (a : A) : {b : A | a = b} := exist _ a eq_refl.


Section Resource.

Context {W : Type} (svc : Services W).

Local Open Scope prog_scope.

Definition findHostedZoneID (domainName : string) : M W (string + zoneError) :=
  output <- call svc (ListHostedZonesByName svc (zonesByNameInput domainName))
                 (EvListHostedZonesByName (zonesByNameInput domainName)) ;;
  match output with
  | Err err => ret (inr (ListZonesFailed err))
  | Ok zones => ret (findZoneIn domainName zones)
  end.

(** What [deleteRegistrarHostedZone] does with the zone whose name is the
    domain's: the three safety checks in turn, then the delete. [None] is
    Go's nil error. *)
Definition deleteCheckedZone (zone : HostedZone) : M W (option zoneError) :=
  let zoneID := ToString (Id zone) in
  if isPrivate zone then ret (Some ZonePrivate)
  else
    let comment := zoneComment zone in
    if negb (String.eqb comment RegistrarComment)
    then ret (Some (CommentMismatch comment))
    else
      recordsOutput <- call svc (ListResourceRecordSets svc zoneID)
                            (EvListResourceRecordSets zoneID) ;;
      match recordsOutput with
      | Err err => ret (Some (ListRecordsFailed err))
      | Ok records =>
          match firstCustomRecord records with
          | Some record =>
              ret (Some (HasCustomRecord (ToString (rrName record)) (rrType record)))
          | None =>
              deleted <- call svc (DeleteHostedZone svc zoneID)
                              (EvDeleteHostedZone zoneID) ;;
              match deleted with
              | Err err => ret (Some (DeleteZoneFailed err))
              | Ok _ => ret None
              end
          end
      end.

(** The loop of [deleteRegistrarHostedZone] over [output.HostedZones]:
    zones of another name are passed over, the first of the domain's name
    decides. *)
Fixpoint deleteZoneIn (domainName : string) (zones : list HostedZone)
  : M W (option zoneError) :=
  match zones with
  | [] => ret (Some (ZoneNotFound domainName))
  | zone :: rest =>
      if negb (zoneNameIs domainName zone)
      then deleteZoneIn domainName rest
      else deleteCheckedZone zone
  end.

Definition deleteRegistrarHostedZone (domainName : string) : M W (option zoneError) :=
  output <- call svc (ListHostedZonesByName svc (zonesByNameInput domainName))
                 (EvListHostedZonesByName (zonesByNameInput domainName)) ;;
  match output with
  | Err err => ret (Some (ListZonesFailed err))
  | Ok zones => deleteZoneIn domainName zones
  end.

(** One iteration of the polling loop: [None] when it sleeps and goes
    round again. *)
Definition pollOnce (domainName operationId : string) : M W (option loopExit) :=
  opDetail <- call svc (GetOperationDetail svc operationId)
                   (EvGetOperationDetail operationId) ;;
  match opDetail with
  | Err err =>
      ret (Some (Returned (AddError "Error checking registration status"
        ("Could not check registration status for " ++ domainName ++ ": " ++ err))))
  | Ok opDetail =>
      if String.eqb (opStatus opDetail) OperationStatusSuccessful
      then ret (Some LeftLoop)
      else if String.eqb (opStatus opDetail) OperationStatusFailed
      then ret (Some (Returned (AddError "Domain registration failed"
        ("Domain registration for " ++ domainName ++ " failed: "
           ++ ToString (opMessage opDetail)))))
      else if String.eqb (opStatus opDetail) OperationStatusError
      then ret (Some (Returned (AddError "Domain registration error"
        ("Domain registration for " ++ domainName ++ " encountered an error: "
           ++ ToString (opMessage opDetail)))))
      else Sleep svc pollInterval ;;; ret None
  end.

(** The polling loop, [for time.Now().Before(deadline) { ... }]. It
    terminates: every iteration that goes round again has slept
    [pollInterval], so fewer rounds are left before the deadline. *)
Equations? pollUntil (deadline : Z) (domainName operationId : string) (st : St W)
  : loopExit * St W by wf (roundsLeft deadline (clock st)) lt :=
  pollUntil deadline domainName operationId st
    with inspect (clock st <? deadline) := {
    | exist _ false _ => (LeftLoop, st)
    | exist _ true Hbefore
        with inspect (pollOnce domainName operationId st) := {
        | exist _ (Some e, st') _ => (e, st')
        | exist _ (None, st') Hround => pollUntil deadline domainName operationId st' } }.
Proof.
  assert (Hstep : clock st + pollInterval <= clock st').
  { revert Hround. unfold pollOnce, bind, call, Sleep, ret.
    destruct (GetOperationDetail svc operationId (remote st)) as [[d | e] w]; simpl.
    - repeat match goal with |- context [if ?b then _ else _] => destruct b end;
        intros H; inversion H; subst; simpl; lia.
    - discriminate. }
  apply Z.ltb_lt in Hbefore.
  unfold roundsLeft, pollInterval, Second in *.
  assert (H1 : 1 <= (deadline - clock st + (10 * 1000000000 - 1)) / (10 * 1000000000))
    by (apply Z.div_le_lower_bound; lia).
  assert (H2 : (deadline - clock st' + (10 * 1000000000 - 1)) / (10 * 1000000000)
               <= (deadline - clock st + (10 * 1000000000 - 1)) / (10 * 1000000000) - 1).
  { replace (deadline - clock st + (10 * 1000000000 - 1))
      with (deadline - clock st - 1 + 1 * (10 * 1000000000)) by lia.
    rewrite Z.div_add by lia.
    replace ((deadline - clock st - 1) / (10 * 1000000000) + 1 - 1)
      with ((deadline - clock st - 1) / (10 * 1000000000)) by lia.
    apply Z.div_le_mono; lia. }
  lia.
Qed.

(** "Update nameservers if specified": [None] when the step is skipped or
    succeeds, the diagnostic when the call fails. *)
Definition updateNameservers (data : DomainRegistrationResourceModel)
    (domainName : string) : M W (option Diagnostic) :=
  if (0 <? length (Nameservers data))%nat
  then
    let nameservers := map ValueString (Nameservers data) in
    updated <- call svc (UpdateDomainNameservers svc domainName nameservers)
                    (EvUpdateDomainNameservers domainName nameservers) ;;
    match updated with
    | Err err =>
        ret (Some (AddError "Error updating nameservers"
          ("Could not update nameservers for " ++ domainName ++ ": " ++ err)))
    | Ok _ => ret None
    end
  else ret None.

(** "Handle the auto-created hosted zone": the hosted zone id [Create]
    stores. *)
Definition handleHostedZone (data : DomainRegistrationResourceModel)
    (domainName : string) : M W (tfValue string) :=
  if ValueBool (DeleteHostedZone_ data)
  then
    err <- deleteRegistrarHostedZone domainName ;;
    match err with
    | Some _ =>
        lookup <- findHostedZoneID domainName ;;
        match lookup with
        | inl hostedZoneID => ret (tfKnown hostedZoneID)
        | inr _ => ret tfNull
        end
    | None => ret tfNull
    end
  else
    lookup <- findHostedZoneID domainName ;;
    match lookup with
    | inr _ => ret tfNull
    | inl hostedZoneID => ret (tfKnown hostedZoneID)
    end.

Definition failed (summary detail : string) : Response :=
  {| Diagnostics := [AddError summary detail]; State := None |}.

(** [Create], from the plan [data] read without error; [resp.State.Set] is
    taken to add no diagnostic. The [tflog] calls are left out here and in
    the other functions. *)
Definition Create (data : DomainRegistrationResourceModel) : M W Response :=
  let domainName := ValueString (DomainName data) in
  let registerInput := registerInputOf data in
  registerOutput <- call svc (RegisterDomain svc registerInput)
                         (EvRegisterDomain registerInput) ;;
  match registerOutput with
  | Err err =>
      ret (failed "Error registering domain"
             ("Could not register domain " ++ domainName ++ ": " ++ err))
  | Ok operationId =>
      let timeout := int64 (ValueInt64 (RegistrationTimeout data) * Second) in
      now <- Now ;;
      let deadline := now + timeout in
      polled <- pollUntil deadline domainName operationId ;;
      match polled with
      | Returned d => ret {| Diagnostics := [d]; State := None |}
      | LeftLoop =>
          updated <- updateNameservers data domainName ;;
          match updated with
          | Some d => ret {| Diagnostics := [d]; State := None |}
          | None =>
              domainDetail <- call svc (GetDomainDetail svc domainName)
                                   (EvGetDomainDetail domainName) ;;
              match domainDetail with
              | Err err =>
                  ret (failed "Error reading domain details"
                         ("Could not read domain details for " ++ domainName
                            ++ ": " ++ err))
              | Ok domainDetail =>
                  let data := withDomainDetail data domainName domainDetail in
                  zoneID <- handleHostedZone data domainName ;;
                  ret {| Diagnostics := []; State := Some (setHostedZoneID data zoneID) |}
              end
          end
      end
  end.

(** [Read], from the prior state [data]. *)
Definition Read (data : DomainRegistrationResourceModel) : M W Response :=
  let domainName := ValueString (DomainName data) in
  domainDetail <- call svc (GetDomainDetail svc domainName)
                       (EvGetDomainDetail domainName) ;;
  match domainDetail with
  | Err _ => ret {| Diagnostics := []; State := None |}
  | Ok domainDetail =>
      let data :=
        withDomainDetail
          (setAutoRenewNameservers data
             (match ddAutoRenew domainDetail with
              | Some b => tfKnown b
              | None => AutoRenew data
              end)
             (if (0 <? length (ddNameservers domainDetail))%nat
              then map (fun ns => tfKnown (ToString ns)) (ddNameservers domainDetail)
              else Nameservers data))
          domainName domainDetail in
      lookup <- findHostedZoneID domainName ;;
      match lookup with
      | inr _ => ret {| Diagnostics := []; State := Some (setHostedZoneID data tfNull) |}
      | inl hostedZoneID =>
          ret {| Diagnostics := [];
                 State := Some (setHostedZoneID data (tfKnown hostedZoneID)) |}
      end
  end.

(** [Delete], from the prior state [data]. *)
Definition Delete (data : DomainRegistrationResourceModel) : M W DeleteResponse :=
  let domainName := ValueString (DomainName data) in
  if negb (ValueBool (AllowDelete data))
  then ret {| DeleteDiagnostics := [] |}
  else
    deleted <- call svc (DeleteDomain svc domainName) (EvDeleteDomain domainName) ;;
    match deleted with
    | Err err =>
        ret {| DeleteDiagnostics :=
                 [AddError "Error deleting domain"
                    ("Could not delete domain " ++ domainName ++ ": " ++ err
                       ++ ". Note: Domain deletion may not be supported by the registry. The domain has been removed from Terraform state.")] |}
    | Ok _ =>
        deleteRegistrarHostedZone domainName ;;;
        ret {| DeleteDiagnostics := [] |}
    end.

End Resource.

(** ** A scripted remote

    A remote whose answers are fixed in advance, to run the resource on:
    the account's hosted zones with their records, in the order the
    listing gives them, and the answer of each registrar call. *)
Record Account : Type := {
  polls : nat;
  zones : list (HostedZone * list ResourceRecordSet)
}.

Record Script : Type := {
  registerAnswer : result string;
  pollAnswer : nat -> result GetOperationDetailOutput;
  nameserversAnswer : result unit;
  detailAnswer : result GetDomainDetailOutput;
  deleteDomainAnswer : result unit;
  deleteZoneAnswer : result unit;
  callTime : N
}.

Definition zoneIdIs (id : string) (z : HostedZone * list ResourceRecordSet) : bool :=
  String.eqb (ToString (Id (fst z))) id.

Definition scripted (s : Script) : Services Account :=
  {| RegisterDomain := fun _ w => (registerAnswer s, w);
     GetOperationDetail := fun _ w =>
       (pollAnswer s (polls w), {| polls := S (polls w); zones := zones w |});
     UpdateDomainNameservers := fun _ _ w => (nameserversAnswer s, w);
     GetDomainDetail := fun _ w => (detailAnswer s, w);
     DeleteDomain := fun _ w => (deleteDomainAnswer s, w);
     ListHostedZonesByName := fun input w =>
       (Ok (firstn (Z.to_nat (match MaxItems input with Some n => n | None => 100 end))
                   (map fst (zones w))), w);
     ListResourceRecordSets := fun id w =>
       (match find (zoneIdIs id) (zones w) with
        | Some z => Ok (snd z)
        | None => Err "NoSuchHostedZone"
        end, w);
     DeleteHostedZone := fun id w =>
       (deleteZoneAnswer s,
        if isOk (deleteZoneAnswer s)
        then {| polls := polls w;
                zones := filter (fun z => negb (zoneIdIs id z)) (zones w) |}
        else w);
     latency := fun _ => callTime s;
     oversleep := fun _ => 0%N |}.

Definition contact : ContactModel :=
  {| FirstName := tfKnown "Ada"; LastName := tfKnown "Lovelace";
     Email := tfKnown "ada@example.com"; PhoneNumber := tfKnown "+1.5551234567";
     AddressLine1 := tfKnown "1 Main St"; AddressLine2 := tfNull;
     City := tfKnown "Seattle"; State_ := tfKnown "WA"; ZipCode := tfKnown "98101";
     CountryCode := tfKnown "US"; ContactType := tfNull |}.

(** A plan for [domainName] with the schema's defaults but for the
    timeout (seconds), the nameservers and the two deletion flags. *)
Definition plan (domainName : string) (timeout : Z) (nameservers : list string)
    (allowDelete deleteZone : bool) : DomainRegistrationResourceModel :=
  {| ID := tfUnknown;
     DomainName := tfKnown domainName;
     DurationYears := tfKnown 1;
     AutoRenew := tfKnown false;
     AdminContact := Some contact;
     RegistrantContact := Some contact;
     TechContact := Some contact;
     AdminPrivacy := tfKnown true;
     RegistrantPrivacy := tfKnown true;
     TechPrivacy := tfKnown true;
     Nameservers := map tfKnown nameservers;
     AllowDelete := tfKnown allowDelete;
     DeleteHostedZone_ := tfKnown deleteZone;
     Status := tfUnknown;
     ExpirationDate := tfUnknown;
     CreationDate := tfUnknown;
     RegistrationTimeout := tfKnown timeout;
     HostedZoneID := tfUnknown |}.

Definition status (s : string) : result GetOperationDetailOutput :=
  Ok {| opStatus := s; opMessage := None |}.

Definition registeredDetail : GetDomainDetailOutput :=
  {| ddAutoRenew := Some false;
     ddExpirationDate := Some "2027-11-03T00:00:00Z";
     ddCreationDate := Some "2026-11-03T00:00:00Z";
     ddStatusList := ["ok"];
     ddNameservers := [Some "ns-1.awsdns-01.org"] |}.

Definition stuck : Script :=
  {| registerAnswer := Ok "op-1";
     pollAnswer := fun _ => status "IN_PROGRESS";
     nameserversAnswer := Ok tt;
     detailAnswer := Ok registeredDetail;
     deleteDomainAnswer := Ok tt;
     deleteZoneAnswer := Ok tt;
     callTime := 0 |}.

Definition emptyAccount : Account := {| polls := 0; zones := [] |}.

Definition settled : Script :=
  {| registerAnswer := Ok "op-1";
     pollAnswer := fun _ => status "SUCCESSFUL";
     nameserversAnswer := Ok tt;
     detailAnswer := Ok registeredDetail;
     deleteDomainAnswer := Ok tt;
     deleteZoneAnswer := Ok tt;
     callTime := 0 |}.

(** The registration completes at the third poll. *)
Definition slow : Script :=
  {| registerAnswer := Ok "op-1";
     pollAnswer := fun n =>
       match n with
       | 0%nat => status "PENDING"
       | 1%nat => status "IN_PROGRESS"
       | _ => status "SUCCESSFUL"
       end;
     nameserversAnswer := Ok tt;
     detailAnswer := Ok registeredDetail;
     deleteDomainAnswer := Ok tt;
     deleteZoneAnswer := Ok tt;
     callTime := 0 |}.

(** The second poll is answered FAILED, with a message. *)
Definition rejected : Script :=
  {| registerAnswer := Ok "op-1";
     pollAnswer := fun n =>
       match n with
       | O => status "IN_PROGRESS"
       | _ => Ok {| opStatus := "FAILED"; opMessage := Some "payment declined" |}
       end;
     nameserversAnswer := Ok tt;
     detailAnswer := Ok registeredDetail;
     deleteDomainAnswer := Ok tt;
     deleteZoneAnswer := Ok tt;
     callTime := 0 |}.

Definition badNameservers : Script :=
  {| registerAnswer := Ok "op-1";
     pollAnswer := fun _ => status "SUCCESSFUL";
     nameserversAnswer := Err "InvalidInput: nameserver not reachable";
     detailAnswer := Ok registeredDetail;
     deleteDomainAnswer := Ok tt;
     deleteZoneAnswer := Ok tt;
     callTime := 0 |}.

Definition throttled : Script :=
  {| registerAnswer := Ok "op-1";
     pollAnswer := fun _ => status "SUCCESSFUL";
     nameserversAnswer := Ok tt;
     detailAnswer := Err "ThrottlingException: Rate exceeded";
     deleteDomainAnswer := Ok tt;
     deleteZoneAnswer := Err "AccessDenied";
     callTime := 0 |}.

Definition zoneOf (name id comment : string) (private : bool) : HostedZone :=
  {| Name := Some name;
     Id := Some id;
     Config := Some {| Comment := Some comment; PrivateZone := private |} |}.

Definition record (name type : string) : ResourceRecordSet :=
  {| rrName := Some name; rrType := type |}.

Definition registrarZone : HostedZone :=
  zoneOf "example.com." "/hostedzone/Z1234567890ABC" RegistrarComment false.

Definition registrarRecords : list ResourceRecordSet :=
  [record "example.com." "NS"; record "example.com." "SOA"; record "example.com." "SOA"].

Definition registrarAccount : Account :=
  {| polls := 0; zones := [(registrarZone, registrarRecords)] |}.

Definition privateZone : HostedZone :=
  zoneOf "example.com." "/hostedzone/Z0PRIVATE" "internal" true.

Definition privateAccount : Account :=
  {| polls := 0;
     zones := [(privateZone,
                [record "example.com." "NS"; record "www.example.com." "A"])] |}.

Definition subZone : HostedZone :=
  zoneOf "sub.example.com." "/hostedzone/Z2SUB" RegistrarComment false.

Definition shadowedAccount : Account :=
  {| polls := 0; zones := [(subZone, []); (registrarZone, registrarRecords)] |}.

(** ** Reading a trace *)

Definition isRegisterDomain (e : Event) : bool :=
  match e with EvRegisterDomain _ _ => true | _ => false end.
Definition isGetOperationDetail (e : Event) : bool :=
  match e with EvGetOperationDetail _ _ => true | _ => false end.
Definition isUpdateDomainNameservers (e : Event) : bool :=
  match e with EvUpdateDomainNameservers _ _ _ => true | _ => false end.
Definition isGetDomainDetail (e : Event) : bool :=
  match e with EvGetDomainDetail _ _ => true | _ => false end.
Definition isListResourceRecordSets (e : Event) : bool :=
  match e with EvListResourceRecordSets _ _ => true | _ => false end.
Definition isDeleteHostedZone (e : Event) : bool :=
  match e with EvDeleteHostedZone _ _ => true | _ => false end.

(** [calls p t]: the number of events of kind [p] in [t]. *)
Definition calls (p : Event -> bool) (t : list Event) : nat :=
  length (filter p t).

(** The API an event is a call of. *)
Definition eventName (e : Event) : string :=
  match e with
  | EvRegisterDomain _ _ => "RegisterDomain"
  | EvGetOperationDetail _ _ => "GetOperationDetail"
  | EvUpdateDomainNameservers _ _ _ => "UpdateDomainNameservers"
  | EvGetDomainDetail _ _ => "GetDomainDetail"
  | EvDeleteDomain _ _ => "DeleteDomain"
  | EvListHostedZonesByName _ _ => "ListHostedZonesByName"
  | EvListResourceRecordSets _ _ => "ListResourceRecordSets"
  | EvDeleteHostedZone _ _ => "DeleteHostedZone"
  | EvSleep _ => "Sleep"
  end.

(** The statuses answered to the polls of a trace, in order. *)
Definition polledStatuses (t : list Event) : list string :=
  flat_map (fun e =>
    match e with
    | EvGetOperationDetail _ (Ok opDetail) => [opStatus opDetail]
    | _ => []
    end) t.

(** What [pollOnce] makes of the answer to a poll: how it leaves the loop,
    or [None] when it sleeps and polls again. *)
Definition verdict (domainName : string) (answer : result GetOperationDetailOutput)
  : option loopExit :=
  match answer with
  | Err err =>
      Some (Returned (AddError "Error checking registration status"
        ("Could not check registration status for " ++ domainName ++ ": " ++ err)))
  | Ok opDetail =>
      if String.eqb (opStatus opDetail) OperationStatusSuccessful
      then Some LeftLoop
      else if String.eqb (opStatus opDetail) OperationStatusFailed
      then Some (Returned (AddError "Domain registration failed"
        ("Domain registration for " ++ domainName ++ " failed: "
           ++ ToString (opMessage opDetail))))
      else if String.eqb (opStatus opDetail) OperationStatusError
      then Some (Returned (AddError "Domain registration error"
        ("Domain registration for " ++ domainName ++ " encountered an error: "
           ++ ToString (opMessage opDetail))))
      else None
  end.

(** The events of a run of the polling loop and the way it ends: polls
    that lead to a sleep, then either the poll that ends the loop or the
    loop condition failing. *)
Inductive pollEvents (domainName operationId : string)
  : list Event -> loopExit -> Prop :=
| pollEvents_deadline :
    pollEvents domainName operationId [] LeftLoop
| pollEvents_exit answer e :
    verdict domainName answer = Some e ->
    pollEvents domainName operationId [EvGetOperationDetail operationId answer] e
| pollEvents_again answer evs e :
    verdict domainName answer = None ->
    pollEvents domainName operationId evs e ->
    pollEvents domainName operationId
      (EvGetOperationDetail operationId answer :: EvSleep pollInterval :: evs) e.

(** The four conditions under which [deleteRegistrarHostedZone] is meant
    to delete [zone], whose records are [records]. *)
Definition onlyNSandSOA (records : list ResourceRecordSet) : Prop :=
  Forall (fun record => rrType record = "NS" \/ rrType record = "SOA") records.

Definition eligible (domainName : string) (zone : HostedZone)
    (records : list ResourceRecordSet) : Prop :=
  TrimSuffix (ToString (Name zone)) "." = domainName
  /\ isPrivate zone = false
  /\ zoneComment zone = RegistrarComment
  /\ onlyNSandSOA records.

(** A [DeleteHostedZone] call is in the trace. *)
Definition deletesZone (t : list Event) : Prop :=
  exists id r, In (EvDeleteHostedZone id r) t.

(** The events of the Route 53 client. *)
Definition isRoute53 (e : Event) : bool :=
  match e with
  | EvListHostedZonesByName _ _
  | EvListResourceRecordSets _ _
  | EvDeleteHostedZone _ _ => true
  | _ => false
  end.

(** The event of the nameserver step of [Create] when the step does not
    fail: none without nameservers in the plan. *)
Definition nameserverEvents (data : DomainRegistrationResourceModel) : list Event :=
  if (0 <? length (Nameservers data))%nat
  then [EvUpdateDomainNameservers (ValueString (DomainName data))
          (map ValueString (Nameservers data)) (Ok tt)]
  else [].

(** The runs of [Create], by the step that ends them: the calls made, in
    order, and the response. *)
Inductive CreateRun (data : DomainRegistrationResourceModel)
  : list Event -> Response -> Prop :=
| CreateRun_register err :
    CreateRun data
      [EvRegisterDomain (registerInputOf data) (Err err)]
      (failed "Error registering domain"
         ("Could not register domain " ++ ValueString (DomainName data) ++ ": " ++ err))
| CreateRun_poll operationId evs d :
    pollEvents (ValueString (DomainName data)) operationId evs (Returned d) ->
    CreateRun data
      (EvRegisterDomain (registerInputOf data) (Ok operationId) :: evs)
      {| Diagnostics := [d]; State := None |}
| CreateRun_nameservers operationId evs err :
    pollEvents (ValueString (DomainName data)) operationId evs LeftLoop ->
    Nameservers data <> [] ->
    CreateRun data
      (EvRegisterDomain (registerInputOf data) (Ok operationId)
         :: evs ++ [EvUpdateDomainNameservers (ValueString (DomainName data))
                      (map ValueString (Nameservers data)) (Err err)])
      (failed "Error updating nameservers"
         ("Could not update nameservers for " ++ ValueString (DomainName data)
            ++ ": " ++ err))
| CreateRun_detail operationId evs err :
    pollEvents (ValueString (DomainName data)) operationId evs LeftLoop ->
    CreateRun data
      (EvRegisterDomain (registerInputOf data) (Ok operationId)
         :: evs ++ nameserverEvents data
         ++ [EvGetDomainDetail (ValueString (DomainName data)) (Err err)])
      (failed "Error reading domain details"
         ("Could not read domain details for " ++ ValueString (DomainName data)
            ++ ": " ++ err))
| CreateRun_done operationId evs domainDetail zoneEvs zoneID :
    pollEvents (ValueString (DomainName data)) operationId evs LeftLoop ->
    Forall (fun e => isRoute53 e = true) zoneEvs ->
    CreateRun data
      (EvRegisterDomain (registerInputOf data) (Ok operationId)
         :: evs ++ nameserverEvents data
         ++ EvGetDomainDetail (ValueString (DomainName data)) (Ok domainDetail)
         :: zoneEvs)
      {| Diagnostics := [];
         State := Some (setHostedZoneID
                          (withDomainDetail data (ValueString (DomainName data))
                             domainDetail) zoneID) |}.

(** [m] only adds events of kind [p] to the trace. *)
Definition adds {W A} (p : Event -> bool) (m : M W A) : Prop :=
  forall st, exists evs,
    trace (snd (m st)) = (trace st ++ evs)%list /\ Forall (fun e => p e = true) evs.

(** ** Runs of the zone guard *)

Definition isSleep (e : Event) : bool :=
  match e with EvSleep _ => true | _ => false end.
Definition isDeleteDomain (e : Event) : bool :=
  match e with EvDeleteDomain _ _ => true | _ => false end.
Definition isListHostedZonesByName (e : Event) : bool :=
  match e with EvListHostedZonesByName _ _ => true | _ => false end.

(** The runs of [deleteRegistrarHostedZone], by the place it returns at:
    the calls made, in order, and the error returned. The zone that decides
    is the first listed one of the domain's name. *)
Inductive ZoneRun (domainName : string) : list Event -> option zoneError -> Prop :=
| ZoneRun_listing err :
    ZoneRun domainName
      [EvListHostedZonesByName (zonesByNameInput domainName) (Err err)]
      (Some (ListZonesFailed err))
| ZoneRun_not_found zones :
    find (zoneNameIs domainName) zones = None ->
    ZoneRun domainName
      [EvListHostedZonesByName (zonesByNameInput domainName) (Ok zones)]
      (Some (ZoneNotFound domainName))
| ZoneRun_private zones zone :
    find (zoneNameIs domainName) zones = Some zone ->
    isPrivate zone = true ->
    ZoneRun domainName
      [EvListHostedZonesByName (zonesByNameInput domainName) (Ok zones)]
      (Some ZonePrivate)
| ZoneRun_comment zones zone :
    find (zoneNameIs domainName) zones = Some zone ->
    isPrivate zone = false ->
    zoneComment zone <> RegistrarComment ->
    ZoneRun domainName
      [EvListHostedZonesByName (zonesByNameInput domainName) (Ok zones)]
      (Some (CommentMismatch (zoneComment zone)))
| ZoneRun_records zones zone err :
    find (zoneNameIs domainName) zones = Some zone ->
    isPrivate zone = false ->
    zoneComment zone = RegistrarComment ->
    ZoneRun domainName
      [EvListHostedZonesByName (zonesByNameInput domainName) (Ok zones);
       EvListResourceRecordSets (ToString (Id zone)) (Err err)]
      (Some (ListRecordsFailed err))
| ZoneRun_custom zones zone records record :
    find (zoneNameIs domainName) zones = Some zone ->
    isPrivate zone = false ->
    zoneComment zone = RegistrarComment ->
    firstCustomRecord records = Some record ->
    ZoneRun domainName
      [EvListHostedZonesByName (zonesByNameInput domainName) (Ok zones);
       EvListResourceRecordSets (ToString (Id zone)) (Ok records)]
      (Some (HasCustomRecord (ToString (rrName record)) (rrType record)))
| ZoneRun_delete zones zone records r :
    find (zoneNameIs domainName) zones = Some zone ->
    isPrivate zone = false ->
    zoneComment zone = RegistrarComment ->
    firstCustomRecord records = None ->
    ZoneRun domainName
      [EvListHostedZonesByName (zonesByNameInput domainName) (Ok zones);
       EvListResourceRecordSets (ToString (Id zone)) (Ok records);
       EvDeleteHostedZone (ToString (Id zone)) r]
      (match r with
       | Ok _ => None
       | Err err => Some (DeleteZoneFailed err)
       end).

(** ** Runs of the hosted zone step of [Create] *)

(** The hosted zone id [findHostedZoneID] makes of a listing answer, as
    [Create] and [Read] store it. *)
Definition storedZoneID (domainName : string) (answer : result (list HostedZone))
  : tfValue string :=
  match answer with
  | Err _ => tfNull
  | Ok zones =>
      match findZoneIn domainName zones with
      | inl hostedZoneID => tfKnown hostedZoneID
      | inr _ => tfNull
      end
  end.

(** The runs of the hosted zone step of [Create]: without
    [delete_hosted_zone] one lookup; with it a run of the zone guard, and a
    lookup when the guard returned an error. *)
Inductive HostedZoneRun (data : DomainRegistrationResourceModel) (domainName : string)
  : list Event -> tfValue string -> Prop :=
| HostedZoneRun_lookup answer :
    ValueBool (DeleteHostedZone_ data) = false ->
    HostedZoneRun data domainName
      [EvListHostedZonesByName (zonesByNameInput domainName) answer]
      (storedZoneID domainName answer)
| HostedZoneRun_deleted evs :
    ValueBool (DeleteHostedZone_ data) = true ->
    ZoneRun domainName evs None ->
    HostedZoneRun data domainName evs tfNull
| HostedZoneRun_kept evs err answer :
    ValueBool (DeleteHostedZone_ data) = true ->
    ZoneRun domainName evs (Some err) ->
    HostedZoneRun data domainName
      (evs ++ [EvListHostedZonesByName (zonesByNameInput domainName) answer])
      (storedZoneID domainName answer).

(** A poll after which the loop sleeps. *)
Definition isWaitingPoll (domainName : string) (e : Event) : bool :=
  match e with
  | EvGetOperationDetail _ answer =>
      match verdict domainName answer with
      | None => true
      | Some _ => false
      end
  | _ => false
  end.

(** The timeout of [Create], a [time.Duration]. *)
Definition timeoutOf (data : DomainRegistrationResourceModel) : Z :=
  int64 (ValueInt64 (RegistrationTimeout data) * Second).

(** The attributes of the model that are the user's: a function that
    keeps them returns a state that differs from [a] in computed
    attributes only. *)
Definition sameContactsAndFlags (a b : DomainRegistrationResourceModel) : Prop :=
  DomainName b = DomainName a
  /\ DurationYears b = DurationYears a
  /\ AdminContact b = AdminContact a
  /\ RegistrantContact b = RegistrantContact a
  /\ TechContact b = TechContact a
  /\ AdminPrivacy b = AdminPrivacy a
  /\ RegistrantPrivacy b = RegistrantPrivacy a
  /\ TechPrivacy b = TechPrivacy a
  /\ AllowDelete b = AllowDelete a
  /\ DeleteHostedZone_ b = DeleteHostedZone_ a
  /\ RegistrationTimeout b = RegistrationTimeout a.

(** ** Update *)

(** The calls of [Update], with their answers. *)
Inductive UpdateEvent : Type :=
| UvEnableDomainAutoRenew (domainName : string) (r : result unit)
| UvDisableDomainAutoRenew (domainName : string) (r : result unit)
| UvUpdateDomainNameservers (domainName : string) (nameservers : list string)
    (r : result unit)
| UvUpdateDomainContact (domainName : string)
    (admin registrant tech : option ContactDetail) (r : result unit)
| UvUpdateDomainContactPrivacy (domainName : string)
    (admin registrant tech : option bool) (r : result unit)
| UvGetDomainDetail (domainName : string) (r : result GetDomainDetailOutput).

(** The registrar client as [Update] uses it: the calls it shares with
    [Create] and four of its own. *)
Record UpdateServices (W : Type) : Type := {
  domains : Services W;
  EnableDomainAutoRenew : string -> W -> result unit * W;
  DisableDomainAutoRenew : string -> W -> result unit * W;
  UpdateDomainContact :
    string -> option ContactDetail -> option ContactDetail -> option ContactDetail ->
    W -> result unit * W;
  UpdateDomainContactPrivacy :
    string -> option bool -> option bool -> option bool -> W -> result unit * W
}.
Arguments domains {W}.
Arguments EnableDomainAutoRenew {W}.
Arguments DisableDomainAutoRenew {W}.
Arguments UpdateDomainContact {W}.
Arguments UpdateDomainContactPrivacy {W}.

(** A run of [Update] threads the remote state and the calls made so far,
    oldest first. *)
Definition UM (W A : Type) : Type := W * list UpdateEvent -> A * (W * list UpdateEvent).

Definition uret {W A} (a : A) : UM W A := fun st => (a, st).

Definition ubind {W A B} (m : UM W A) (k : A -> UM W B) : UM W B :=
  fun st => let (a, st') := m st in k a st'.

Definition ucall {W R} (h : W -> R * W) (ev : R -> UpdateEvent) : UM W R :=
  fun st => let (r, w) := h (fst st) in (r, (w, (snd st ++ [ev r])%list)).

Definition urun {W A} (m : UM W A) (w : W) : A * (W * list UpdateEvent) := m (w, []).

(** The diagnostic [Update] adds for a failed call: every detail reads
    "Could not <what> for <domain>: <error>". *)
Definition reported {A} (summary what domainName : string) (r : result A)
  : option Diagnostic :=
  match r with
  | Err err =>
      Some (AddError summary
              ("Could not " ++ what ++ " for " ++ domainName ++ ": " ++ err))
  | Ok _ => None
  end.

(** A step of [Update] that returns from [Update] when it adds a
    diagnostic. *)
Definition orReturn {W} (step : UM W (option Diagnostic)) (rest : UM W Response)
  : UM W Response :=
  ubind step (fun d =>
    match d with
    | Some d => uret {| Diagnostics := [d]; State := None |}
    | None => rest
    end).

Section UpdateResource.

Context {W : Type} (usvc : UpdateServices W).

(** "Update auto-renew if changed". *)
Definition updateAutoRenew (data state : DomainRegistrationResourceModel)
    (domainName : string) : UM W (option Diagnostic) :=
  if negb (Bool.eqb (ValueBool (AutoRenew data)) (ValueBool (AutoRenew state)))
  then
    if ValueBool (AutoRenew data)
    then
      ubind (ucall (EnableDomainAutoRenew usvc domainName)
                   (UvEnableDomainAutoRenew domainName))
            (fun r => uret (reported "Error enabling auto-renew" "enable auto-renew"
                              domainName r))
    else
      ubind (ucall (DisableDomainAutoRenew usvc domainName)
                   (UvDisableDomainAutoRenew domainName))
            (fun r => uret (reported "Error disabling auto-renew" "disable auto-renew"
                              domainName r))
  else uret None.

(** "Update nameservers if changed": sent whenever the plan has any. *)
Definition updatePlanNameservers (data : DomainRegistrationResourceModel)
    (domainName : string) : UM W (option Diagnostic) :=
  if (0 <? length (Nameservers data))%nat
  then
    let nameservers := map ValueString (Nameservers data) in
    ubind (ucall (UpdateDomainNameservers (domains usvc) domainName nameservers)
                 (UvUpdateDomainNameservers domainName nameservers))
          (fun r => uret (reported "Error updating nameservers" "update nameservers"
                            domainName r))
  else uret None.

(** "Update contacts if changed": sent always. *)
Definition updateContacts (data : DomainRegistrationResourceModel)
    (domainName : string) : UM W (option Diagnostic) :=
  let admin := contactModelToAWS (AdminContact data) in
  let registrant := contactModelToAWS (RegistrantContact data) in
  let tech := contactModelToAWS (TechContact data) in
  ubind (ucall (UpdateDomainContact usvc domainName admin registrant tech)
               (UvUpdateDomainContact domainName admin registrant tech))
        (fun r => uret (reported "Error updating contacts" "update contacts"
                          domainName r)).

(** "Update privacy settings". *)
Definition updatePrivacy (data : DomainRegistrationResourceModel)
    (domainName : string) : UM W (option Diagnostic) :=
  let admin := Some (ValueBool (AdminPrivacy data)) in
  let registrant := Some (ValueBool (RegistrantPrivacy data)) in
  let tech := Some (ValueBool (TechPrivacy data)) in
  ubind (ucall (UpdateDomainContactPrivacy usvc domainName admin registrant tech)
               (UvUpdateDomainContactPrivacy domainName admin registrant tech))
        (fun r => uret (reported "Error updating privacy settings"
                          "update privacy settings" domainName r)).

(** [Update], from the plan [data] and the prior state [state], both read
    without error; [resp.State.Set] is taken to add no diagnostic. *)
Definition Update (data state : DomainRegistrationResourceModel) : UM W Response :=
  let domainName := ValueString (DomainName data) in
  orReturn (updateAutoRenew data state domainName)
    (orReturn (updatePlanNameservers data domainName)
       (orReturn (updateContacts data domainName)
          (orReturn (updatePrivacy data domainName)
             (ubind (ucall (GetDomainDetail (domains usvc) domainName)
                           (UvGetDomainDetail domainName))
                    (fun domainDetail =>
                       match domainDetail with
                       | Err err =>
                           uret (failed "Error reading domain details"
                                   ("Could not read domain details for "
                                      ++ domainName ++ ": " ++ err))
                       | Ok domainDetail =>
                           uret {| Diagnostics := [];
                                   State := Some (withDomainDetail data domainName
                                                    domainDetail) |}
                       end))))).

End UpdateResource.

(** Whether a call of [Update] succeeded, and its kind. *)
Definition succeeded (e : UpdateEvent) : bool :=
  match e with
  | UvEnableDomainAutoRenew _ r
  | UvDisableDomainAutoRenew _ r
  | UvUpdateDomainNameservers _ _ r
  | UvUpdateDomainContact _ _ _ _ r
  | UvUpdateDomainContactPrivacy _ _ _ _ r => isOk r
  | UvGetDomainDetail _ r => isOk r
  end.

Definition isEnableAutoRenew (e : UpdateEvent) : bool :=
  match e with UvEnableDomainAutoRenew _ _ => true | _ => false end.
Definition isDisableAutoRenew (e : UpdateEvent) : bool :=
  match e with UvDisableDomainAutoRenew _ _ => true | _ => false end.
Definition isNameserversUpdate (e : UpdateEvent) : bool :=
  match e with UvUpdateDomainNameservers _ _ _ => true | _ => false end.

(** The calls of a run of [Update] in which no call fails, given the
    answer to the last: auto-renew if it changes, nameservers if the plan
    has any, then contacts, privacy and the detail. *)
Definition autoRenewEvents (data state : DomainRegistrationResourceModel)
  : list UpdateEvent :=
  if negb (Bool.eqb (ValueBool (AutoRenew data)) (ValueBool (AutoRenew state)))
  then if ValueBool (AutoRenew data)
       then [UvEnableDomainAutoRenew (ValueString (DomainName data)) (Ok tt)]
       else [UvDisableDomainAutoRenew (ValueString (DomainName data)) (Ok tt)]
  else [].

Definition planNameserverEvents (data : DomainRegistrationResourceModel)
  : list UpdateEvent :=
  if (0 <? length (Nameservers data))%nat
  then [UvUpdateDomainNameservers (ValueString (DomainName data))
          (map ValueString (Nameservers data)) (Ok tt)]
  else [].

Definition contactEvent (data : DomainRegistrationResourceModel) (r : result unit)
  : UpdateEvent :=
  UvUpdateDomainContact (ValueString (DomainName data))
    (contactModelToAWS (AdminContact data))
    (contactModelToAWS (RegistrantContact data))
    (contactModelToAWS (TechContact data)) r.

Definition privacyEvent (data : DomainRegistrationResourceModel) (r : result unit)
  : UpdateEvent :=
  UvUpdateDomainContactPrivacy (ValueString (DomainName data))
    (Some (ValueBool (AdminPrivacy data)))
    (Some (ValueBool (RegistrantPrivacy data)))
    (Some (ValueBool (TechPrivacy data))) r.

(** The runs of [Update], by the call that ends them. *)
Inductive UpdateRun (data state : DomainRegistrationResourceModel)
  : list UpdateEvent -> Response -> Prop :=
| UpdateRun_enable err :
    ValueBool (AutoRenew data) = true ->
    ValueBool (AutoRenew state) = false ->
    UpdateRun data state
      [UvEnableDomainAutoRenew (ValueString (DomainName data)) (Err err)]
      (failed "Error enabling auto-renew"
         ("Could not enable auto-renew for " ++ ValueString (DomainName data)
            ++ ": " ++ err))
| UpdateRun_disable err :
    ValueBool (AutoRenew data) = false ->
    ValueBool (AutoRenew state) = true ->
    UpdateRun data state
      [UvDisableDomainAutoRenew (ValueString (DomainName data)) (Err err)]
      (failed "Error disabling auto-renew"
         ("Could not disable auto-renew for " ++ ValueString (DomainName data)
            ++ ": " ++ err))
| UpdateRun_nameservers err :
    Nameservers data <> [] ->
    UpdateRun data state
      (autoRenewEvents data state
         ++ [UvUpdateDomainNameservers (ValueString (DomainName data))
               (map ValueString (Nameservers data)) (Err err)])
      (failed "Error updating nameservers"
         ("Could not update nameservers for " ++ ValueString (DomainName data)
            ++ ": " ++ err))
| UpdateRun_contacts err :
    UpdateRun data state
      (autoRenewEvents data state ++ planNameserverEvents data
         ++ [contactEvent data (Err err)])
      (failed "Error updating contacts"
         ("Could not update contacts for " ++ ValueString (DomainName data)
            ++ ": " ++ err))
| UpdateRun_privacy err :
    UpdateRun data state
      (autoRenewEvents data state ++ planNameserverEvents data
         ++ [contactEvent data (Ok tt); privacyEvent data (Err err)])
      (failed "Error updating privacy settings"
         ("Could not update privacy settings for " ++ ValueString (DomainName data)
            ++ ": " ++ err))
| UpdateRun_detail err :
    UpdateRun data state
      (autoRenewEvents data state ++ planNameserverEvents data
         ++ [contactEvent data (Ok tt); privacyEvent data (Ok tt);
             UvGetDomainDetail (ValueString (DomainName data)) (Err err)])
      (failed "Error reading domain details"
         ("Could not read domain details for " ++ ValueString (DomainName data)
            ++ ": " ++ err))
| UpdateRun_done domainDetail :
    UpdateRun data state
      (autoRenewEvents data state ++ planNameserverEvents data
         ++ [contactEvent data (Ok tt); privacyEvent data (Ok tt);
             UvGetDomainDetail (ValueString (DomainName data)) (Ok domainDetail)])
      {| Diagnostics := [];
         State := Some (withDomainDetail data (ValueString (DomainName data))
                          domainDetail) |}.

(** [ucalls p t]: the number of calls of kind [p] in a trace of [Update]. *)
Definition ucalls (p : UpdateEvent -> bool) (t : list UpdateEvent) : nat :=
  length (filter p t).

(** A scripted registrar for [Update]: the script's answers, and one
    answer for each of the four calls of [Update]'s own. *)
Definition scriptedUpdate (s : Script) (enable disable contacts privacy : result unit)
  : UpdateServices Account :=
  {| domains := scripted s;
     EnableDomainAutoRenew := fun _ w => (enable, w);
     DisableDomainAutoRenew := fun _ w => (disable, w);
     UpdateDomainContact := fun _ _ _ _ w => (contacts, w);
     UpdateDomainContactPrivacy := fun _ _ _ _ w => (privacy, w) |}.

(** The state [Create] leaves for [plan], with auto-renew as given. *)
Definition stored (domainName : string) (autoRenew : bool) (nameservers : list string)
  : DomainRegistrationResourceModel :=
  setAutoRenewNameservers
    (withDomainDetail (plan domainName 900 nameservers false false)
       domainName registeredDetail)
    (tfKnown autoRenew) (map tfKnown nameservers).

(** A value that is neither null nor unknown. *)
Definition isKnown {A} (v : tfValue A) : bool :=
  negb (IsNull v) && negb (IsUnknown v).

(** A contact block with every attribute set. *)
Definition allKnown (m : ContactModel) : bool :=
  isKnown (FirstName m) && isKnown (LastName m) && isKnown (Email m)
  && isKnown (PhoneNumber m) && isKnown (AddressLine1 m) && isKnown (AddressLine2 m)
  && isKnown (City m) && isKnown (State_ m) && isKnown (ZipCode m)
  && isKnown (CountryCode m) && isKnown (ContactType m).

Definition companyContact : ContactModel :=
  {| FirstName := tfKnown "Grace"; LastName := tfKnown "Hopper";
     Email := tfKnown "grace@example.com"; PhoneNumber := tfKnown "+1.5557654321";
     AddressLine1 := tfKnown "2 Side St"; AddressLine2 := tfKnown "";
     City := tfKnown "Arlington"; State_ := tfKnown "VA"; ZipCode := tfKnown "22201";
     CountryCode := tfKnown "US"; ContactType := tfKnown "COMPANY" |}.

(** A registrar that answers a record listing with the first [pageSize]
    record sets of the zone, as Route 53 does with its pages of 300: the
    answer's [IsTruncated] and [NextRecordName] tell of the rest, and the
    resource, which lists once, reads neither. All else is [scripted]. *)
Definition paged (pageSize : nat) (s : Script) : Services Account :=
  {| RegisterDomain := RegisterDomain (scripted s);
     GetOperationDetail := GetOperationDetail (scripted s);
     UpdateDomainNameservers := UpdateDomainNameservers (scripted s);
     GetDomainDetail := GetDomainDetail (scripted s);
     DeleteDomain := DeleteDomain (scripted s);
     ListHostedZonesByName := ListHostedZonesByName (scripted s);
     ListResourceRecordSets := fun id w =>
       (match find (zoneIdIs id) (zones w) with
        | Some z => Ok (firstn pageSize (snd z))
        | None => Err "NoSuchHostedZone"
        end, w);
     DeleteHostedZone := DeleteHostedZone (scripted s);
     latency := latency (scripted s);
     oversleep := oversleep (scripted s) |}.

(** [settled], with [DeleteHostedZone] answered by [deleted]. *)
Definition answering (deleted : result unit) : Script :=
  {| registerAnswer := registerAnswer settled;
     pollAnswer := pollAnswer settled;
     nameserversAnswer := nameserversAnswer settled;
     detailAnswer := detailAnswer settled;
     deleteDomainAnswer := deleteDomainAnswer settled;
     deleteZoneAnswer := deleted;
     callTime := callTime settled |}.

(** The NS record set of the delegated subdomain number [n]. *)
Definition delegation (n : nat) : ResourceRecordSet :=
  record ("d" ++ NilEmpty.string_of_uint (Nat.to_uint n) ++ ".example.com.") "NS".

(** The registrar's zone after years of use: the apex NS and SOA, the
    delegations d100 to d397 and an A record for www, 301 record sets in
    the order of a listing (by name, labels reversed). *)
Definition delegatedRecords : list ResourceRecordSet :=
  (record "example.com." "NS" :: record "example.com." "SOA"
     :: map delegation (seq 100 298))
  ++ [record "www.example.com." "A"].

Definition delegatedAccount : Account :=
  {| polls := 0; zones := [(registrarZone, delegatedRecords)] |}.

(** A public zone of the domain that the user made. *)
Definition ownZone : HostedZone :=
  zoneOf "example.com." "/hostedzone/Z3OWN" "managed by hand" false.

Definition ownAccount : Account :=
  {| polls := 0;
     zones := [(ownZone, [record "example.com." "NS"; record "example.com." "SOA"])] |}.

(** ** Strings *)

Lemma length_append (s t : string) :
  String.length (s ++ t) = (String.length s + String.length t)%nat.
Proof. induction s as [| c s IH]; simpl; [reflexivity | rewrite IH; reflexivity]. Qed.

Lemma append_assoc (s t u : string) : (s ++ t) ++ u = s ++ t ++ u.
Proof. induction s as [| c s IH]; simpl; [reflexivity | rewrite IH; reflexivity]. Qed.

Lemma substring_all (s : string) : substring 0 (String.length s) s = s.
Proof. induction s as [| c s IH]; simpl; [reflexivity | rewrite IH; reflexivity]. Qed.

Lemma substring_append_left (s t : string) :
  substring 0 (String.length s) (s ++ t) = s.
Proof.
  induction s as [| c s IH]; simpl.
  - destruct t; reflexivity.
  - rewrite IH. reflexivity.
Qed.

Lemma substring_append_right (s t : string) :
  substring (String.length s) (String.length t) (s ++ t) = t.
Proof.
  induction s as [| c s IH]; simpl; [apply substring_all | exact IH].
Qed.

(** [TrimSuffix] takes a suffix off. *)
Lemma TrimSuffix_append (s suffix : string) : TrimSuffix (s ++ suffix) suffix = s.
Proof.
  unfold TrimSuffix, HasSuffix. rewrite length_append.
  replace (String.length s + String.length suffix - String.length suffix)%nat
    with (String.length s) by lia.
  rewrite substring_append_right, String.eqb_refl, substring_append_left.
  replace (String.length suffix <=? String.length s + String.length suffix)%nat
    with true by (symmetry; apply Nat.leb_le; lia).
  reflexivity.
Qed.

(** A name with a label before the domain name is another name. *)
Lemma label_append_neq (label domainName : string) :
  label <> "" -> label ++ domainName <> domainName.
Proof.
  intros Hlabel Heq. apply (f_equal String.length) in Heq.
  rewrite length_append in Heq. destruct label; [congruence | simpl in Heq; lia].
Qed.

Example TrimSuffix_dot : TrimSuffix "example.com." "." = "example.com".
Proof. reflexivity. Qed.

Example TrimSuffix_one_dot : TrimSuffix "example.com.." "." = "example.com.".
Proof. reflexivity. Qed.

Example TrimSuffix_no_dot : TrimSuffix "example.com" "." = "example.com".
Proof. reflexivity. Qed.

Example TrimPrefix_hostedzone :
  TrimPrefix "/hostedzone/Z1234567890ABC" "/hostedzone/" = "Z1234567890ABC".
Proof. reflexivity. Qed.

(** A timeout of 2^63 nanoseconds or more wraps around. *)
Example timeout_wraps : int64 (9223372037 * Second) < 0.
Proof. reflexivity. Qed.

(** ** The polling loop *)

Section PollingFacts.

Context {W : Type} (svc : Services W).

Lemma pollOnce_run domainName operationId st :
  exists answer,
    fst (pollOnce svc domainName operationId st) = verdict domainName answer
    /\ trace (snd (pollOnce svc domainName operationId st))
       = (trace st ++ EvGetOperationDetail operationId answer
            :: match verdict domainName answer with
               | None => [EvSleep pollInterval]
               | Some _ => []
               end)%list.
Proof.
  unfold pollOnce, bind, call, Sleep, ret, verdict.
  destruct (GetOperationDetail svc operationId (remote st)) as [[d | e] w].
  - exists (Ok d).
    repeat match goal with |- context [if ?b then _ else _] => destruct b end;
      simpl; rewrite <- ?app_assoc; auto.
  - exists (Err e). simpl. auto.
Qed.

Lemma pollUntil_events deadline domainName operationId st :
  exists evs,
    trace (snd (pollUntil svc deadline domainName operationId st))
      = (trace st ++ evs)%list
    /\ pollEvents domainName operationId evs
         (fst (pollUntil svc deadline domainName operationId st)).
Proof.
  funelim (pollUntil svc deadline domainName operationId st).
  - exists []. simpl. rewrite app_nil_r. split; [reflexivity | constructor].
  - destruct (pollOnce_run domainName operationId st) as [answer [Hv Ht]].
    match goal with Hp : pollOnce _ _ _ _ = _ |- _ => rewrite Hp in Hv, Ht end.
    simpl in *. rewrite <- Hv in Ht.
    exists [EvGetOperationDetail operationId answer]. split; [assumption |].
    constructor. symmetry; assumption.
  - destruct (pollOnce_run domainName operationId st) as [answer [Hv Ht]].
    match goal with Hp : pollOnce _ _ _ _ = _ |- _ => rewrite Hp in Hv, Ht end.
    simpl in Hv, Ht. rewrite <- Hv in Ht.
    match goal with IH : exists _, _ |- _ => destruct IH as [evs [IHt IHp]] end.
    exists (EvGetOperationDetail operationId answer :: EvSleep pollInterval :: evs).
    split.
    + rewrite IHt, Ht, <- app_assoc. reflexivity.
    + constructor; [symmetry; assumption | assumption].
Qed.

End PollingFacts.

(** ** The zone guard *)

Lemma zoneNameIs_true domainName zone :
  zoneNameIs domainName zone = true
  <-> TrimSuffix (ToString (Name zone)) "." = domainName.
Proof. unfold zoneNameIs. apply String.eqb_eq. Qed.

Lemma zoneNameIs_false domainName zone :
  zoneNameIs domainName zone = false
  <-> TrimSuffix (ToString (Name zone)) "." <> domainName.
Proof. unfold zoneNameIs. apply String.eqb_neq. Qed.

Lemma isCustomRecord_false record :
  isCustomRecord record = false <-> rrType record = "NS" \/ rrType record = "SOA".
Proof.
  unfold isCustomRecord.
  destruct (String.eqb_spec (rrType record) "NS") as [HN | HN];
    destruct (String.eqb_spec (rrType record) "SOA") as [HS | HS];
    simpl; split; intros H; auto; try discriminate.
  destruct H; contradiction.
Qed.

Lemma firstCustomRecord_None records :
  firstCustomRecord records = None <-> onlyNSandSOA records.
Proof.
  unfold onlyNSandSOA. induction records as [| record rest IH]; simpl.
  - split; auto.
  - destruct (isCustomRecord record) eqn:Hc.
    + split; [discriminate |]. intros H. inversion H as [| ? ? Hr _]; subst.
      apply isCustomRecord_false in Hr. congruence.
    + apply isCustomRecord_false in Hc. rewrite IH. split.
      * intros H. constructor; assumption.
      * intros H. inversion H; assumption.
Qed.

Lemma onlyNSandSOA_types records :
  Forall (fun type => type = "NS" \/ type = "SOA") (map rrType records) ->
  onlyNSandSOA records.
Proof.
  unfold onlyNSandSOA. rewrite Forall_map. auto.
Qed.

Lemma firstCustomRecord_skips before record after :
  onlyNSandSOA before -> isCustomRecord record = true ->
  firstCustomRecord (before ++ record :: after) = Some record.
Proof.
  intros Hb Hc. induction Hb as [| r rest Hr _ IH]; simpl.
  - rewrite Hc. reflexivity.
  - apply isCustomRecord_false in Hr. rewrite Hr. assumption.
Qed.

Lemma findZoneIn_found domainName zones zoneID :
  findZoneIn domainName zones = inl zoneID ->
  exists zone, In zone zones /\ zoneNameIs domainName zone = true
               /\ zoneID = TrimPrefix (ToString (Id zone)) "/hostedzone/".
Proof.
  induction zones as [| zone rest IH]; simpl; [discriminate |].
  destruct (zoneNameIs domainName zone) eqn:Hn.
  - intros H. inversion H. exists zone. auto.
  - intros H. destruct (IH H) as [z [Hin Hz]]. exists z. auto.
Qed.

Lemma findZoneIn_none domainName zones :
  Forall (fun zone => zoneNameIs domainName zone = false) zones ->
  findZoneIn domainName zones = inr (ZoneNotFound domainName).
Proof.
  induction 1 as [| zone rest Hz _ IH]; simpl; [reflexivity |].
  rewrite Hz. assumption.
Qed.

Lemma findZoneIn_first domainName before zone after :
  Forall (fun z => zoneNameIs domainName z = false) before ->
  zoneNameIs domainName zone = true ->
  findZoneIn domainName (before ++ zone :: after)
  = inl (TrimPrefix (ToString (Id zone)) "/hostedzone/").
Proof.
  induction 1 as [| z rest Hz _ IH]; simpl; intros Hn.
  - rewrite Hn. reflexivity.
  - rewrite Hz. auto.
Qed.

Section ZoneGuard.

Context {W : Type} (svc : Services W).

Lemma findHostedZoneID_run domainName st :
  findHostedZoneID svc domainName st
  = let (output, w) := ListHostedZonesByName svc (zonesByNameInput domainName) (remote st) in
    (match output with
     | Err err => inr (ListZonesFailed err)
     | Ok zones => findZoneIn domainName zones
     end,
     mkSt (clock st + Z.of_N (latency svc w)) w
          (trace st ++ [EvListHostedZonesByName (zonesByNameInput domainName) output])).
Proof.
  unfold findHostedZoneID, bind, call, ret.
  destruct (ListHostedZonesByName svc _ (remote st)) as [[zones | err] w]; reflexivity.
Qed.

Lemma deleteZoneIn_none domainName zones st :
  Forall (fun zone => zoneNameIs domainName zone = false) zones ->
  deleteZoneIn svc domainName zones st = (Some (ZoneNotFound domainName), st).
Proof.
  induction 1 as [| zone rest Hz _ IH]; simpl; [reflexivity |].
  rewrite Hz. simpl. assumption.
Qed.

Lemma deleteZoneIn_first domainName before zone after st :
  Forall (fun z => zoneNameIs domainName z = false) before ->
  zoneNameIs domainName zone = true ->
  deleteZoneIn svc domainName (before ++ zone :: after) st
  = deleteCheckedZone svc zone st.
Proof.
  induction 1 as [| z rest Hz _ IH]; simpl; intros Hn.
  - rewrite Hn. reflexivity.
  - rewrite Hz. simpl. auto.
Qed.

End ZoneGuard.

Section ZoneGuardTheorems.

Context {W : Type} (svc : Services W).

(** The run of [deleteRegistrarHostedZone] when the listing answers with
    the single zone [zone], whose name is the domain's. *)
Lemma deleteRegistrarHostedZone_single domainName zone w w1 t0 :
  ListHostedZonesByName svc (zonesByNameInput domainName) w = (Ok [zone], w1) ->
  zoneNameIs domainName zone = true ->
  exec (deleteRegistrarHostedZone svc domainName) w t0
  = deleteCheckedZone svc zone
      (mkSt (t0 + Z.of_N (latency svc w1)) w1
         [EvListHostedZonesByName (zonesByNameInput domainName) (Ok [zone])]).
Proof.
  intros Hlist Hname.
  unfold exec, deleteRegistrarHostedZone, bind, call. simpl.
  rewrite Hlist. simpl. rewrite Hname. reflexivity.
Qed.

Lemma eligible_dec domainName zone records :
  eligible domainName zone records \/ ~ eligible domainName zone records.
Proof.
  unfold eligible.
  destruct (string_dec (TrimSuffix (ToString (Name zone)) ".") domainName);
    [| right; tauto].
  destruct (isPrivate zone); [right; intuition discriminate |].
  destruct (string_dec (zoneComment zone) RegistrarComment); [| right; tauto].
  destruct (firstCustomRecord records) eqn:Hfirst.
  - right. intros (_ & _ & _ & Hr). apply firstCustomRecord_None in Hr. congruence.
  - left. apply firstCustomRecord_None in Hfirst. auto.
Qed.

(** The two kinds of run of [deleteRegistrarHostedZone] on one candidate
    zone whose records can be listed: listing, records, delete when the
    zone is eligible, and no delete otherwise. *)
Lemma deleteRegistrarHostedZone_candidate domainName zone records w w1 w2 t0 :
  ListHostedZonesByName svc (zonesByNameInput domainName) w = (Ok [zone], w1) ->
  ListResourceRecordSets svc (ToString (Id zone)) w1 = (Ok records, w2) ->
  let run := exec (deleteRegistrarHostedZone svc domainName) w t0 in
  (eligible domainName zone records ->
     trace (snd run)
     = [EvListHostedZonesByName (zonesByNameInput domainName) (Ok [zone]);
        EvListResourceRecordSets (ToString (Id zone)) (Ok records);
        EvDeleteHostedZone (ToString (Id zone))
          (fst (DeleteHostedZone svc (ToString (Id zone)) w2))]
     /\ fst run = match fst (DeleteHostedZone svc (ToString (Id zone)) w2) with
                  | Ok _ => None
                  | Err err => Some (DeleteZoneFailed err)
                  end)
  /\ (~ eligible domainName zone records ->
      Forall (fun e => isDeleteHostedZone e = false) (trace (snd run))
      /\ (zoneNameIs domainName zone = true -> isPrivate zone = false ->
          zoneComment zone = RegistrarComment ->
          forall record, firstCustomRecord records = Some record ->
          fst run = Some (HasCustomRecord (ToString (rrName record)) (rrType record)))).
Proof.
  intros Hlist Hrecords run. subst run.
  destruct (zoneNameIs domainName zone) eqn:Hname.
  - rewrite (deleteRegistrarHostedZone_single _ _ _ _ _ Hlist Hname).
    apply zoneNameIs_true in Hname.
    unfold deleteCheckedZone, bind, call, ret. simpl.
    destruct (isPrivate zone) eqn:Hpriv.
    { split.
      - intros (_ & Hp & _). congruence.
      - intros _. simpl. split; [repeat constructor | intros; congruence]. }
    destruct (String.eqb_spec (zoneComment zone) RegistrarComment) as [Hc | Hc]; simpl.
    2:{ split.
        - intros (_ & _ & Hc' & _). contradiction.
        - intros _. split; [repeat constructor | intros; congruence]. }
    rewrite Hrecords. simpl.
    destruct (firstCustomRecord records) as [record |] eqn:Hfirst; simpl.
    { split.
      - intros (_ & _ & _ & Hr). apply firstCustomRecord_None in Hr. congruence.
      - intros _. simpl. split; [repeat constructor |].
        intros _ _ _ record' Heq. inversion Heq; subst. reflexivity. }
    apply firstCustomRecord_None in Hfirst.
    destruct (DeleteHostedZone svc (ToString (Id zone)) w2) as [r w3] eqn:Hdel.
    split.
    + intros _. destruct r; simpl; auto.
    + intros Hne. exfalso. apply Hne. unfold eligible. auto.
  - unfold exec, deleteRegistrarHostedZone, bind, call. simpl.
    rewrite Hlist. simpl. rewrite Hname. simpl.
    apply zoneNameIs_false in Hname. split.
    + intros (Hn & _). contradiction.
    + intros _. split; [repeat constructor | intros; congruence].
Qed.

(** The guard on the answers it reads: when the listing answers with one
    candidate zone and the one record listing answers [records],
    [deleteRegistrarHostedZone] issues [DeleteHostedZone] if and only if
    the zone's name without its trailing dot is the domain name, the zone
    is public, its comment is "HostedZone created by Route53 Registrar" and
    every record of [records] is of type NS or SOA; the call is for that
    zone. In particular a matching public zone listed with records NS,
    SOA, SOA is deleted, and listed with one more record, of type A, it is
    left alone with the error naming that record. Of the records of the
    zone that the answer leaves out nothing is read. *)
Theorem safe_delete_iff_eligible domainName zone records w w1 w2 t0 :
  ListHostedZonesByName svc (zonesByNameInput domainName) w = (Ok [zone], w1) ->
  ListResourceRecordSets svc (ToString (Id zone)) w1 = (Ok records, w2) ->
  let run := exec (deleteRegistrarHostedZone svc domainName) w t0 in
  (deletesZone (trace (snd run)) <-> eligible domainName zone records)
  /\ (forall id r, In (EvDeleteHostedZone id r) (trace (snd run)) ->
        id = ToString (Id zone))
  /\ (TrimSuffix (ToString (Name zone)) "." = domainName ->
      isPrivate zone = false ->
      zoneComment zone = RegistrarComment ->
      (map rrType records = ["NS"; "SOA"; "SOA"] ->
         deletesZone (trace (snd run))
         /\ fst run = match fst (DeleteHostedZone svc (ToString (Id zone)) w2) with
                      | Ok _ => None
                      | Err err => Some (DeleteZoneFailed err)
                      end)
      /\ (forall before a after,
            records = (before ++ a :: after)%list ->
            map rrType (before ++ after) = ["NS"; "SOA"; "SOA"] ->
            rrType a = "A" ->
            fst run = Some (HasCustomRecord (ToString (rrName a)) "A")
            /\ ~ deletesZone (trace (snd run)))).
Proof.
  intros Hlist Hrecords run.
  destruct (deleteRegistrarHostedZone_candidate _ _ _ _ _ _ t0 Hlist Hrecords)
    as [Hyes Hno].
  fold run in Hyes, Hno.
  assert (Hissued : eligible domainName zone records -> deletesZone (trace (snd run))).
  { intros He. destruct (Hyes He) as [Ht _]. rewrite Ht.
    do 2 eexists. right. right. left. reflexivity. }
  assert (Hkept : ~ eligible domainName zone records -> ~ deletesZone (trace (snd run))).
  { intros Hne (id & r & Hin). destruct (Hno Hne) as [Hall _].
    rewrite Forall_forall in Hall. apply Hall in Hin. discriminate. }
  split; [| split].
  - split; [| exact Hissued].
    intros Hdel. destruct (eligible_dec domainName zone records) as [He | Hne];
      [assumption | exfalso; exact (Hkept Hne Hdel)].
  - intros id r Hin.
    destruct (eligible_dec domainName zone records) as [He | Hne].
    + destruct (Hyes He) as [Ht _]. rewrite Ht in Hin.
      destruct Hin as [Hin | [Hin | [Hin | []]]]; try discriminate.
      inversion Hin. reflexivity.
    + exfalso. apply (Hkept Hne). exists id, r. assumption.
  - intros Hname Hpriv Hcomment. split.
    + intros Htypes.
      assert (He : eligible domainName zone records).
      { unfold eligible. repeat (split; [assumption |]).
        apply onlyNSandSOA_types. rewrite Htypes.
        repeat (apply Forall_cons; [auto |]). apply Forall_nil. }
      split; [exact (Hissued He) | exact (proj2 (Hyes He))].
    + intros before a after Heq Htypes Ha.
      assert (Hcustom : isCustomRecord a = true)
        by (unfold isCustomRecord; rewrite Ha; reflexivity).
      assert (Hbefore : onlyNSandSOA before).
      { assert (Hall : onlyNSandSOA (before ++ after)).
        { apply onlyNSandSOA_types. rewrite Htypes.
          repeat (apply Forall_cons; [auto |]). apply Forall_nil. }
        apply Forall_app in Hall. apply Hall. }
      assert (Hfirst : firstCustomRecord records = Some a).
      { rewrite Heq. apply firstCustomRecord_skips; assumption. }
      assert (Hne : ~ eligible domainName zone records).
      { intros (_ & _ & _ & Hr). apply firstCustomRecord_None in Hr. congruence. }
      split; [| exact (Hkept Hne)].
      destruct (Hno Hne) as [_ Hout].
      rewrite (Hout (proj2 (zoneNameIs_true _ _) Hname) Hpriv Hcomment a Hfirst), Ha.
      reflexivity.
Qed.

(** C3: on the zone of the domain's name, [deleteRegistrarHostedZone]
    checks private, then comment, then records, and stops at the first
    check that fails. A private zone is refused as private whatever its
    comment and records are, and its records are never listed; a public
    zone with another comment is refused for its comment, again without
    listing its records; only then the first custom record is reported. *)
Theorem safe_delete_check_order domainName before zone after w w1 t0 :
  ListHostedZonesByName svc (zonesByNameInput domainName) w
    = (Ok (before ++ zone :: after)%list, w1) ->
  Forall (fun z => zoneNameIs domainName z = false) before ->
  zoneNameIs domainName zone = true ->
  let run := exec (deleteRegistrarHostedZone svc domainName) w t0 in
  let listed :=
    EvListHostedZonesByName (zonesByNameInput domainName)
      (Ok (before ++ zone :: after)%list) in
  (isPrivate zone = true ->
     fst run = Some ZonePrivate
     /\ trace (snd run) = [listed]
     /\ calls isListResourceRecordSets (trace (snd run)) = 0%nat)
  /\ (isPrivate zone = false -> zoneComment zone <> RegistrarComment ->
      fst run = Some (CommentMismatch (zoneComment zone))
      /\ trace (snd run) = [listed]
      /\ calls isListResourceRecordSets (trace (snd run)) = 0%nat)
  /\ (isPrivate zone = false -> zoneComment zone = RegistrarComment ->
      forall records w2 record,
        ListResourceRecordSets svc (ToString (Id zone)) w1 = (Ok records, w2) ->
        firstCustomRecord records = Some record ->
        fst run = Some (HasCustomRecord (ToString (rrName record)) (rrType record))
        /\ trace (snd run)
           = [listed; EvListResourceRecordSets (ToString (Id zone)) (Ok records)]).
Proof.
  intros Hlist Hbefore Hname run listed.
  assert (Hrun : run = deleteCheckedZone svc zone
                         (mkSt (t0 + Z.of_N (latency svc w1)) w1 [listed])).
  { subst run listed. unfold exec, deleteRegistrarHostedZone, bind, call. simpl.
    rewrite Hlist. simpl. apply deleteZoneIn_first; assumption. }
  rewrite Hrun. unfold deleteCheckedZone, bind, call, ret.
  split; [| split].
  - intros Hpriv. rewrite Hpriv. simpl. auto.
  - intros Hpriv Hcomment. rewrite Hpriv.
    apply String.eqb_neq in Hcomment. rewrite Hcomment. simpl. auto.
  - intros Hpriv Hcomment records w2 record Hrecords Hfirst.
    rewrite Hpriv. apply String.eqb_eq in Hcomment. rewrite Hcomment. simpl.
    rewrite Hrecords. simpl. rewrite Hfirst. simpl. auto.
Qed.

(** C4: [findHostedZoneID] answers with a listed zone only when the zone's
    name, without one trailing dot, is the domain name itself: it gives the
    id of the first such zone, so that of the zone named with the domain
    name and a trailing dot, and "not found" when the listing has none, as
    when every listed name has a label before the domain name. For
    "example.com" a zone named "example.com." is found, and a listing of
    zones named "sub.example.com." or "notexample.com." gives "not
    found". *)
Theorem findHostedZoneID_exact_match domainName zones w w1 t0 :
  ListHostedZonesByName svc (zonesByNameInput domainName) w = (Ok zones, w1) ->
  let found := fst (exec (findHostedZoneID svc domainName) w t0) in
  (forall zoneID, found = inl zoneID ->
     exists zone, In zone zones
       /\ TrimSuffix (ToString (Name zone)) "." = domainName
       /\ zoneID = TrimPrefix (ToString (Id zone)) "/hostedzone/")
  /\ (forall before zone after,
        zones = (before ++ zone :: after)%list ->
        Forall (fun z => TrimSuffix (ToString (Name z)) "." <> domainName) before ->
        Name zone = Some (domainName ++ ".") ->
        found = inl (TrimPrefix (ToString (Id zone)) "/hostedzone/"))
  /\ (Forall (fun z => exists label,
                 label <> "" /\ Name z = Some (label ++ domainName ++ ".")) zones ->
      found = inr (ZoneNotFound domainName))
  /\ (domainName = "example.com" ->
      (forall zone, zones = [zone] -> Name zone = Some "example.com." ->
         found = inl (TrimPrefix (ToString (Id zone)) "/hostedzone/"))
      /\ (Forall (fun z => Name z = Some "sub.example.com."
                           \/ Name z = Some "notexample.com.") zones ->
          found = inr (ZoneNotFound "example.com"))).
Proof.
  intros Hlist found.
  assert (Hfound : found = findZoneIn domainName zones).
  { subst found. unfold exec. rewrite findHostedZoneID_run. simpl.
    rewrite Hlist. reflexivity. }
  assert (Hfirst : forall before zone after,
        zones = (before ++ zone :: after)%list ->
        Forall (fun z => TrimSuffix (ToString (Name z)) "." <> domainName) before ->
        Name zone = Some (domainName ++ ".") ->
        found = inl (TrimPrefix (ToString (Id zone)) "/hostedzone/")).
  { intros before zone after Heq Hbefore Hname. rewrite Hfound, Heq.
    apply findZoneIn_first.
    - eapply Forall_impl; [| exact Hbefore]. intros z. apply zoneNameIs_false.
    - apply zoneNameIs_true. rewrite Hname. apply TrimSuffix_append. }
  assert (Hnone : Forall (fun z => exists label,
                     label <> "" /\ Name z = Some (label ++ domainName ++ ".")) zones ->
                  found = inr (ZoneNotFound domainName)).
  { intros Hall. rewrite Hfound. apply findZoneIn_none.
    eapply Forall_impl; [| exact Hall]. intros z (label & Hlabel & Hname).
    apply zoneNameIs_false. rewrite Hname. simpl.
    rewrite <- append_assoc, TrimSuffix_append. apply label_append_neq. assumption. }
  split; [| split; [exact Hfirst | split; [exact Hnone |]]].
  - intros zoneID Hid. rewrite Hfound in Hid.
    destruct (findZoneIn_found _ _ _ Hid) as (zone & Hin & Hname & Hz).
    apply zoneNameIs_true in Hname. exists zone. auto.
  - intros Hdomain. split.
    + intros zone Hz Hn. apply (Hfirst [] zone []); [assumption | constructor |].
      rewrite Hn, Hdomain. reflexivity.
    + intros Hall. rewrite <- Hdomain. apply Hnone.
      eapply Forall_impl; [| exact Hall]. rewrite Hdomain.
      intros z [Hz | Hz]; rewrite Hz; [exists "sub." | exists "not"];
        split; try discriminate; reflexivity.
Qed.

(** C9: both lookups ask the listing for one zone only ([MaxItems] 1) and
    look at nothing but the zones in the answer. With a remote that answers
    with the first [MaxItems] candidates, a domain whose zone is a
    candidate but not the first one is reported "not found" by
    [findHostedZoneID] and by [deleteRegistrarHostedZone], after that one
    listing call, although the loop would find the zone among all the
    candidates. *)
Theorem lookup_sees_first_candidate_only domainName candidates w t0 :
  (forall n,
     fst (ListHostedZonesByName svc
            {| DNSName := Some domainName; MaxItems := Some n |} w)
     = Ok (firstn (Z.to_nat n) candidates)) ->
  Forall (fun z => zoneNameIs domainName z = false) (firstn 1 candidates) ->
  (exists zone, In zone candidates /\ zoneNameIs domainName zone = true) ->
  let listed :=
    EvListHostedZonesByName {| DNSName := Some domainName; MaxItems := Some 1 |}
      (Ok (firstn 1 candidates)) in
  let found := exec (findHostedZoneID svc domainName) w t0 in
  let deleted := exec (deleteRegistrarHostedZone svc domainName) w t0 in
  fst found = inr (ZoneNotFound domainName)
  /\ trace (snd found) = [listed]
  /\ fst deleted = Some (ZoneNotFound domainName)
  /\ trace (snd deleted) = [listed]
  /\ findZoneIn domainName candidates <> inr (ZoneNotFound domainName).
Proof.
  intros Hremote Hfirst (zone & Hin & Hname) listed found deleted.
  specialize (Hremote 1).
  change (firstn (Z.to_nat 1) candidates) with (firstn 1 candidates) in Hremote.
  assert (Hfound : found = (inr (ZoneNotFound domainName),
            mkSt (t0 + Z.of_N (latency svc
                    (snd (ListHostedZonesByName svc (zonesByNameInput domainName) w))))
                 (snd (ListHostedZonesByName svc (zonesByNameInput domainName) w))
                 [listed])).
  { subst found listed. unfold exec. rewrite findHostedZoneID_run. simpl.
    unfold zonesByNameInput in *.
    destruct (ListHostedZonesByName svc _ w) as [output w1]. simpl in *. subst output.
    rewrite findZoneIn_none by assumption. reflexivity. }
  assert (Hdeleted : deleted = (Some (ZoneNotFound domainName),
            mkSt (t0 + Z.of_N (latency svc
                    (snd (ListHostedZonesByName svc (zonesByNameInput domainName) w))))
                 (snd (ListHostedZonesByName svc (zonesByNameInput domainName) w))
                 [listed])).
  { subst deleted listed. unfold exec, deleteRegistrarHostedZone, bind, call. simpl.
    unfold zonesByNameInput in *.
    destruct (ListHostedZonesByName svc _ w) as [output w1]. simpl in *. subst output.
    rewrite deleteZoneIn_none by assumption. reflexivity. }
  rewrite Hfound, Hdeleted. simpl. repeat (split; [reflexivity |]).
  clear - Hin Hname.
  induction candidates as [| z rest IH]; simpl in *; [contradiction |].
  destruct (zoneNameIs domainName z) eqn:Hz; [discriminate |].
  destruct Hin as [Heq | Hin]; [subst; congruence | auto].
Qed.

End ZoneGuardTheorems.

(** ** Registration *)

Section AddsFacts.

Context {W : Type} (svc : Services W) (p : Event -> bool).

Lemma adds_ret {A} (a : A) : adds p (ret (W := W) a).
Proof. intros st. exists []. simpl. rewrite app_nil_r. auto. Qed.

Lemma adds_bind {A B} (m : M W A) (k : A -> M W B) :
  adds p m -> (forall a, adds p (k a)) -> adds p (bind m k).
Proof.
  intros Hm Hk st. unfold bind.
  destruct (Hm st) as (evs1 & Ht1 & Hp1).
  destruct (m st) as [a st1]. simpl in Ht1.
  destruct (Hk a st1) as (evs2 & Ht2 & Hp2).
  exists (evs1 ++ evs2)%list. rewrite Ht2, Ht1, app_assoc. split; [reflexivity |].
  apply Forall_app. auto.
Qed.

Lemma adds_call {R} (h : W -> R * W) (ev : R -> Event) :
  (forall r, p (ev r) = true) -> adds p (call svc h ev).
Proof.
  intros Hev st. unfold call. destruct (h (remote st)) as [r w].
  exists [ev r]. simpl. auto.
Qed.

End AddsFacts.

Section RegistrationFacts.

Context {W : Type} (svc : Services W).

Local Arguments String.append : simpl never.

Lemma findHostedZoneID_adds domainName :
  adds isRoute53 (findHostedZoneID svc domainName).
Proof.
  unfold findHostedZoneID. apply adds_bind.
  - apply adds_call. reflexivity.
  - intros [zones | err]; apply adds_ret.
Qed.

Lemma deleteCheckedZone_adds zone : adds isRoute53 (deleteCheckedZone svc zone).
Proof.
  unfold deleteCheckedZone.
  destruct (isPrivate zone); [apply adds_ret |].
  destruct (negb _); [apply adds_ret |].
  apply adds_bind; [apply adds_call; reflexivity |].
  intros [records | err]; [| apply adds_ret].
  destruct (firstCustomRecord records); [apply adds_ret |].
  apply adds_bind; [apply adds_call; reflexivity |].
  intros [u | err]; apply adds_ret.
Qed.

Lemma deleteRegistrarHostedZone_adds domainName :
  adds isRoute53 (deleteRegistrarHostedZone svc domainName).
Proof.
  unfold deleteRegistrarHostedZone.
  apply adds_bind; [apply adds_call; reflexivity |].
  intros [zones | err]; [| apply adds_ret].
  induction zones as [| zone rest IH]; simpl; [apply adds_ret |].
  destruct (negb _); [assumption | apply deleteCheckedZone_adds].
Qed.

Lemma handleHostedZone_adds data domainName :
  adds isRoute53 (handleHostedZone svc data domainName).
Proof.
  unfold handleHostedZone. destruct (ValueBool _).
  - apply adds_bind; [apply deleteRegistrarHostedZone_adds |].
    intros [err |]; [| apply adds_ret].
    apply adds_bind; [apply findHostedZoneID_adds |].
    intros [id | err']; apply adds_ret.
  - apply adds_bind; [apply findHostedZoneID_adds |].
    intros [id | err']; apply adds_ret.
Qed.

(** The nameserver step: what it answers and the event it adds. *)
Lemma updateNameservers_run data st :
  let domainName := ValueString (DomainName data) in
  (fst (updateNameservers svc data domainName st) = None
   /\ trace (snd (updateNameservers svc data domainName st))
      = (trace st ++ nameserverEvents data)%list)
  \/ (exists err,
        Nameservers data <> []
        /\ fst (updateNameservers svc data domainName st)
           = Some (AddError "Error updating nameservers"
                     ("Could not update nameservers for " ++ domainName ++ ": " ++ err))
        /\ trace (snd (updateNameservers svc data domainName st))
           = (trace st ++ [EvUpdateDomainNameservers domainName
                             (map ValueString (Nameservers data)) (Err err)])%list).
Proof.
  unfold updateNameservers, nameserverEvents, bind, call, ret.
  destruct (0 <? length (Nameservers data))%nat eqn:Hlen.
  - destruct (UpdateDomainNameservers svc _ _ (remote st)) as [[[] | err] w]; simpl.
    + left. auto.
    + right. exists err. split; [| auto].
      destruct (Nameservers data); [discriminate | congruence].
  - left. simpl. rewrite app_nil_r. auto.
Qed.

(** Every run of [Create] is one of the five runs of [CreateRun]. *)
Lemma Create_run data w t0 resp st :
  exec (Create svc data) w t0 = (resp, st) -> CreateRun data (trace st) resp.
Proof.
  unfold exec, Create. unfold bind at 1. unfold call at 1. simpl.
  destruct (RegisterDomain svc (registerInputOf data) w) as [[operationId | err] w1].
  2:{ intros H. inversion H; subst. simpl. apply CreateRun_register. }
  unfold bind at 1. unfold Now at 1. simpl.
  unfold bind at 1.
  match goal with |- context [pollUntil svc ?dl ?dn ?o ?st] =>
    destruct (pollUntil_events svc dl dn o st) as (evs & Ht & Hp);
    destruct (pollUntil svc dl dn o st) as [polled st1] end.
  simpl in Ht, Hp.
  destruct polled as [d |].
  { intros H. inversion H; subst. rewrite Ht. apply CreateRun_poll. assumption. }
  unfold bind at 1.
  destruct (updateNameservers_run data st1) as [[Hnone Hns] | (err & Hne & Hsome & Hns)];
    destruct (updateNameservers svc data (ValueString (DomainName data)) st1)
      as [updated st2]; simpl in Hns; simpl fst in *; subst updated.
  2:{ intros H. inversion H; subst. rewrite Hns, Ht.
      apply CreateRun_nameservers; assumption. }
  unfold bind at 1. unfold call at 1.
  destruct (GetDomainDetail svc (ValueString (DomainName data)) (remote st2))
    as [[domainDetail | err] w3].
  2:{ intros H. inversion H; subst. simpl. rewrite Hns, Ht. simpl.
      rewrite <- app_assoc. apply CreateRun_detail. assumption. }
  unfold bind at 1.
  match goal with |- context [handleHostedZone svc ?d ?dn ?st] =>
    destruct (handleHostedZone_adds d dn st) as (zoneEvs & Hz & Hr);
    destruct (handleHostedZone svc d dn st) as [zoneID st4] end.
  simpl in Hz. intros H. inversion H; subst. rewrite Hz, Hns, Ht. simpl.
  rewrite <- !app_assoc. simpl.
  apply CreateRun_done; assumption.
Qed.

(** A kind of event that is neither a poll nor a sleep does not occur in
    the events of the polling loop. *)
Lemma pollEvents_filter (p : Event -> bool) domainName operationId evs e :
  (forall o answer, p (EvGetOperationDetail o answer) = false) ->
  (forall d, p (EvSleep d) = false) ->
  pollEvents domainName operationId evs e -> filter p evs = [].
Proof.
  intros Hpoll Hsleep. induction 1; simpl; rewrite ?Hpoll, ?Hsleep; auto.
Qed.

Lemma route53_filter (p : Event -> bool) evs :
  (forall e, isRoute53 e = true -> p e = false) ->
  Forall (fun e => isRoute53 e = true) evs -> filter p evs = [].
Proof.
  intros Hp. induction 1 as [| e rest He _ IH]; simpl; [reflexivity |].
  rewrite (Hp e He). assumption.
Qed.

Lemma nameserverEvents_filter (p : Event -> bool) data :
  (forall d ns, p (EvUpdateDomainNameservers d ns (Ok tt)) = false) ->
  filter p (nameserverEvents data) = [].
Proof.
  intros Hp. unfold nameserverEvents.
  destruct (0 <? length (Nameservers data))%nat; simpl; rewrite ?Hp; reflexivity.
Qed.

Lemma In_filter_nil (p : Event -> bool) e evs :
  filter p evs = [] -> p e = true -> ~ In e evs.
Proof.
  intros Hnil Hp Hin.
  assert (Hf : In e (filter p evs)) by (apply filter_In; auto).
  rewrite Hnil in Hf. contradiction.
Qed.

(** A poll answered FAILED or ERROR is the last event of the polling loop,
    which returns with the diagnostic of that answer. *)
Lemma pollEvents_rejected domainName operationId evs e o opDetail :
  pollEvents domainName operationId evs e ->
  In (EvGetOperationDetail o (Ok opDetail)) evs ->
  opStatus opDetail = "FAILED" \/ opStatus opDetail = "ERROR" ->
  verdict domainName (Ok opDetail) = Some e
  /\ exists before, evs = (before ++ [EvGetOperationDetail o (Ok opDetail)])%list.
Proof.
  intros Hp Hin Hstatus.
  assert (Hsome : verdict domainName (Ok opDetail) <> None).
  { unfold verdict. destruct Hstatus as [Hs | Hs]; rewrite Hs; discriminate. }
  induction Hp as [| answer e Hv | answer evs e Hv Hp IH].
  - contradiction.
  - destruct Hin as [Heq | []]. inversion Heq; subst.
    split; [assumption | exists []; reflexivity].
  - destruct Hin as [Heq | [Heq | Hin]].
    + inversion Heq; subst. contradiction.
    + discriminate.
    + destruct (IH Hin) as [Hv' (before & Hb)]. split; [assumption |].
      exists (EvGetOperationDetail operationId answer :: EvSleep pollInterval :: before).
      rewrite Hb. reflexivity.
Qed.

(** The loop is not left by a [return] unless some poll was answered with
    an error, FAILED or ERROR. *)
Lemma pollEvents_returned domainName operationId evs d :
  pollEvents domainName operationId evs (Returned d) ->
  exists answer, In (EvGetOperationDetail operationId answer) evs
                 /\ verdict domainName answer = Some (Returned d).
Proof.
  intros Hp. remember (Returned d) as e eqn:He.
  induction Hp as [| answer e Hv | answer evs e Hv Hp IH]; subst.
  - discriminate.
  - exists answer. simpl. auto.
  - destruct (IH eq_refl) as (a & Hin & Ha). exists a. simpl. auto.
Qed.

(** C5: when a poll of a run of [Create] is answered FAILED (or ERROR),
    [Create] returns right after that poll with the one diagnostic "Domain
    registration failed" (or "Domain registration error") whose detail
    ends with the remote message, sets no state, and the run has no
    [UpdateDomainNameservers] and no [GetDomainDetail] call. *)
Theorem Create_rejected_stops data w t0 resp st operationId opDetail :
  exec (Create svc data) w t0 = (resp, st) ->
  In (EvGetOperationDetail operationId (Ok opDetail)) (trace st) ->
  opStatus opDetail = "FAILED" \/ opStatus opDetail = "ERROR" ->
  let domainName := ValueString (DomainName data) in
  (opStatus opDetail = "FAILED" ->
     Diagnostics resp
     = [AddError "Domain registration failed"
          ("Domain registration for " ++ domainName ++ " failed: "
             ++ ToString (opMessage opDetail))])
  /\ (opStatus opDetail = "ERROR" ->
      Diagnostics resp
      = [AddError "Domain registration error"
           ("Domain registration for " ++ domainName ++ " encountered an error: "
              ++ ToString (opMessage opDetail))])
  /\ State resp = None
  /\ (exists before,
        trace st = (before ++ [EvGetOperationDetail operationId (Ok opDetail)])%list)
  /\ calls isUpdateDomainNameservers (trace st) = 0%nat
  /\ calls isGetDomainDetail (trace st) = 0%nat.
Proof.
  intros Hrun Hin Hstatus domainName.
  assert (Hpolls : forall o evs e rest,
            pollEvents domainName o evs e ->
            In (EvGetOperationDetail operationId (Ok opDetail))
               (EvRegisterDomain (registerInputOf data) (Ok o) :: evs ++ rest) ->
            filter isGetOperationDetail rest = [] ->
            verdict domainName (Ok opDetail) = Some e
            /\ exists before, evs = (before ++ [EvGetOperationDetail operationId (Ok opDetail)])%list).
  { intros o evs e rest Hp Hin' Hrest.
    destruct Hin' as [Heq | Hin']; [discriminate |].
    apply in_app_or in Hin'. destruct Hin' as [Hin' | Hin'].
    - eapply pollEvents_rejected; eassumption.
    - exfalso. revert Hin'. apply (In_filter_nil isGetOperationDetail); auto. }
  assert (Hleft : verdict domainName (Ok opDetail) <> Some LeftLoop).
  { unfold verdict. destruct Hstatus as [Hs | Hs]; rewrite Hs; discriminate. }
  apply Create_run in Hrun.
  inversion Hrun as [err Ht Hr | o evs d Hp Ht Hr | o evs err Hp Hne Ht Hr
                     | o evs err Hp Ht Hr | o evs detail zoneEvs zoneID Hp Hz Ht Hr];
    subst resp; rewrite <- Ht in Hin.
  - destruct Hin as [Heq | []]. discriminate.
  - destruct (Hpolls o evs (Returned d) [] Hp) as [Hv (before & Hb)];
      [rewrite app_nil_r; assumption | reflexivity |].
    simpl. repeat split.
    + intros Hs. unfold verdict in Hv. rewrite Hs in Hv. simpl in Hv. congruence.
    + intros Hs. unfold verdict in Hv. rewrite Hs in Hv. simpl in Hv. congruence.
    + exists (EvRegisterDomain (registerInputOf data) (Ok o) :: before).
      rewrite Hb. reflexivity.
    + unfold calls. simpl.
      rewrite (pollEvents_filter isUpdateDomainNameservers _ _ _ _ (fun _ _ => eq_refl)
                 (fun _ => eq_refl) Hp). reflexivity.
    + unfold calls. simpl.
      rewrite (pollEvents_filter isGetDomainDetail _ _ _ _ (fun _ _ => eq_refl)
                 (fun _ => eq_refl) Hp). reflexivity.
  - exfalso. apply Hleft. eapply Hpolls; [exact Hp | exact Hin | reflexivity].
  - exfalso. apply Hleft. eapply Hpolls; [exact Hp | exact Hin |].
    rewrite filter_app, nameserverEvents_filter by reflexivity. reflexivity.
  - exfalso. apply Hleft. eapply Hpolls; [exact Hp | exact Hin |].
    rewrite filter_app, nameserverEvents_filter by reflexivity. simpl.
    apply route53_filter; [| assumption]. intros [] He; simpl in *; congruence.
Qed.

(** C6: when the plan has nameservers, a poll of the run was answered
    SUCCESSFUL and [UpdateDomainNameservers] then fails, [Create] returns
    right after that call with the one diagnostic "Error updating
    nameservers", which is none of the diagnostics of a failed
    registration; it sets no state, does not call [GetDomainDetail], and
    [RegisterDomain] was called once, [UpdateDomainNameservers] once. *)
Theorem Create_nameserver_failure data w t0 resp st operationId opDetail
    domainName nameservers err :
  exec (Create svc data) w t0 = (resp, st) ->
  Nameservers data <> [] ->
  In (EvGetOperationDetail operationId (Ok opDetail)) (trace st) ->
  opStatus opDetail = "SUCCESSFUL" ->
  In (EvUpdateDomainNameservers domainName nameservers (Err err)) (trace st) ->
  Diagnostics resp
  = [AddError "Error updating nameservers"
       ("Could not update nameservers for " ++ ValueString (DomainName data)
          ++ ": " ++ err)]
  /\ (forall d, In d (Diagnostics resp) ->
        Summary d <> "Error registering domain"
        /\ Summary d <> "Domain registration failed"
        /\ Summary d <> "Domain registration error")
  /\ State resp = None
  /\ (exists before,
        trace st
        = (before ++ [EvUpdateDomainNameservers domainName nameservers (Err err)])%list)
  /\ calls isGetDomainDetail (trace st) = 0%nat
  /\ calls isRegisterDomain (trace st) = 1%nat
  /\ calls isUpdateDomainNameservers (trace st) = 1%nat.
Proof.
  intros Hrun Hne Hpoll Hstatus Hin.
  set (isFailedUpdate := fun e =>
         match e with EvUpdateDomainNameservers _ _ (Err _) => true | _ => false end).
  assert (Hnot : forall evs, filter isFailedUpdate evs = [] ->
                 ~ In (EvUpdateDomainNameservers domainName nameservers (Err err)) evs).
  { intros evs Hf. apply (In_filter_nil isFailedUpdate); auto. }
  assert (Hnopoll : forall o evs e, pollEvents (ValueString (DomainName data)) o evs e ->
                    filter isFailedUpdate evs = []).
  { intros o evs e. apply pollEvents_filter; reflexivity. }
  assert (Hnons : filter isFailedUpdate (nameserverEvents data) = []).
  { apply nameserverEvents_filter. reflexivity. }
  apply Create_run in Hrun.
  inversion Hrun as [err' Ht Hr | o evs d Hp Ht Hr | o evs err' Hp Hne' Ht Hr
                     | o evs err' Hp Ht Hr | o evs detail zoneEvs zoneID Hp Hz Ht Hr];
    subst resp; rewrite <- Ht in Hin.
  - destruct Hin as [Heq | []]. discriminate.
  - exfalso. destruct Hin as [Heq | Hin]; [discriminate |].
    revert Hin. apply Hnot. eapply Hnopoll; eassumption.
  - destruct Hin as [Heq | Hin]; [discriminate |].
    apply in_app_or in Hin. destruct Hin as [Hin | [Heq | []]].
    { exfalso. revert Hin. apply Hnot. eapply Hnopoll; eassumption. }
    inversion Heq; subst. simpl.
    split; [reflexivity |]. split.
    { intros diag [Hd | []]. subst diag. simpl. repeat split; discriminate. }
    split; [reflexivity |]. split.
    { exists (EvRegisterDomain (registerInputOf data) (Ok o) :: evs). reflexivity. }
    unfold calls. simpl. rewrite !filter_app.
    rewrite (pollEvents_filter isGetDomainDetail _ _ _ _ (fun _ _ => eq_refl)
               (fun _ => eq_refl) Hp).
    rewrite (pollEvents_filter isRegisterDomain _ _ _ _ (fun _ _ => eq_refl)
               (fun _ => eq_refl) Hp).
    rewrite (pollEvents_filter isUpdateDomainNameservers _ _ _ _ (fun _ _ => eq_refl)
               (fun _ => eq_refl) Hp).
    simpl. auto.
  - exfalso. destruct Hin as [Heq | Hin]; [discriminate |]. revert Hin. apply Hnot.
    rewrite !filter_app, (Hnopoll _ _ _ Hp), Hnons. reflexivity.
  - exfalso. destruct Hin as [Heq | Hin]; [discriminate |]. revert Hin. apply Hnot.
    rewrite !filter_app, (Hnopoll _ _ _ Hp), Hnons. simpl.
    apply route53_filter; [| assumption]. intros [] He; simpl in *; congruence.
Qed.

End RegistrationFacts.

(** ** Read and Delete *)

Section ReadDelete.

Context {W : Type} (svc : Services W).

Local Arguments String.append : simpl never.

(** C7: with [allow_delete] set, once [DeleteDomain] has succeeded,
    [Delete] ends without a diagnostic whatever
    [deleteRegistrarHostedZone] answers: the zone deleted, not found,
    refused by a safety check, or a failed listing or delete call. The
    answer is dropped and the run ends where the zone clean-up ends. *)
Theorem Delete_zone_cleanup_best_effort data w w1 t0 outcome st :
  ValueBool (AllowDelete data) = true ->
  DeleteDomain svc (ValueString (DomainName data)) w = (Ok tt, w1) ->
  deleteRegistrarHostedZone svc (ValueString (DomainName data))
    (mkSt (t0 + Z.of_N (latency svc w1)) w1
       [EvDeleteDomain (ValueString (DomainName data)) (Ok tt)])
  = (outcome, st) ->
  exec (Delete svc data) w t0 = ({| DeleteDiagnostics := [] |}, st)
  /\ HasError (DeleteDiagnostics (fst (exec (Delete svc data) w t0))) = false.
Proof.
  intros Hallow Hdeleted Hzone.
  assert (Hrun : exec (Delete svc data) w t0 = ({| DeleteDiagnostics := [] |}, st)).
  { unfold exec, Delete. rewrite Hallow. simpl.
    unfold bind at 1. unfold call. simpl. rewrite Hdeleted.
    unfold bind. rewrite Hzone. reflexivity. }
  rewrite Hrun. auto.
Qed.

(** C8: whatever error [GetDomainDetail] answers with, [Read] removes the
    resource from the state, without a diagnostic and without another
    call; two different errors give the same response. *)
Theorem Read_error_removes_state data w t0 :
  let domainName := ValueString (DomainName data) in
  forall err w1,
    GetDomainDetail svc domainName w = (Err err, w1) ->
    fst (exec (Read svc data) w t0) = {| Diagnostics := []; State := None |}
    /\ trace (snd (exec (Read svc data) w t0))
       = [EvGetDomainDetail domainName (Err err)].
Proof.
  intros domainName err w1 Hdetail.
  unfold exec, Read, bind, call. simpl.
  fold domainName. rewrite Hdetail. simpl. auto.
Qed.

(** C10: without [allow_delete] (false, null or unknown), [Delete] calls
    neither client: the trace stays empty, the remote state and the clock
    are as before, and the response has no diagnostic, on which the
    framework drops the resource from the state. *)
Theorem Delete_not_allowed_calls_nothing data w t0 :
  ValueBool (AllowDelete data) = false ->
  exec (Delete svc data) w t0 = ({| DeleteDiagnostics := [] |}, mkSt t0 w [])
  /\ trace (snd (exec (Delete svc data) w t0)) = []
  /\ remote (snd (exec (Delete svc data) w t0)) = w
  /\ HasError (DeleteDiagnostics (fst (exec (Delete svc data) w t0))) = false.
Proof.
  intros Hallow.
  assert (Hrun : exec (Delete svc data) w t0
                 = ({| DeleteDiagnostics := [] |}, mkSt t0 w [])).
  { unfold exec, Delete. rewrite Hallow. reflexivity. }
  rewrite Hrun. auto.
Qed.

End ReadDelete.

(** ** The registration timeout *)

Section TimeoutFacts.

Context {W : Type} (svc : Services W).

(** The polling loop is left without a [return] either on a poll answered
    SUCCESSFUL or with the deadline reached. *)
Lemma pollUntil_left deadline domainName operationId st :
  fst (pollUntil svc deadline domainName operationId st) = LeftLoop ->
  In "SUCCESSFUL"
     (polledStatuses (skipn (length (trace st))
        (trace (snd (pollUntil svc deadline domainName operationId st)))))
  \/ deadline <= clock (snd (pollUntil svc deadline domainName operationId st)).
Proof.
  funelim (pollUntil svc deadline domainName operationId st); simpl.
  - intros _. right.
    match goal with Hc : (_ <? _) = false |- _ => apply Z.ltb_ge; exact Hc end.
  - intros He. subst. left.
    destruct (pollOnce_run svc domainName operationId st) as [answer [Hv Ht]].
    match goal with Hp : pollOnce _ _ _ _ = _ |- _ => rewrite Hp in Hv, Ht end.
    simpl in Hv, Ht. rewrite <- Hv in Ht. rewrite Ht, skipn_app, skipn_all.
    replace (length (trace st) - length (trace st))%nat with 0%nat by lia.
    simpl. destruct answer as [opDetail | err]; [| discriminate].
    simpl in Hv. unfold OperationStatusSuccessful in Hv.
    destruct (String.eqb_spec (opStatus opDetail) "SUCCESSFUL") as [Hs | Hs].
    + simpl. auto.
    + repeat match type of Hv with context [if ?b then _ else _] =>
        destruct b end; discriminate.
  - intros He.
    destruct (pollOnce_run svc domainName operationId st) as [answer [Hv Ht]].
    match goal with Hp : pollOnce _ _ _ _ = _ |- _ => rewrite Hp in Hv, Ht end.
    simpl in Hv, Ht. rewrite <- Hv in Ht.
    destruct (pollUntil_events svc deadline domainName operationId st') as (evs & Hevs & _).
    match goal with IH : _ -> _ \/ _ |- _ => destruct (IH He) as [Hin | Hdl] end;
      [left | right; assumption].
    rewrite Hevs, Ht in *. rewrite skipn_app, skipn_all in Hin.
    replace (length (trace st ++ _) - length (trace st ++ _))%nat with 0%nat in Hin by lia.
    rewrite <- !app_assoc, skipn_app, skipn_all.
    replace (length (trace st) - length (trace st))%nat with 0%nat by lia.
    simpl in *. unfold polledStatuses in *. simpl.
    apply in_or_app. right. assumption.
Qed.

(** [Create] has six diagnostics, none of them for the deadline. *)
Lemma Create_diagnostics data w t0 d :
  In d (Diagnostics (fst (exec (Create svc data) w t0))) ->
  In (Summary d)
     ["Error registering domain"; "Error checking registration status";
      "Domain registration failed"; "Domain registration error";
      "Error updating nameservers"; "Error reading domain details"].
Proof.
  destruct (exec (Create svc data) w t0) as [resp st] eqn:Hrun.
  apply Create_run in Hrun. simpl.
  inversion Hrun as [err Ht Hr | o evs d' Hp Ht Hr | o evs err Hp Hne Ht Hr
                     | o evs err Hp Ht Hr | o evs detail zoneEvs zoneID Hp Hz Ht Hr];
    subst resp; simpl; intros Hin; try (destruct Hin as [Hd | []]; subst d; simpl; tauto).
  - destruct Hin as [Hd | []]; subst d'.
    destruct (pollEvents_returned _ _ _ _ Hp) as (answer & _ & Hv).
    unfold verdict in Hv. destruct answer as [opDetail | err].
    + repeat match type of Hv with context [if ?b then _ else _] =>
        destruct b end; inversion Hv; simpl; tauto.
    + inversion Hv. simpl. tauto.
  - contradiction.
Qed.

Lemma calls_In (p : Event -> bool) e t :
  In e t -> p e = true -> (1 <= calls p t)%nat.
Proof.
  intros Hin Hp. unfold calls.
  assert (Hf : In e (filter p t)) by (apply filter_In; auto).
  destruct (filter p t); [contradiction | simpl; lia].
Qed.

(** When the registration was submitted and no poll of the run ended the
    loop, so none was answered SUCCESSFUL, [Create] still went on to the
    nameserver update or to the domain detail. *)
Lemma Create_unfinished_goes_on data w t0 operationId :
  let run := exec (Create svc data) w t0 in
  In (EvRegisterDomain (registerInputOf data) (Ok operationId)) (trace (snd run)) ->
  (forall o answer, In (EvGetOperationDetail o answer) (trace (snd run)) ->
                    verdict (ValueString (DomainName data)) answer = None) ->
  (1 <= calls isUpdateDomainNameservers (trace (snd run))
        + calls isGetDomainDetail (trace (snd run)))%nat.
Proof.
  intros run. subst run.
  destruct (exec (Create svc data) w t0) as [resp st] eqn:Hrun.
  apply Create_run in Hrun. simpl.
  inversion Hrun as [err Ht Hr | o evs d' Hp Ht Hr | o evs err Hp Hne Ht Hr
                     | o evs err Hp Ht Hr | o evs detail zoneEvs zoneID Hp Hz Ht Hr];
    intros Hreg Hpolls.
  - destruct Hreg as [Heq | []]. discriminate.
  - destruct (pollEvents_returned _ _ _ _ Hp) as (answer & Hin & Hv).
    rewrite (Hpolls o answer) in Hv; [discriminate |].
    right. assumption.
  - assert (1 <= calls isUpdateDomainNameservers
                    (EvRegisterDomain (registerInputOf data) (Ok o)
                       :: evs ++ [EvUpdateDomainNameservers
                                    (ValueString (DomainName data))
                                    (map ValueString (Nameservers data)) (Err err)]))%nat.
    { eapply calls_In; [right; apply in_or_app; right; left; reflexivity |].
      reflexivity. }
    lia.
  - assert (1 <= calls isGetDomainDetail
                    (EvRegisterDomain (registerInputOf data) (Ok o)
                       :: evs ++ nameserverEvents data
                       ++ [EvGetDomainDetail (ValueString (DomainName data))
                             (Err err)]))%nat.
    { eapply calls_In;
        [right; apply in_or_app; right; apply in_or_app; right; left; reflexivity |].
      reflexivity. }
    lia.
  - assert (1 <= calls isGetDomainDetail
                    (EvRegisterDomain (registerInputOf data) (Ok o)
                       :: evs ++ nameserverEvents data
                       ++ EvGetDomainDetail (ValueString (DomainName data))
                            (Ok detail) :: zoneEvs))%nat.
    { eapply calls_In;
        [right; apply in_or_app; right; apply in_or_app; right; left; reflexivity |].
      reflexivity. }
    lia.
Qed.

End TimeoutFacts.

(** A registration that completes at the third poll, within a timeout of
    30 seconds: two sleeps, then the detail is read and the state set. *)
Example Create_completes :
  let data := plan "test-domain.example" 30 [] false false in
  let run := exec (Create (scripted slow) data) emptyAccount 0 in
  Diagnostics (fst run) = []
  /\ (exists state, State (fst run) = Some state /\ Status state = tfKnown "ok")
  /\ map eventName (trace (snd run))
     = ["RegisterDomain";
        "GetOperationDetail"; "Sleep"; "GetOperationDetail"; "Sleep";
        "GetOperationDetail"; "GetDomainDetail"; "ListHostedZonesByName"]
  /\ polledStatuses (trace (snd run)) = ["PENDING"; "IN_PROGRESS"; "SUCCESSFUL"].
Proof.
  vm_compute. repeat split; try reflexivity. eexists. split; reflexivity.
Qed.

(** C1, on the code: with every poll answered IN_PROGRESS and a timeout of
    30 seconds, [Create] polls three times, sleeps three times, and with
    the deadline reached goes on to [UpdateDomainNameservers] and
    [GetDomainDetail]; it ends without a diagnostic and sets the state, as
    after a registration that succeeded. *)
Theorem Create_deadline_continues :
  let data := plan "test-domain.example" 30 ["ns1.example.net"] false false in
  let run := exec (Create (scripted stuck) data) emptyAccount 0 in
  Diagnostics (fst run) = []
  /\ State (fst run)
     = Some (setHostedZoneID
               (withDomainDetail data "test-domain.example" registeredDetail) tfNull)
  /\ map eventName (trace (snd run))
     = ["RegisterDomain";
        "GetOperationDetail"; "Sleep"; "GetOperationDetail"; "Sleep";
        "GetOperationDetail"; "Sleep";
        "UpdateDomainNameservers"; "GetDomainDetail"; "ListHostedZonesByName"]
  /\ polledStatuses (trace (snd run)) = ["IN_PROGRESS"; "IN_PROGRESS"; "IN_PROGRESS"]
  /\ clock (snd run) = 30 * Second.
Proof.
  vm_compute. repeat split; reflexivity.
Qed.

(** ** Runs on scripted remotes *)

(** The registrar's zone with records NS, SOA, SOA is deleted. *)
Lemma safe_delete_iff_eligible_witness :
  let run := exec (deleteRegistrarHostedZone (scripted settled) "example.com")
                  registrarAccount 0 in
  deletesZone (trace (snd run)) /\ fst run = None.
Proof.
  destruct (safe_delete_iff_eligible (scripted settled) "example.com"
              registrarZone registrarRecords
              registrarAccount registrarAccount registrarAccount 0
              eq_refl eq_refl) as (_ & _ & H).
  destruct (H eq_refl eq_refl eq_refl) as [Hdeleted _].
  exact (Hdeleted eq_refl).
Defined.

(** A private zone with another comment and an A record is refused as
    private. *)
Lemma safe_delete_check_order_witness :
  let run := exec (deleteRegistrarHostedZone (scripted settled) "example.com")
                  privateAccount 0 in
  fst run = Some ZonePrivate
  /\ calls isListResourceRecordSets (trace (snd run)) = 0%nat.
Proof.
  destruct (safe_delete_check_order (scripted settled) "example.com"
              [] privateZone [] privateAccount privateAccount 0
              eq_refl (Forall_nil _) eq_refl) as (H & _).
  destruct (H eq_refl) as (Hprivate & _ & Hnone).
  exact (conj Hprivate Hnone).
Defined.

(** "example.com" finds the zone named "example.com.". *)
Lemma findHostedZoneID_exact_match_witness :
  fst (exec (findHostedZoneID (scripted settled) "example.com") registrarAccount 0)
  = inl "Z1234567890ABC".
Proof.
  destruct (findHostedZoneID_exact_match (scripted settled) "example.com"
              [registrarZone] registrarAccount registrarAccount 0 eq_refl)
    as (_ & _ & _ & H).
  destruct (H eq_refl) as [Hfound _].
  exact (Hfound registrarZone eq_refl eq_refl).
Defined.

(** A second poll answered FAILED ends [Create] with the remote message. *)
Lemma Create_rejected_stops_witness :
  let run := exec (Create (scripted rejected)
                     (plan "example.com" 900 ["ns1.example.net"] false false))
                  emptyAccount 0 in
  Diagnostics (fst run)
  = [AddError "Domain registration failed"
       "Domain registration for example.com failed: payment declined"]
  /\ calls isGetDomainDetail (trace (snd run)) = 0%nat.
Proof.
  pose (data := plan "example.com" 900 ["ns1.example.net"] false false).
  pose (run := exec (Create (scripted rejected) data) emptyAccount 0).
  assert (Hin : In (EvGetOperationDetail "op-1"
                      (Ok {| opStatus := "FAILED"; opMessage := Some "payment declined" |}))
                   (trace (snd run))).
  { vm_compute. do 3 right. left. reflexivity. }
  destruct (Create_rejected_stops (scripted rejected) data emptyAccount 0
              (fst run) (snd run) "op-1"
              {| opStatus := "FAILED"; opMessage := Some "payment declined" |}
              eq_refl Hin (or_introl eq_refl))
    as (Hfailed & _ & _ & _ & _ & Hdetail).
  exact (conj (Hfailed eq_refl) Hdetail).
Defined.

(** A failed nameserver update after a SUCCESSFUL poll. *)
Lemma Create_nameserver_failure_witness :
  let run := exec (Create (scripted badNameservers)
                     (plan "example.com" 900 ["ns1.example.net"] false false))
                  emptyAccount 0 in
  Diagnostics (fst run)
  = [AddError "Error updating nameservers"
       "Could not update nameservers for example.com: InvalidInput: nameserver not reachable"]
  /\ calls isGetDomainDetail (trace (snd run)) = 0%nat
  /\ calls isRegisterDomain (trace (snd run)) = 1%nat.
Proof.
  pose (data := plan "example.com" 900 ["ns1.example.net"] false false).
  pose (run := exec (Create (scripted badNameservers) data) emptyAccount 0).
  assert (Hpoll : In (EvGetOperationDetail "op-1" (status "SUCCESSFUL"))
                     (trace (snd run))).
  { vm_compute. right. left. reflexivity. }
  assert (Hupdate : In (EvUpdateDomainNameservers "example.com" ["ns1.example.net"]
                          (Err "InvalidInput: nameserver not reachable"))
                       (trace (snd run))).
  { vm_compute. do 2 right. left. reflexivity. }
  assert (Hplan : Nameservers data <> []) by discriminate.
  destruct (Create_nameserver_failure (scripted badNameservers) data emptyAccount 0
              (fst run) (snd run) "op-1"
              {| opStatus := "SUCCESSFUL"; opMessage := None |}
              "example.com" ["ns1.example.net"]
              "InvalidInput: nameserver not reachable"
              eq_refl Hplan Hpoll eq_refl Hupdate)
    as (Hdiag & _ & _ & _ & Hdetail & Hregister & _).
  exact (conj Hdiag (conj Hdetail Hregister)).
Defined.

(** A zone delete refused by the remote leaves [Delete] without a
    diagnostic. *)
Lemma Delete_zone_cleanup_best_effort_witness :
  fst (exec (Delete (scripted throttled) (plan "example.com" 900 [] true false))
            registrarAccount 0)
  = {| DeleteDiagnostics := [] |}
  /\ fst (exec (deleteRegistrarHostedZone (scripted throttled) "example.com")
               registrarAccount 0)
     = Some (DeleteZoneFailed "AccessDenied").
Proof.
  split; [| reflexivity].
  pose (data := plan "example.com" 900 [] true false).
  pose (zoneRun := deleteRegistrarHostedZone (scripted throttled) "example.com"
                     (mkSt 0 registrarAccount [EvDeleteDomain "example.com" (Ok tt)])).
  destruct (Delete_zone_cleanup_best_effort (scripted throttled) data
              registrarAccount registrarAccount 0 (fst zoneRun) (snd zoneRun)
              eq_refl eq_refl eq_refl) as [Hrun _].
  exact (f_equal fst Hrun).
Defined.

(** A throttled [GetDomainDetail] removes the resource from the state. *)
Lemma Read_error_removes_state_witness :
  fst (exec (Read (scripted throttled) (plan "example.com" 900 [] false false))
            registrarAccount 0)
  = {| Diagnostics := []; State := None |}.
Proof.
  destruct (Read_error_removes_state (scripted throttled)
              (plan "example.com" 900 [] false false) registrarAccount 0
              "ThrottlingException: Rate exceeded" registrarAccount eq_refl)
    as [Hresp _].
  exact Hresp.
Defined.

(** The zone of "example.com" listed second is not found. *)
Lemma lookup_sees_first_candidate_only_witness :
  fst (exec (findHostedZoneID (scripted settled) "example.com") shadowedAccount 0)
  = inr (ZoneNotFound "example.com")
  /\ fst (exec (deleteRegistrarHostedZone (scripted settled) "example.com")
               shadowedAccount 0)
     = Some (ZoneNotFound "example.com").
Proof.
  assert (Hfirst : Forall (fun z => zoneNameIs "example.com" z = false)
                          (firstn 1 [subZone; registrarZone])).
  { constructor; [reflexivity | constructor]. }
  assert (Hexists : exists zone, In zone [subZone; registrarZone]
                                 /\ zoneNameIs "example.com" zone = true).
  { exists registrarZone. split; [right; left; reflexivity | reflexivity]. }
  destruct (lookup_sees_first_candidate_only (scripted settled) "example.com"
              [subZone; registrarZone] shadowedAccount 0
              (fun n => eq_refl) Hfirst Hexists)
    as (Hfound & _ & Hdeleted & _).
  exact (conj Hfound Hdeleted).
Defined.

(** The default plan ([allow_delete] false) deletes nothing. *)
Lemma Delete_not_allowed_calls_nothing_witness :
  trace (snd (exec (Delete (scripted settled)
                      (plan "example.com" 900 [] false false))
                   registrarAccount 0))
  = [].
Proof.
  destruct (Delete_not_allowed_calls_nothing (scripted settled)
              (plan "example.com" 900 [] false false) registrarAccount 0 eq_refl)
    as (_ & Htrace & _).
  exact Htrace.
Defined.

(** ** More on the zone guard *)

Lemma TrimPrefix_append (pre s : string) : TrimPrefix (pre ++ s) pre = s.
Proof.
  unfold TrimPrefix.
  replace (String.prefix pre (pre ++ s)) with true
    by (symmetry; apply prefix_correct; apply substring_append_left).
  rewrite length_append.
  replace (String.length pre + String.length s - String.length pre)%nat
    with (String.length s) by lia.
  apply substring_append_right.
Qed.

Lemma find_zoneNameIs domainName zones zone :
  find (zoneNameIs domainName) zones = Some zone ->
  In zone zones /\ TrimSuffix (ToString (Name zone)) "." = domainName.
Proof.
  intros Hfind. apply find_some in Hfind. destruct Hfind as [Hin Hname].
  apply zoneNameIs_true in Hname. auto.
Qed.

Lemma findZoneIn_find domainName zones :
  findZoneIn domainName zones
  = match find (zoneNameIs domainName) zones with
    | Some zone => inl (TrimPrefix (ToString (Id zone)) "/hostedzone/")
    | None => inr (ZoneNotFound domainName)
    end.
Proof.
  induction zones as [| zone rest IH]; simpl; [reflexivity |].
  destruct (zoneNameIs domainName zone); [reflexivity | assumption].
Qed.

Section ZoneRuns.

Context {W : Type} (svc : Services W).

Lemma deleteZoneIn_find domainName zones st :
  deleteZoneIn svc domainName zones st
  = match find (zoneNameIs domainName) zones with
    | Some zone => deleteCheckedZone svc zone st
    | None => (Some (ZoneNotFound domainName), st)
    end.
Proof.
  induction zones as [| zone rest IH]; simpl; [reflexivity |].
  destruct (zoneNameIs domainName zone); simpl; [reflexivity | assumption].
Qed.

(** Every run of [deleteRegistrarHostedZone], from any state, is one of the
    seven runs of [ZoneRun]. *)
Lemma deleteRegistrarHostedZone_run domainName st :
  exists evs,
    trace (snd (deleteRegistrarHostedZone svc domainName st)) = (trace st ++ evs)%list
    /\ ZoneRun domainName evs (fst (deleteRegistrarHostedZone svc domainName st)).
Proof.
  unfold deleteRegistrarHostedZone, bind, call.
  destruct (ListHostedZonesByName svc (zonesByNameInput domainName) (remote st))
    as [[zones | err] w1].
  2:{ eexists. simpl. split; [reflexivity | constructor]. }
  rewrite deleteZoneIn_find.
  destruct (find (zoneNameIs domainName) zones) as [zone |] eqn:Hfind.
  2:{ eexists. simpl. split; [reflexivity | constructor; assumption]. }
  unfold deleteCheckedZone, bind, call, ret.
  destruct (isPrivate zone) eqn:Hprivate.
  { eexists. simpl. split; [reflexivity | econstructor; eassumption]. }
  destruct (String.eqb_spec (zoneComment zone) RegistrarComment) as [Hcomment | Hcomment];
    simpl.
  2:{ eexists. split; [reflexivity | econstructor; eassumption]. }
  destruct (ListResourceRecordSets svc (ToString (Id zone)) w1) as [[records | err] w2].
  2:{ eexists. simpl. rewrite <- app_assoc. split; [reflexivity |].
      apply ZoneRun_records; assumption. }
  simpl. destruct (firstCustomRecord records) as [record |] eqn:Hfirst.
  { eexists. simpl. rewrite <- app_assoc. split; [reflexivity |].
    apply ZoneRun_custom; assumption. }
  simpl. destruct (DeleteHostedZone svc (ToString (Id zone)) w2) as [[u | err] w3];
    eexists; simpl; rewrite <- !app_assoc; (split; [reflexivity |]).
  - exact (ZoneRun_delete domainName zones zone records (Ok u)
             Hfind Hprivate Hcomment Hfirst).
  - exact (ZoneRun_delete domainName zones zone records (Err err)
             Hfind Hprivate Hcomment Hfirst).
Qed.

Lemma deleteRegistrarHostedZone_exec domainName w t0 :
  ZoneRun domainName
    (trace (snd (exec (deleteRegistrarHostedZone svc domainName) w t0)))
    (fst (exec (deleteRegistrarHostedZone svc domainName) w t0)).
Proof.
  unfold exec.
  destruct (deleteRegistrarHostedZone_run domainName (mkSt t0 w [])) as (evs & Ht & Hrun).
  rewrite Ht. exact Hrun.
Qed.

End ZoneRuns.

Section ZoneGuardMore.

Context {W : Type} (svc : Services W).

Local Ltac absurd_eq H :=
  solve [ discriminate H
        | match goal with r : result unit |- _ => destruct r; discriminate H end ].

(** The answer both lookups work on is the one the listing gives in the
    state they start from. *)
Lemma deleteRegistrarHostedZone_listing domainName w t0 :
  exists rest,
    trace (snd (exec (deleteRegistrarHostedZone svc domainName) w t0))
    = EvListHostedZonesByName (zonesByNameInput domainName)
        (fst (ListHostedZonesByName svc (zonesByNameInput domainName) w)) :: rest.
Proof.
  unfold exec, deleteRegistrarHostedZone, bind, call. simpl.
  destruct (ListHostedZonesByName svc (zonesByNameInput domainName) w)
    as [[zones | err] w1]; simpl.
  - rewrite deleteZoneIn_find.
    destruct (find (zoneNameIs domainName) zones) as [zone |];
      [| eexists; reflexivity].
    match goal with |- context [deleteCheckedZone svc ?z ?st] =>
      destruct (deleteCheckedZone_adds svc z st) as (evs & Ht & _) end.
    rewrite Ht. simpl. eexists. reflexivity.
  - eexists. reflexivity.
Qed.

(** X1: whatever the remote answers, a [DeleteHostedZone] call of
    [deleteRegistrarHostedZone] comes third, after the zone listing and the
    record listing of the same zone, and is for a listed zone that passes
    the four checks on the records that listing answered. *)
Theorem zone_deleted_only_if_eligible domainName w t0 id r :
  let run := exec (deleteRegistrarHostedZone svc domainName) w t0 in
  In (EvDeleteHostedZone id r) (trace (snd run)) ->
  exists zones zone records,
    trace (snd run)
    = [EvListHostedZonesByName (zonesByNameInput domainName) (Ok zones);
       EvListResourceRecordSets id (Ok records);
       EvDeleteHostedZone id r]
    /\ In zone zones
    /\ id = ToString (Id zone)
    /\ eligible domainName zone records.
Proof.
  intros run Hin. subst run.
  pose proof (deleteRegistrarHostedZone_exec svc domainName w t0) as Hrun.
  inversion Hrun as [err Ht Hr | zones Hnone Ht Hr | zones zone Hf Hp Ht Hr
                     | zones zone Hf Hp Hc Ht Hr | zones zone err Hf Hp Hc Ht Hr
                     | zones zone records record Hf Hp Hc Hfirst Ht Hr
                     | zones zone records r' Hf Hp Hc Hfirst Ht Hr];
    rewrite <- Ht in Hin; simpl in Hin;
    try (repeat (destruct Hin as [Hin | Hin]; try discriminate); contradiction).
  destruct Hin as [Hin | [Hin | [Hin | []]]]; try discriminate.
  inversion Hin; subst id r'.
  destruct (find_zoneNameIs _ _ _ Hf) as [Hzone Hname].
  exists zones, zone, records. repeat split; try assumption.
  apply firstCustomRecord_None. assumption.
Qed.

(** X2: [deleteRegistrarHostedZone] returns no error exactly when it
    called [DeleteHostedZone] and the call succeeded. A run lists the
    zones once, lists records at most once, deletes at most one zone, and
    calls nothing but Route 53. *)
Theorem zone_guard_nil_iff_deleted domainName w t0 :
  let run := exec (deleteRegistrarHostedZone svc domainName) w t0 in
  (fst run = None <-> exists id, In (EvDeleteHostedZone id (Ok tt)) (trace (snd run)))
  /\ calls isListHostedZonesByName (trace (snd run)) = 1%nat
  /\ (calls isListResourceRecordSets (trace (snd run)) <= 1)%nat
  /\ (calls isDeleteHostedZone (trace (snd run)) <= 1)%nat
  /\ Forall (fun e => isRoute53 e = true) (trace (snd run)).
Proof.
  intros run. subst run.
  pose proof (deleteRegistrarHostedZone_exec svc domainName w t0) as Hrun.
  inversion Hrun as [err Ht Hr | zones Hnone Ht Hr | zones zone Hf Hp Ht Hr
                     | zones zone Hf Hp Hc Ht Hr | zones zone err Hf Hp Hc Ht Hr
                     | zones zone records record Hf Hp Hc Hfirst Ht Hr
                     | zones zone records r Hf Hp Hc Hfirst Ht Hr];
    unfold calls; simpl;
    (split; [split; [try discriminate | intros (id & Hin); simpl in Hin] |
             repeat split; auto; repeat constructor]);
    try (repeat (destruct Hin as [Hin | Hin]; try discriminate); contradiction).
  - destruct r as [[] | err]; [| discriminate].
    intros _. eexists. right. right. left. reflexivity.
  - destruct Hin as [Hin | [Hin | [Hin | []]]]; try discriminate.
    inversion Hin. reflexivity.
Qed.

(** X3: from the same remote state [findHostedZoneID] and
    [deleteRegistrarHostedZone] agree on the zone: one reports "not found"
    or a failed listing exactly when the other does, and when the lookup
    gives an id, a zone the guard deletes has that id behind the
    "/hostedzone/" prefix. *)
Theorem lookup_and_guard_agree domainName w t0 :
  let found := fst (exec (findHostedZoneID svc domainName) w t0) in
  let run := exec (deleteRegistrarHostedZone svc domainName) w t0 in
  (found = inr (ZoneNotFound domainName) <-> fst run = Some (ZoneNotFound domainName))
  /\ (forall err, found = inr (ListZonesFailed err)
                  <-> fst run = Some (ListZonesFailed err))
  /\ (forall id r, In (EvDeleteHostedZone id r) (trace (snd run)) ->
        found = inl (TrimPrefix id "/hostedzone/")).
Proof.
  intros found run.
  assert (Hfound : found
            = match fst (ListHostedZonesByName svc (zonesByNameInput domainName) w) with
              | Err err => inr (ListZonesFailed err)
              | Ok zones => findZoneIn domainName zones
              end).
  { subst found. unfold exec. rewrite findHostedZoneID_run. simpl.
    destruct (ListHostedZonesByName svc (zonesByNameInput domainName) w). reflexivity. }
  destruct (deleteRegistrarHostedZone_listing domainName w t0) as (rest & Hfirst).
  fold run in Hfirst.
  pose proof (deleteRegistrarHostedZone_exec svc domainName w t0) as Hrun.
  fold run in Hrun.
  destruct (fst (ListHostedZonesByName svc (zonesByNameInput domainName) w))
    as [zones0 | err0].
  - rewrite findZoneIn_find in Hfound.
    inversion Hrun as [err Ht Hr | zones Hnone Ht Hr | zones zone Hf Hp Ht Hr
                       | zones zone Hf Hp Hc Ht Hr | zones zone err Hf Hp Hc Ht Hr
                       | zones zone records record Hf Hp Hc Hfirst' Ht Hr
                       | zones zone records r Hf Hp Hc Hfirst' Ht Hr];
      rewrite <- Ht in Hfirst; inversion Hfirst; subst zones0;
      try rewrite Hnone in Hfound; try rewrite Hf in Hfound; rewrite Hfound;
      (split; [split; intros H; first [reflexivity | absurd_eq H] |
               split; [intros err'; split; intros H; absurd_eq H |]]);
      intros id r0 Hin; simpl in Hin;
      try (repeat (destruct Hin as [Hin | Hin]; try discriminate); contradiction).
    destruct Hin as [Hin | [Hin | [Hin | []]]]; try discriminate.
    inversion Hin. reflexivity.
  - inversion Hrun as [err Ht Hr | zones Hnone Ht Hr | zones zone Hf Hp Ht Hr
                       | zones zone Hf Hp Hc Ht Hr | zones zone err Hf Hp Hc Ht Hr
                       | zones zone records record Hf Hp Hc Hfirst' Ht Hr
                       | zones zone records r Hf Hp Hc Hfirst' Ht Hr];
      rewrite <- Ht in Hfirst; inversion Hfirst; subst err0; rewrite Hfound.
    split; [split; intros H; discriminate H |].
    split; [intros err'; split; intros H; inversion H; reflexivity |].
    intros id r0 [Hin | []]. discriminate Hin.
Qed.

(** X4: the id [findHostedZoneID] returns is the zone's id without the
    "/hostedzone/" prefix, and the id itself when it has no such prefix;
    [deleteRegistrarHostedZone] lists the records of and deletes the zone
    under its id as listed. *)
Theorem hosted_zone_id_prefix domainName zones zone w t0 :
  fst (ListHostedZonesByName svc (zonesByNameInput domainName) w) = Ok zones ->
  find (zoneNameIs domainName) zones = Some zone ->
  let found := fst (exec (findHostedZoneID svc domainName) w t0) in
  let run := exec (deleteRegistrarHostedZone svc domainName) w t0 in
  (forall z, Id zone = Some ("/hostedzone/" ++ z) -> found = inl z)
  /\ (forall z, Id zone = Some z -> String.prefix "/hostedzone/" z = false ->
        found = inl z)
  /\ (Id zone = None -> found = inl "")
  /\ (forall id r, In (EvListResourceRecordSets id r) (trace (snd run)) ->
        id = ToString (Id zone))
  /\ (forall id r, In (EvDeleteHostedZone id r) (trace (snd run)) ->
        id = ToString (Id zone)).
Proof.
  intros Hlist Hfind found run.
  assert (Hfound : found = inl (TrimPrefix (ToString (Id zone)) "/hostedzone/")).
  { subst found. unfold exec. rewrite findHostedZoneID_run. simpl.
    destruct (ListHostedZonesByName svc (zonesByNameInput domainName) w) as [out w1].
    simpl in *. subst out. rewrite findZoneIn_find, Hfind. reflexivity. }
  destruct (deleteRegistrarHostedZone_listing domainName w t0) as (rest & Hfirst).
  fold run in Hfirst. rewrite Hlist in Hfirst.
  pose proof (deleteRegistrarHostedZone_exec svc domainName w t0) as Hrun.
  fold run in Hrun.
  assert (Hids : forall e, In e (trace (snd run)) ->
            match e with
            | EvListResourceRecordSets id _ | EvDeleteHostedZone id _ =>
                id = ToString (Id zone)
            | _ => True
            end).
  { inversion Hrun as [err Ht Hr | zones' Hnone Ht Hr | zones' zone' Hf Hp Ht Hr
                       | zones' zone' Hf Hp Hc Ht Hr | zones' zone' err Hf Hp Hc Ht Hr
                       | zones' zone' records record Hf Hp Hc Hfirst' Ht Hr
                       | zones' zone' records r Hf Hp Hc Hfirst' Ht Hr];
      rewrite <- Ht in Hfirst; inversion Hfirst; subst zones';
      try (rewrite Hfind in Hf; inversion Hf; subst zone');
      intros e He; simpl in He;
      repeat (destruct He as [He | He]; [subst e; simpl; auto |]); contradiction. }
  rewrite Hfound. repeat split.
  - intros z Hz. rewrite Hz. unfold ToString. rewrite TrimPrefix_append. reflexivity.
  - intros z Hz Hprefix. rewrite Hz. unfold TrimPrefix, ToString.
    rewrite Hprefix. reflexivity.
  - intros Hz. rewrite Hz. reflexivity.
  - intros id r Hin. exact (Hids _ Hin).
  - intros id r Hin. exact (Hids _ Hin).
Qed.

End ZoneGuardMore.

(** ** More on registration *)

Lemma roundsLeft_positive deadline now :
  now < deadline -> (1 <= roundsLeft deadline now)%nat.
Proof.
  intros Hlt. unfold roundsLeft, pollInterval, Second.
  assert (1 <= (deadline - now + (10 * 1000000000 - 1)) / (10 * 1000000000))
    by (apply Z.div_le_lower_bound; lia).
  lia.
Qed.

Lemma roundsLeft_step deadline now now' :
  now < deadline -> now + pollInterval <= now' ->
  (roundsLeft deadline now' + 1 <= roundsLeft deadline now)%nat.
Proof.
  intros Hlt Hstep.
  pose proof (roundsLeft_positive deadline now Hlt) as Hpos.
  unfold roundsLeft, pollInterval, Second in *.
  assert (H2 : (deadline - now' + (10 * 1000000000 - 1)) / (10 * 1000000000)
               <= (deadline - now + (10 * 1000000000 - 1)) / (10 * 1000000000) - 1).
  { replace (deadline - now + (10 * 1000000000 - 1))
      with (deadline - now - 1 + 1 * (10 * 1000000000)) by lia.
    rewrite Z.div_add by lia.
    replace ((deadline - now - 1) / (10 * 1000000000) + 1 - 1)
      with ((deadline - now - 1) / (10 * 1000000000)) by lia.
    apply Z.div_le_mono; lia. }
  lia.
Qed.

Lemma calls_app (p : Event -> bool) (t u : list Event) :
  calls p (t ++ u) = (calls p t + calls p u)%nat.
Proof. unfold calls. rewrite filter_app, length_app. reflexivity. Qed.

Lemma calls_filter_nil (p : Event -> bool) (t : list Event) :
  filter p t = [] -> calls p t = 0%nat.
Proof. unfold calls. intros H. rewrite H. reflexivity. Qed.

Section RegistrationMore.

Context {W : Type} (svc : Services W).

Local Arguments String.append : simpl never.

Lemma pollOnce_clock domainName operationId st :
  fst (pollOnce svc domainName operationId st) = None ->
  clock st + pollInterval <= clock (snd (pollOnce svc domainName operationId st)).
Proof.
  unfold pollOnce, bind, call, Sleep, ret.
  destruct (GetOperationDetail svc operationId (remote st)) as [[d | e] w]; simpl.
  - repeat match goal with |- context [if ?b then _ else _] => destruct b end;
      simpl; intros H; try discriminate; lia.
  - discriminate.
Qed.

(** The loop polls at most once per round left before the deadline. *)
Lemma pollUntil_polls deadline domainName operationId st :
  (calls isGetOperationDetail
     (trace (snd (pollUntil svc deadline domainName operationId st)))
   <= calls isGetOperationDetail (trace st) + roundsLeft deadline (clock st))%nat.
Proof.
  funelim (pollUntil svc deadline domainName operationId st); simpl.
  - lia.
  - destruct (pollOnce_run svc domainName operationId st) as [answer [Hv Ht]].
    match goal with Hp : pollOnce _ _ _ _ = _ |- _ => rewrite Hp in Hv, Ht end.
    simpl in Hv, Ht. rewrite <- Hv in Ht. rewrite Ht, calls_app.
    match goal with Hc : (_ <? _) = true |- _ =>
      pose proof (roundsLeft_positive _ _ (proj1 (Z.ltb_lt _ _) Hc)) end.
    unfold calls at 2. simpl. lia.
  - destruct (pollOnce_run svc domainName operationId st) as [answer [Hv Ht]].
    pose proof (pollOnce_clock domainName operationId st) as Hclock.
    match goal with Hp : pollOnce _ _ _ _ = _ |- _ =>
      rewrite Hp in Hv, Ht, Hclock end.
    simpl in Hv, Ht, Hclock. rewrite <- Hv in Ht. specialize (Hclock eq_refl).
    match goal with Hc : (_ <? _) = true |- _ =>
      pose proof (roundsLeft_step _ _ _ (proj1 (Z.ltb_lt _ _) Hc) Hclock) end.
    match goal with IH : (_ <= _)%nat |- _ => rewrite Ht, calls_app in IH end.
    match goal with IH : (_ <= calls _ (trace st) + calls _ _ + _)%nat |- _ =>
      unfold calls at 3 in IH; simpl in IH end.
    lia.
Qed.

(** Every run of the hosted zone step is one of the three of
    [HostedZoneRun]. *)
Lemma handleHostedZone_run data domainName st :
  exists evs,
    trace (snd (handleHostedZone svc data domainName st)) = (trace st ++ evs)%list
    /\ HostedZoneRun data domainName evs (fst (handleHostedZone svc data domainName st)).
Proof.
  unfold handleHostedZone.
  destruct (ValueBool (DeleteHostedZone_ data)) eqn:Hflag.
  - unfold bind.
    destruct (deleteRegistrarHostedZone_run svc domainName st) as (evs & Ht & Hrun).
    destruct (deleteRegistrarHostedZone svc domainName st) as [[err |] st1];
      simpl in Ht, Hrun.
    + rewrite findHostedZoneID_run.
      destruct (ListHostedZonesByName svc (zonesByNameInput domainName) (remote st1))
        as [answer w2].
      exists (evs ++ [EvListHostedZonesByName (zonesByNameInput domainName) answer])%list.
      split.
      * destruct answer as [zones | e]; [destruct (findZoneIn domainName zones) |];
          simpl; rewrite Ht, app_assoc; reflexivity.
      * replace (fst _) with (storedZoneID domainName answer).
        { apply HostedZoneRun_kept with (err := err); assumption. }
        destruct answer as [zones | e]; [simpl; destruct (findZoneIn domainName zones) |];
          reflexivity.
    + exists evs. split; [assumption |]. apply HostedZoneRun_deleted; assumption.
  - unfold bind. rewrite findHostedZoneID_run.
    destruct (ListHostedZonesByName svc (zonesByNameInput domainName) (remote st))
      as [answer w2].
    exists [EvListHostedZonesByName (zonesByNameInput domainName) answer].
    split.
    + destruct answer as [zones | e]; [destruct (findZoneIn domainName zones) |];
        reflexivity.
    + replace (fst _) with (storedZoneID domainName answer).
      { apply HostedZoneRun_lookup; assumption. }
      destruct answer as [zones | e]; [simpl; destruct (findZoneIn domainName zones) |];
        reflexivity.
Qed.

(** The steps of a run of [Create] after a successful [RegisterDomain]:
    the polling loop up to its deadline, then nameserver and detail calls,
    then, when the detail was read, the hosted zone step and the state. *)
Lemma Create_steps data w t0 operationId w1 resp st :
  RegisterDomain svc (registerInputOf data) w = (Ok operationId, w1) ->
  exec (Create svc data) w t0 = (resp, st) ->
  let domainName := ValueString (DomainName data) in
  let st1 := mkSt (t0 + Z.of_N (latency svc w1)) w1
               [EvRegisterDomain (registerInputOf data) (Ok operationId)] in
  let polled := pollUntil svc (clock st1 + timeoutOf data) domainName operationId st1 in
  exists mid zoneEvs,
    trace st = (trace (snd polled) ++ mid ++ zoneEvs)%list
    /\ Forall (fun e => isUpdateDomainNameservers e || isGetDomainDetail e = true) mid
    /\ (zoneEvs = [] /\ State resp = None /\ length (Diagnostics resp) = 1%nat
        \/ exists domainDetail zoneID,
             HostedZoneRun data domainName zoneEvs zoneID
             /\ In (EvGetDomainDetail domainName (Ok domainDetail)) mid
             /\ resp
                = {| Diagnostics := [];
                     State := Some (setHostedZoneID
                                      (withDomainDetail data domainName domainDetail)
                                      zoneID) |}).
Proof.
  intros Hregister Hexec domainName st1 polled. subst domainName. revert Hexec.
  unfold exec, Create. unfold bind at 1. unfold call at 1. simpl.
  rewrite Hregister. unfold bind at 1. unfold Now at 1. simpl.
  unfold bind at 1. fold (timeoutOf data). fold st1.
  change (t0 + Z.of_N (latency svc w1) + timeoutOf data)
    with (clock st1 + timeoutOf data).
  fold polled. destruct polled as [exit st2]. simpl.
  destruct exit as [d |].
  { intros H. inversion H; subst. exists [], []. simpl. rewrite app_nil_r.
    split; [reflexivity | split; [constructor | left; auto]]. }
  unfold bind at 1.
  destruct (updateNameservers_run svc data st2) as [[Hnone Hns] | (err & Hne & Hsome & Hns)];
    destruct (updateNameservers svc data (ValueString (DomainName data)) st2) as [updated st3];
    simpl in Hns; simpl fst in *; subst updated.
  2:{ intros H. inversion H; subst.
      exists [EvUpdateDomainNameservers (ValueString (DomainName data)) (map ValueString (Nameservers data))
                (Err err)], [].
      simpl. rewrite ?app_nil_r. split; [assumption |]. split; [repeat constructor |].
      left. auto. }
  assert (Hmid : Forall (fun e => isUpdateDomainNameservers e || isGetDomainDetail e = true)
                        (nameserverEvents data)).
  { unfold nameserverEvents. destruct (0 <? length (Nameservers data))%nat;
      repeat constructor. }
  unfold bind at 1. unfold call at 1.
  destruct (GetDomainDetail svc (ValueString (DomainName data)) (remote st3)) as [[domainDetail | err] w4].
  2:{ intros H. inversion H; subst.
      exists (nameserverEvents data ++ [EvGetDomainDetail (ValueString (DomainName data)) (Err err)])%list, [].
      simpl. rewrite Hns, ?app_nil_r, <- ?app_assoc. split; [reflexivity |].
      split; [apply Forall_app; split; [assumption | repeat constructor] |].
      left. auto. }
  unfold bind at 1.
  match goal with |- context [handleHostedZone svc ?d ?dn ?st] =>
    destruct (handleHostedZone_run d dn st) as (zoneEvs & Hz & Hrun);
    destruct (handleHostedZone svc d dn st) as [zoneID st5] end.
  simpl in Hz, Hrun. intros H. inversion H; subst.
  exists (nameserverEvents data ++ [EvGetDomainDetail (ValueString (DomainName data)) (Ok domainDetail)])%list,
         zoneEvs.
  rewrite Hz, Hns, <- !app_assoc. split; [reflexivity |].
  split; [apply Forall_app; split; [assumption | repeat constructor] |].
  right. exists domainDetail, zoneID. split; [| split; [| reflexivity]].
  - inversion Hrun as [answer Hflag | evs Hflag Hzone | evs err answer Hflag Hzone];
      subst;
      [ apply HostedZoneRun_lookup
      | apply HostedZoneRun_deleted
      | apply HostedZoneRun_kept with (err := err) ];
      solve [exact Hflag | exact Hzone].
  - apply in_or_app. right. left. reflexivity.
Qed.

End RegistrationMore.

Lemma ZoneRun_route53 domainName evs err :
  ZoneRun domainName evs err -> Forall (fun e => isRoute53 e = true) evs.
Proof. intros H. inversion H; repeat constructor. Qed.

Lemma HostedZoneRun_route53 data domainName evs zoneID :
  HostedZoneRun data domainName evs zoneID -> Forall (fun e => isRoute53 e = true) evs.
Proof.
  intros H. inversion H as [answer Hflag | evs' Hflag Hzone | evs' err answer Hflag Hzone].
  - repeat constructor.
  - eapply ZoneRun_route53; eassumption.
  - apply Forall_app. split; [eapply ZoneRun_route53; eassumption | repeat constructor].
Qed.

Lemma pollEvents_id domainName operationId evs e o answer :
  pollEvents domainName operationId evs e ->
  In (EvGetOperationDetail o answer) evs -> o = operationId.
Proof.
  induction 1 as [| a e Hv | a evs e Hv Hp IH]; simpl.
  - contradiction.
  - intros [Heq | []]. inversion Heq. reflexivity.
  - intros [Heq | [Heq | Hin]]; [inversion Heq; reflexivity | discriminate | auto].
Qed.

(** In the events of the loop there is a sleep of [pollInterval] for each
    poll without a verdict, and at most one poll with one. *)
Lemma pollEvents_sleeps domainName operationId evs e :
  pollEvents domainName operationId evs e ->
  calls isSleep evs = calls (isWaitingPoll domainName) evs
  /\ (calls isGetOperationDetail evs <= calls (isWaitingPoll domainName) evs + 1)%nat
  /\ (forall d, In (EvSleep d) evs -> d = pollInterval).
Proof.
  unfold calls. induction 1 as [| a e Hv | a evs e Hv Hp (IH1 & IH2 & IH3)]; simpl.
  - repeat split; auto. contradiction.
  - rewrite Hv. simpl. repeat split; auto. intros d [Heq | []]. discriminate.
  - rewrite Hv. simpl. repeat split; try lia.
    intros d [Heq | [Heq | Hin]]; [discriminate | inversion Heq; reflexivity | auto].
Qed.

Section RegistrationExtras.

Context {W : Type} (svc : Services W).

Local Arguments String.append : simpl never.

Lemma Create_register_error data w t0 err w1 :
  RegisterDomain svc (registerInputOf data) w = (Err err, w1) ->
  trace (snd (exec (Create svc data) w t0))
  = [EvRegisterDomain (registerInputOf data) (Err err)].
Proof.
  intros Hregister. unfold exec, Create, bind, call. simpl.
  rewrite Hregister. reflexivity.
Qed.

(** X5: in every run of [Create] each sleep lasts 10 seconds and there is
    exactly one sleep per poll that was answered with a status other than
    SUCCESSFUL, FAILED and ERROR; at most one poll of the run is answered
    with an error or with one of these three. *)
Theorem Create_sleeps_once_per_waiting_poll data w t0 :
  let domainName := ValueString (DomainName data) in
  let t := trace (snd (exec (Create svc data) w t0)) in
  calls isSleep t = calls (isWaitingPoll domainName) t
  /\ (calls isGetOperationDetail t <= calls (isWaitingPoll domainName) t + 1)%nat
  /\ (forall d, In (EvSleep d) t -> d = 10 * Second).
Proof.
  intros domainName t. subst t domainName.
  destruct (exec (Create svc data) w t0) as [resp st] eqn:Hrun.
  apply Create_run in Hrun. simpl.
  assert (Hns : forall p, (forall d ns r, p (EvUpdateDomainNameservers d ns r) = false) ->
                calls p (nameserverEvents data) = 0%nat).
  { intros p Hp. unfold nameserverEvents, calls.
    destruct (0 <? length (Nameservers data))%nat; simpl; rewrite ?Hp; reflexivity. }
  assert (Hzone : forall p evs, (forall e, isRoute53 e = true -> p e = false) ->
                  Forall (fun e => isRoute53 e = true) evs -> calls p evs = 0%nat).
  { intros p evs Hp Hall. apply calls_filter_nil. apply route53_filter; assumption. }
  inversion Hrun as [err Ht Hr | o evs d' Hp Ht Hr | o evs err Hp Hne Ht Hr
                     | o evs err Hp Ht Hr | o evs detail zoneEvs zoneID Hp Hz Ht Hr].
  - unfold calls. simpl. repeat split; try lia. intros d [Heq | []]. discriminate.
  - destruct (pollEvents_sleeps _ _ _ _ Hp) as (H1 & H2 & H3).
    change (EvRegisterDomain (registerInputOf data) (Ok o) :: evs)
      with ([EvRegisterDomain (registerInputOf data) (Ok o)] ++ evs)%list.
    rewrite !calls_app. unfold calls at 1 3 5. simpl. repeat split; try lia.
    intros d [Heq | Hin]; [discriminate | auto].
  - destruct (pollEvents_sleeps _ _ _ _ Hp) as (H1 & H2 & H3).
    change (EvRegisterDomain (registerInputOf data) (Ok o)
              :: evs ++ [EvUpdateDomainNameservers (ValueString (DomainName data))
                           (map ValueString (Nameservers data)) (Err err)])%list
      with ([EvRegisterDomain (registerInputOf data) (Ok o)]
              ++ evs ++ [EvUpdateDomainNameservers (ValueString (DomainName data))
                           (map ValueString (Nameservers data)) (Err err)])%list.
    rewrite !calls_app. unfold calls at 1 3 4 6 7 9. simpl. repeat split; try lia.
    intros d [Heq | Hin]; [discriminate |].
    apply in_app_or in Hin. destruct Hin as [Hin | [Heq | []]]; [auto | discriminate].
  - destruct (pollEvents_sleeps _ _ _ _ Hp) as (H1 & H2 & H3).
    change (EvRegisterDomain (registerInputOf data) (Ok o)
              :: evs ++ nameserverEvents data
                 ++ [EvGetDomainDetail (ValueString (DomainName data)) (Err err)])%list
      with ([EvRegisterDomain (registerInputOf data) (Ok o)]
              ++ evs ++ nameserverEvents data
                 ++ [EvGetDomainDetail (ValueString (DomainName data)) (Err err)])%list.
    rewrite !calls_app.
    rewrite !(Hns _ (fun _ _ _ => eq_refl)).
    unfold calls at 1 3 4 6 7 9. simpl. repeat split; try lia.
    intros d [Heq | Hin]; [discriminate |].
    apply in_app_or in Hin. destruct Hin as [Hin | Hin]; [auto |].
    apply in_app_or in Hin. destruct Hin as [Hin | [Heq | []]]; [| discriminate].
    unfold nameserverEvents in Hin.
    destruct (0 <? length (Nameservers data))%nat; [| contradiction].
    destruct Hin as [Heq | []]. discriminate.
  - destruct (pollEvents_sleeps _ _ _ _ Hp) as (H1 & H2 & H3).
    change (EvRegisterDomain (registerInputOf data) (Ok o)
              :: evs ++ nameserverEvents data
                 ++ EvGetDomainDetail (ValueString (DomainName data)) (Ok detail)
                 :: zoneEvs)%list
      with ([EvRegisterDomain (registerInputOf data) (Ok o)]
              ++ evs ++ nameserverEvents data
                 ++ [EvGetDomainDetail (ValueString (DomainName data)) (Ok detail)]
                 ++ zoneEvs)%list.
    rewrite !calls_app.
    rewrite !(Hns _ (fun _ _ _ => eq_refl)).
    rewrite (Hzone isSleep zoneEvs), (Hzone (isWaitingPoll _) zoneEvs),
      (Hzone isGetOperationDetail zoneEvs); try assumption;
      try (intros [] He; simpl in *; congruence).
    unfold calls at 1 3 4 6 7 9. simpl. repeat split; try lia.
    intros d [Heq | Hin]; [discriminate |].
    apply in_app_or in Hin. destruct Hin as [Hin | Hin]; [auto |].
    apply in_app_or in Hin. destruct Hin as [Hin | [Heq | Hin]]; [| discriminate |].
    + unfold nameserverEvents in Hin.
      destruct (0 <? length (Nameservers data))%nat; [| contradiction].
      destruct Hin as [Heq | []]. discriminate.
    + rewrite Forall_forall in Hz. apply Hz in Hin. discriminate.
Qed.

(** X6: [Create] polls at most once per 10 seconds of its timeout, rounded
    up: at most 90 times with the default of 900 seconds, and not at all
    when the timeout, as a duration, is zero or negative. *)
Theorem Create_polls_bounded_by_timeout data w t0 :
  let polls := calls isGetOperationDetail (trace (snd (exec (Create svc data) w t0))) in
  (polls <= Z.to_nat ((timeoutOf data + (pollInterval - 1)) / pollInterval))%nat
  /\ (RegistrationTimeout data = tfKnown 900 -> (polls <= 90)%nat)
  /\ (timeoutOf data <= 0 -> polls = 0%nat).
Proof.
  intros polls.
  assert (Hbound : (polls <= Z.to_nat ((timeoutOf data + (pollInterval - 1))
                                        / pollInterval))%nat).
  { subst polls.
    destruct (RegisterDomain svc (registerInputOf data) w) as [[operationId | err] w1]
      eqn:Hregister.
    2:{ rewrite (Create_register_error data w t0 err w1 Hregister). unfold calls.
        simpl. lia. }
    destruct (exec (Create svc data) w t0) as [resp st] eqn:Hrun.
    destruct (Create_steps svc data w t0 operationId w1 resp st Hregister Hrun)
      as (mid & zoneEvs & Ht & Hmid & Hzone).
    simpl. rewrite Ht, !calls_app.
    match type of Ht with context [pollUntil svc ?dl ?dn ?o ?st1] =>
      pose proof (pollUntil_polls svc dl dn o st1) as Hpolls end.
    assert (Hm : calls isGetOperationDetail mid = 0%nat).
    { apply calls_filter_nil. clear - Hmid.
      induction Hmid as [| e rest He _ IH]; simpl; [reflexivity |].
      destruct e; simpl in *; try discriminate; assumption. }
    assert (Hz : calls isGetOperationDetail zoneEvs = 0%nat).
    { destruct Hzone as [(Hnil & _) | (detail & zoneID & Hz & _)].
      - subst zoneEvs. reflexivity.
      - apply calls_filter_nil. apply route53_filter.
        + intros [] He; simpl in *; congruence.
        + eapply HostedZoneRun_route53; eassumption. }
    rewrite Hm, Hz. unfold roundsLeft in Hpolls. cbn [clock trace] in Hpolls |- *.
    replace (t0 + Z.of_N (latency svc w1) + timeoutOf data
             - (t0 + Z.of_N (latency svc w1)) + (pollInterval - 1))
      with (timeoutOf data + (pollInterval - 1)) in Hpolls by lia.
    change (calls isGetOperationDetail
              [EvRegisterDomain (registerInputOf data) (Ok operationId)])
      with 0%nat in Hpolls.
    change (pollInterval - 1) with 9999999999 in Hpolls.
    lia. }
  split; [assumption |]. split.
  - intros Htimeout. unfold timeoutOf in Hbound. rewrite Htimeout in Hbound.
    exact Hbound.
  - intros Htimeout.
    assert (Hzero : (timeoutOf data + (pollInterval - 1)) / pollInterval <= 0).
    { unfold pollInterval, Second in *.
      assert ((timeoutOf data + (10 * 1000000000 - 1)) / (10 * 1000000000) < 1)
        by (apply Z.div_lt_upper_bound; lia).
      lia. }
    lia.
Qed.

(** X7: every run of [Create] starts with the one [RegisterDomain] call of
    the run, made with the request built from the plan; every poll is for
    the operation id that call returned; [Create] never calls
    [DeleteDomain]. *)
Theorem Create_registers_once data w t0 :
  exists r rest,
    trace (snd (exec (Create svc data) w t0))
    = EvRegisterDomain (registerInputOf data) r :: rest
    /\ calls isRegisterDomain rest = 0%nat
    /\ calls isDeleteDomain rest = 0%nat
    /\ (forall operationId answer,
          In (EvGetOperationDetail operationId answer) rest -> r = Ok operationId).
Proof.
  destruct (exec (Create svc data) w t0) as [resp st] eqn:Hrun.
  apply Create_run in Hrun. simpl.
  assert (Hquiet : forall p o evs e,
            (forall o' a, p (EvGetOperationDetail o' a) = false) ->
            (forall d, p (EvSleep d) = false) ->
            pollEvents (ValueString (DomainName data)) o evs e -> calls p evs = 0%nat).
  { intros p o evs e H1 H2 Hp. apply calls_filter_nil.
    eapply pollEvents_filter; eassumption. }
  assert (Hns : forall p, (forall d ns r, p (EvUpdateDomainNameservers d ns r) = false) ->
                calls p (nameserverEvents data) = 0%nat).
  { intros p Hp. unfold nameserverEvents, calls.
    destruct (0 <? length (Nameservers data))%nat; simpl; rewrite ?Hp; reflexivity. }
  assert (Hzone : forall p evs, (forall e, isRoute53 e = true -> p e = false) ->
                  Forall (fun e => isRoute53 e = true) evs -> calls p evs = 0%nat).
  { intros p evs Hp Hall. apply calls_filter_nil. apply route53_filter; assumption. }
  assert (Hnopoll : forall evs, calls isGetOperationDetail evs = 0%nat ->
                    forall o a, ~ In (EvGetOperationDetail o a) evs).
  { intros evs Hc o a Hin.
    pose proof (calls_In isGetOperationDetail _ _ Hin eq_refl). lia. }
  inversion Hrun as [err Ht Hr | o evs d' Hp Ht Hr | o evs err Hp Hne Ht Hr
                     | o evs err Hp Ht Hr | o evs detail zoneEvs zoneID Hp Hz Ht Hr];
    eexists; eexists; (split; [reflexivity |]);
    rewrite ?calls_app;
    try rewrite (Hquiet isRegisterDomain _ _ _ (fun _ _ => eq_refl) (fun _ => eq_refl) Hp);
    try rewrite (Hquiet isDeleteDomain _ _ _ (fun _ _ => eq_refl) (fun _ => eq_refl) Hp);
    try rewrite (Hns isRegisterDomain (fun _ _ _ => eq_refl));
    try rewrite (Hns isDeleteDomain (fun _ _ _ => eq_refl)).
  - repeat split. intros o a [].
  - repeat split. intros o' a Hin. rewrite (pollEvents_id _ _ _ _ _ _ Hp Hin).
    reflexivity.
  - repeat split. intros o' a Hin. apply in_app_or in Hin.
    destruct Hin as [Hin | [Heq | []]]; [| discriminate].
    rewrite (pollEvents_id _ _ _ _ _ _ Hp Hin). reflexivity.
  - repeat split. intros o' a Hin. apply in_app_or in Hin.
    destruct Hin as [Hin | Hin];
      [rewrite (pollEvents_id _ _ _ _ _ _ Hp Hin); reflexivity |].
    exfalso. revert Hin. apply Hnopoll.
    rewrite calls_app, (Hns _ (fun _ _ _ => eq_refl)). reflexivity.
  - change (EvGetDomainDetail (ValueString (DomainName data)) (Ok detail) :: zoneEvs)
      with ([EvGetDomainDetail (ValueString (DomainName data)) (Ok detail)]
              ++ zoneEvs)%list.
    rewrite ?calls_app, (Hzone isRegisterDomain zoneEvs),
      (Hzone isDeleteDomain zoneEvs); try assumption;
      try (intros [] He; simpl in *; congruence).
    repeat split. intros o' a Hin. apply in_app_or in Hin.
    destruct Hin as [Hin | Hin];
      [rewrite (pollEvents_id _ _ _ _ _ _ Hp Hin); reflexivity |].
    exfalso. revert Hin. apply Hnopoll.
    rewrite !calls_app, (Hns _ (fun _ _ _ => eq_refl)),
      (Hzone isGetOperationDetail zoneEvs); try assumption;
      try (intros [] He; simpl in *; congruence).
    reflexivity.
Qed.

(** X8: [Create] sets the state exactly when it reports no diagnostic, and
    reports at most one. The state it sets has the domain name as id and
    the plan's own attributes (domain name, duration, auto-renew, contacts,
    privacy flags, nameservers, the two deletion flags and the timeout)
    unchanged. *)
Theorem Create_state_iff_no_diagnostic data w t0 :
  let resp := fst (exec (Create svc data) w t0) in
  (Diagnostics resp = [] <-> State resp <> None)
  /\ (length (Diagnostics resp) <= 1)%nat
  /\ (forall state, State resp = Some state ->
        ID state = tfKnown (ValueString (DomainName data))
        /\ sameContactsAndFlags data state
        /\ AutoRenew state = AutoRenew data
        /\ Nameservers state = Nameservers data).
Proof.
  intros resp. subst resp.
  destruct (exec (Create svc data) w t0) as [resp st] eqn:Hrun.
  apply Create_run in Hrun. simpl.
  inversion Hrun as [err Ht Hr | o evs d' Hp Ht Hr | o evs err Hp Hne Ht Hr
                     | o evs err Hp Ht Hr | o evs detail zoneEvs zoneID Hp Hz Ht Hr];
    simpl;
    (split; [split; [intros H; try discriminate H | intros H; try congruence] |
             split; [lia | intros state Hs; try discriminate Hs]]).
  - discriminate.
  - inversion Hs. unfold sameContactsAndFlags. simpl. repeat split.
Qed.

End RegistrationExtras.

Lemma ZoneRun_delete_inv domainName evs err id r :
  ZoneRun domainName evs err ->
  In (EvDeleteHostedZone id r) evs ->
  exists zones zone records,
    evs = [EvListHostedZonesByName (zonesByNameInput domainName) (Ok zones);
           EvListResourceRecordSets id (Ok records);
           EvDeleteHostedZone id r]
    /\ In zone zones
    /\ id = ToString (Id zone)
    /\ eligible domainName zone records
    /\ err = match r with
             | Ok _ => None
             | Err e => Some (DeleteZoneFailed e)
             end.
Proof.
  intros Hrun Hin.
  inversion Hrun as [err' Ht Hr | zones Hnone Ht Hr | zones zone Hf Hp Ht Hr
                     | zones zone Hf Hp Hc Ht Hr | zones zone err' Hf Hp Hc Ht Hr
                     | zones zone records record Hf Hp Hc Hfirst Ht Hr
                     | zones zone records r' Hf Hp Hc Hfirst Ht Hr];
    rewrite <- Ht in Hin; simpl in Hin;
    try (repeat (destruct Hin as [Hin | Hin]; try discriminate); contradiction).
  destruct Hin as [Hin | [Hin | [Hin | []]]]; try discriminate.
  inversion Hin; subst id r'.
  destruct (find_zoneNameIs _ _ _ Hf) as [Hzone Hname].
  exists zones, zone, records. repeat split; try assumption.
  apply firstCustomRecord_None. assumption.
Qed.

Lemma ZoneRun_deletes_once domainName evs err :
  ZoneRun domainName evs err -> (calls isDeleteHostedZone evs <= 1)%nat.
Proof. intros H. inversion H; unfold calls; simpl; lia. Qed.

Lemma ZoneRun_nil_deleted domainName evs :
  ZoneRun domainName evs None ->
  exists id, In (EvDeleteHostedZone id (Ok tt)) evs.
Proof.
  intros H. inversion H as [| | | | | | zones zone records r Hf Hp Hc Hfirst Ht Hr].
  destruct r as [[] | e]; [| discriminate].
  eexists. right. right. left. reflexivity.
Qed.

Section CreateZone.

Context {W : Type} (svc : Services W).

Local Arguments String.append : simpl never.

(** The shape of the trace of [Create] around its hosted zone step:
    before it no Route 53 call is made. *)
Lemma Create_zone_events data w t0 :
  let domainName := ValueString (DomainName data) in
  let run := exec (Create svc data) w t0 in
  exists before zoneEvs,
    trace (snd run) = (before ++ zoneEvs)%list
    /\ Forall (fun e => isRoute53 e = false) before
    /\ (zoneEvs = []
        \/ exists domainDetail zoneID,
             HostedZoneRun data domainName zoneEvs zoneID
             /\ fst run
                = {| Diagnostics := [];
                     State := Some (setHostedZoneID
                                      (withDomainDetail data domainName domainDetail)
                                      zoneID) |}).
Proof.
  intros domainName run. subst run domainName.
  destruct (RegisterDomain svc (registerInputOf data) w) as [[operationId | err] w1]
    eqn:Hregister.
  2:{ rewrite (Create_register_error svc data w t0 err w1 Hregister).
      exists [EvRegisterDomain (registerInputOf data) (Err err)], [].
      split; [reflexivity |]. split; [repeat constructor | auto]. }
  destruct (exec (Create svc data) w t0) as [resp st] eqn:Hrun.
  destruct (Create_steps svc data w t0 operationId w1 resp st Hregister Hrun)
    as (mid & zoneEvs & Ht & Hmid & Hzone).
  match type of Ht with context [pollUntil svc ?dl ?dn ?o ?st1] =>
    destruct (pollUntil_events svc dl dn o st1) as (evs & Hevs & Hp) end.
  rewrite Hevs in Ht. simpl in Ht. simpl.
  exists (EvRegisterDomain (registerInputOf data) (Ok operationId) :: evs ++ mid)%list,
         zoneEvs.
  split; [rewrite Ht; simpl; rewrite <- app_assoc; reflexivity |]. split.
  - constructor; [reflexivity |]. apply Forall_app. split.
    + clear - Hp. induction Hp; repeat constructor; assumption.
    + eapply Forall_impl; [| exact Hmid]. intros [] He; simpl in *; congruence.
  - destruct Hzone as [(Hnil & _) | (detail & zoneID & Hz & _ & Hresp)]; [auto |].
    right. exists detail, zoneID. auto.
Qed.

(** X9: [Create] calls [DeleteHostedZone] at most once, and neither it nor
    [ListResourceRecordSets] when [delete_hosted_zone] is not set. A
    [DeleteHostedZone] call directly follows the zone listing and the
    record listing of the same zone and is for a listed zone that passes
    the four checks; when it succeeds it ends the run and the state has a
    null hosted zone id, and when it fails one more lookup follows. *)
Theorem Create_deletes_zone_only_if_asked data w t0 :
  let domainName := ValueString (DomainName data) in
  let run := exec (Create svc data) w t0 in
  (ValueBool (DeleteHostedZone_ data) = false ->
     calls isDeleteHostedZone (trace (snd run)) = 0%nat
     /\ calls isListResourceRecordSets (trace (snd run)) = 0%nat)
  /\ (calls isDeleteHostedZone (trace (snd run)) <= 1)%nat
  /\ (forall id r,
        In (EvDeleteHostedZone id r) (trace (snd run)) ->
        ValueBool (DeleteHostedZone_ data) = true
        /\ exists before zones zone records after,
             trace (snd run)
             = (before
                  ++ [EvListHostedZonesByName (zonesByNameInput domainName) (Ok zones);
                      EvListResourceRecordSets id (Ok records);
                      EvDeleteHostedZone id r]
                  ++ after)%list
             /\ In zone zones
             /\ id = ToString (Id zone)
             /\ eligible domainName zone records
             /\ (isOk r = true ->
                   after = []
                   /\ exists state, State (fst run) = Some state
                                    /\ HostedZoneID state = tfNull)
             /\ (isOk r = false ->
                   exists answer,
                     after = [EvListHostedZonesByName (zonesByNameInput domainName)
                                answer])).
Proof.
  intros domainName run.
  destruct (Create_zone_events data w t0) as (before & zoneEvs & Ht & Hbefore & Hzone).
  fold run domainName in Ht, Hzone.
  assert (Hquiet : forall p, (forall e, p e = true -> isRoute53 e = true) ->
                   calls p before = 0%nat).
  { intros p Hp. apply calls_filter_nil. clear - Hbefore Hp.
    induction Hbefore as [| e rest He _ IH]; simpl; [reflexivity |].
    destruct (p e) eqn:Hpe; [apply Hp in Hpe; congruence | assumption]. }
  assert (Hnotin : forall id r, ~ In (EvDeleteHostedZone id r) before).
  { intros id r Hin. rewrite Forall_forall in Hbefore. apply Hbefore in Hin.
    discriminate. }
  rewrite Ht, !calls_app,
    (Hquiet isDeleteHostedZone), (Hquiet isListResourceRecordSets);
    try (intros [] He; simpl in *; congruence).
  destruct Hzone as [Hnil | (detail & zoneID & Hrun & Hresp)].
  { subst zoneEvs. unfold calls. simpl.
    split; [intros _; split; reflexivity |]. split; [lia |].
    intros id r Hin. apply in_app_or in Hin. destruct Hin as [Hin | []].
    exfalso. exact (Hnotin _ _ Hin). }
  inversion Hrun as [answer Hflag Hevs Hid | evs Hflag Hz Hevs Hid
                     | evs err answer Hflag Hz Hevs Hid].
  - unfold calls. simpl. split; [auto |]. split; [lia |].
    intros id r Hin. apply in_app_or in Hin. destruct Hin as [Hin | [Hin | []]].
    + exfalso. exact (Hnotin _ _ Hin).
    + discriminate.
  - pose proof (ZoneRun_deletes_once _ _ _ Hz) as Honce.
    split; [intros Hfalse; congruence |]. split; [lia |].
    intros id r Hin. split; [assumption |].
    apply in_app_or in Hin. destruct Hin as [Hin | Hin];
      [exfalso; exact (Hnotin _ _ Hin) |].
    destruct (ZoneRun_delete_inv _ _ _ _ _ Hz Hin)
      as (zones & zone & records & Hevs' & Hzone & Hidz & Helig & Herr).
    exists before, zones, zone, records, []. rewrite app_nil_r, <- Hevs'.
    split; [reflexivity |]. do 3 (split; [assumption |]). split.
    + intros _. split; [reflexivity |]. rewrite Hresp, <- Hid. eexists.
      split; reflexivity.
    + intros Hr. destruct r; [discriminate Hr | discriminate Herr].
  - pose proof (ZoneRun_deletes_once _ _ _ Hz) as Honce.
    rewrite calls_app.
    change (calls isDeleteHostedZone
              [EvListHostedZonesByName (zonesByNameInput domainName) answer])
      with 0%nat.
    split; [intros Hfalse; congruence |]. split; [lia |].
    intros id r Hin. split; [assumption |].
    apply in_app_or in Hin. destruct Hin as [Hin | Hin];
      [exfalso; exact (Hnotin _ _ Hin) |].
    apply in_app_or in Hin. destruct Hin as [Hin | [Hin | []]]; [| discriminate].
    destruct (ZoneRun_delete_inv _ _ _ _ _ Hz Hin)
      as (zones & zone & records & Hevs' & Hzone & Hidz & Helig & Herr).
    exists before, zones, zone, records,
      [EvListHostedZonesByName (zonesByNameInput domainName) answer].
    rewrite <- Hevs'. split; [reflexivity |].
    do 3 (split; [assumption |]). split.
    + intros Hr. destruct r; [discriminate Herr | discriminate Hr].
    + intros _. eexists. reflexivity.
Qed.

End CreateZone.

(** ** More on Read and Delete *)

(** Two models are equal when their attributes are. *)
Lemma model_ext (a b : DomainRegistrationResourceModel) :
  ID a = ID b -> DomainName a = DomainName b -> DurationYears a = DurationYears b ->
  AutoRenew a = AutoRenew b -> AdminContact a = AdminContact b ->
  RegistrantContact a = RegistrantContact b -> TechContact a = TechContact b ->
  AdminPrivacy a = AdminPrivacy b -> RegistrantPrivacy a = RegistrantPrivacy b ->
  TechPrivacy a = TechPrivacy b -> Nameservers a = Nameservers b ->
  AllowDelete a = AllowDelete b -> DeleteHostedZone_ a = DeleteHostedZone_ b ->
  Status a = Status b -> ExpirationDate a = ExpirationDate b ->
  CreationDate a = CreationDate b -> RegistrationTimeout a = RegistrationTimeout b ->
  HostedZoneID a = HostedZoneID b ->
  a = b.
Proof.
  destruct a, b. simpl. intros. subst. reflexivity.
Qed.

(** Refreshing a model twice from the same detail and zone id is
    refreshing it once. *)
Lemma refreshed_again data domainName detail zoneID :
  let refreshed :=
    setHostedZoneID
      (withDomainDetail
         (setAutoRenewNameservers data
            (match ddAutoRenew detail with
             | Some b => tfKnown b
             | None => AutoRenew data
             end)
            (if (0 <? length (ddNameservers detail))%nat
             then map (fun ns => tfKnown (ToString ns)) (ddNameservers detail)
             else Nameservers data))
         domainName detail)
      zoneID in
  setHostedZoneID
    (withDomainDetail
       (setAutoRenewNameservers refreshed
          (match ddAutoRenew detail with
           | Some b => tfKnown b
           | None => AutoRenew refreshed
           end)
          (if (0 <? length (ddNameservers detail))%nat
           then map (fun ns => tfKnown (ToString ns)) (ddNameservers detail)
           else Nameservers refreshed))
       domainName detail)
    zoneID
  = refreshed.
Proof.
  intros refreshed.
  apply model_ext; try reflexivity.
  - change (match ddAutoRenew detail with
            | Some b => tfKnown b
            | None => AutoRenew refreshed
            end = AutoRenew refreshed).
    change (AutoRenew refreshed)
      with (match ddAutoRenew detail with
            | Some b => tfKnown b
            | None => AutoRenew data
            end).
    destruct (ddAutoRenew detail); reflexivity.
  - change ((if (0 <? length (ddNameservers detail))%nat
             then map (fun ns => tfKnown (ToString ns)) (ddNameservers detail)
             else Nameservers refreshed) = Nameservers refreshed).
    change (Nameservers refreshed)
      with (if (0 <? length (ddNameservers detail))%nat
            then map (fun ns => tfKnown (ToString ns)) (ddNameservers detail)
            else Nameservers data).
    destruct (0 <? length (ddNameservers detail))%nat; reflexivity.
  - change (match ddStatusList detail with
            | status :: _ => tfKnown status
            | [] => Status refreshed
            end = Status refreshed).
    change (Status refreshed)
      with (match ddStatusList detail with
            | status :: _ => tfKnown status
            | [] => Status data
            end).
    destruct (ddStatusList detail); reflexivity.
  - change (match ddExpirationDate detail with
            | Some d => tfKnown d
            | None => ExpirationDate refreshed
            end = ExpirationDate refreshed).
    change (ExpirationDate refreshed)
      with (match ddExpirationDate detail with
            | Some d => tfKnown d
            | None => ExpirationDate data
            end).
    destruct (ddExpirationDate detail); reflexivity.
  - change (match ddCreationDate detail with
            | Some d => tfKnown d
            | None => CreationDate refreshed
            end = CreationDate refreshed).
    change (CreationDate refreshed)
      with (match ddCreationDate detail with
            | Some d => tfKnown d
            | None => CreationDate data
            end).
    destruct (ddCreationDate detail); reflexivity.
Qed.

Section ReadDeleteMore.

Context {W : Type} (svc : Services W).

Local Arguments String.append : simpl never.

(** The two runs of [Read]. *)
Lemma Read_run data w t0 :
  let domainName := ValueString (DomainName data) in
  let run := exec (Read svc data) w t0 in
  (exists err,
     fst (GetDomainDetail svc domainName w) = Err err
     /\ trace (snd run) = [EvGetDomainDetail domainName (Err err)]
     /\ fst run = {| Diagnostics := []; State := None |})
  \/ (exists domainDetail answer,
        fst (GetDomainDetail svc domainName w) = Ok domainDetail
        /\ answer = fst (ListHostedZonesByName svc (zonesByNameInput domainName)
                           (snd (GetDomainDetail svc domainName w)))
        /\ trace (snd run)
           = [EvGetDomainDetail domainName (Ok domainDetail);
              EvListHostedZonesByName (zonesByNameInput domainName) answer]
        /\ fst run
           = {| Diagnostics := [];
                State :=
                  Some (setHostedZoneID
                          (withDomainDetail
                             (setAutoRenewNameservers data
                                (match ddAutoRenew domainDetail with
                                 | Some b => tfKnown b
                                 | None => AutoRenew data
                                 end)
                                (if (0 <? length (ddNameservers domainDetail))%nat
                                 then map (fun ns => tfKnown (ToString ns))
                                          (ddNameservers domainDetail)
                                 else Nameservers data))
                             domainName domainDetail)
                          (storedZoneID domainName answer)) |}).
Proof.
  intros domainName run. subst run.
  destruct (exec (Read svc data) w t0) as [resp st] eqn:Hrun. revert Hrun.
  unfold exec, Read. fold domainName.
  unfold bind at 1. unfold call at 1. simpl.
  destruct (GetDomainDetail svc domainName w) as [[domainDetail | err] w1]; simpl.
  2:{ intros H. inversion H; subst. left. exists err. repeat split; reflexivity. }
  right. revert Hrun. unfold bind. rewrite findHostedZoneID_run. simpl.
  destruct (ListHostedZonesByName svc (zonesByNameInput domainName) w1)
    as [answer w2].
  intros H. exists domainDetail, answer.
  destruct answer as [zones | e];
    [simpl in H; destruct (findZoneIn domainName zones) eqn:Hfound |];
    inversion H; subst; unfold storedZoneID; rewrite ?Hfound;
    repeat split; reflexivity.
Qed.

(** X10: [Read] never reports a diagnostic. It calls [GetDomainDetail]
    once and, only when that succeeded, [ListHostedZonesByName] once, and
    nothing else; it removes the resource from the state exactly when
    [GetDomainDetail] failed. *)
Theorem Read_reports_nothing data w t0 :
  let domainName := ValueString (DomainName data) in
  let run := exec (Read svc data) w t0 in
  Diagnostics (fst run) = []
  /\ ((exists r, trace (snd run) = [EvGetDomainDetail domainName r]
                 /\ isOk r = false /\ State (fst run) = None)
      \/ (exists r answer,
            trace (snd run)
            = [EvGetDomainDetail domainName r;
               EvListHostedZonesByName (zonesByNameInput domainName) answer]
            /\ isOk r = true /\ State (fst run) <> None)).
Proof.
  intros domainName run.
  destruct (Read_run data w t0)
    as [(err & _ & Ht & Hr) | (detail & answer & _ & _ & Ht & Hr)];
    fold domainName run in Ht, Hr; rewrite Hr, Ht; simpl; (split; [reflexivity |]).
  - left. exists (Err err). auto.
  - right. exists (Ok detail), answer. repeat split. discriminate.
Qed.

(** X11: the state [Read] writes differs from the prior state in computed
    and refreshed attributes only: contacts, privacy flags, duration, the
    deletion flags and the timeout are never refreshed from the registry.
    The id is the domain name; the nameservers are the registry's when it
    lists any and the prior ones when it lists none; the hosted zone id is
    null whenever the lookup fails or finds no zone of that name. *)
Theorem Read_keeps_user_attributes data w t0 state :
  State (fst (exec (Read svc data) w t0)) = Some state ->
  let domainName := ValueString (DomainName data) in
  sameContactsAndFlags data state
  /\ ID state = tfKnown domainName
  /\ exists domainDetail answer,
       trace (snd (exec (Read svc data) w t0))
       = [EvGetDomainDetail domainName (Ok domainDetail);
          EvListHostedZonesByName (zonesByNameInput domainName) answer]
       /\ (ddNameservers domainDetail = [] -> Nameservers state = Nameservers data)
       /\ (ddNameservers domainDetail <> [] ->
             Nameservers state
             = map (fun ns => tfKnown (ToString ns)) (ddNameservers domainDetail))
       /\ (ddAutoRenew domainDetail = None -> AutoRenew state = AutoRenew data)
       /\ (forall zones,
             answer = Ok zones ->
             Forall (fun z => zoneNameIs domainName z = false) zones ->
             HostedZoneID state = tfNull)
       /\ (forall err, answer = Err err -> HostedZoneID state = tfNull).
Proof.
  intros Hstate domainName.
  destruct (Read_run data w t0)
    as [(err & _ & Ht & Hr) | (detail & answer & _ & _ & Ht & Hr)];
    fold domainName in Ht, Hr; rewrite Hr in Hstate; simpl in Hstate;
    [discriminate |].
  inversion Hstate; subst state. clear Hstate.
  split; [unfold sameContactsAndFlags; simpl; repeat split |].
  split; [reflexivity |].
  exists detail, answer. split; [assumption |]. simpl. repeat split.
  - intros Hnil. rewrite Hnil. reflexivity.
  - intros Hne. destruct (ddNameservers detail); [contradiction | reflexivity].
  - intros Hnone. rewrite Hnone. reflexivity.
  - intros zones Hanswer Hall. subst answer. simpl.
    rewrite findZoneIn_none by assumption. reflexivity.
  - intros err Hanswer. subst answer. reflexivity.
Qed.

(** X12: [Read] is idempotent: when the registry and the zone listing
    answer the second [Read] as they answered the first, reading the state
    the first [Read] wrote gives that state again. *)
Theorem Read_idempotent data w t0 w' t1 state :
  State (fst (exec (Read svc data) w t0)) = Some state ->
  let domainName := ValueString (DomainName data) in
  fst (GetDomainDetail svc domainName w') = fst (GetDomainDetail svc domainName w) ->
  fst (ListHostedZonesByName svc (zonesByNameInput domainName)
         (snd (GetDomainDetail svc domainName w')))
  = fst (ListHostedZonesByName svc (zonesByNameInput domainName)
           (snd (GetDomainDetail svc domainName w))) ->
  State (fst (exec (Read svc state) w' t1)) = Some state.
Proof.
  intros Hstate domainName Hdetail Hlist.
  destruct (Read_run data w t0)
    as [(err & _ & _ & Hr) | (detail & answer & Hd & Ha & _ & Hr)];
    fold domainName in Hr; rewrite Hr in Hstate; cbn [State] in Hstate;
    [discriminate |].
  fold domainName in Hd, Ha.
  injection Hstate as Hs.
  assert (Hname : ValueString (DomainName state) = domainName)
    by (rewrite <- Hs; reflexivity).
  destruct (Read_run state w' t1)
    as [(err & Hd' & _ & _) | (detail' & answer' & Hd' & Ha' & _ & Hr')];
    rewrite Hname in *.
  - rewrite Hdetail, Hd in Hd'. discriminate.
  - rewrite Hdetail, Hd in Hd'. inversion Hd'; subst detail'.
    rewrite Hlist, <- Ha in Ha'. subst answer'.
    rewrite Hr'. cbn [State]. f_equal.
    rewrite <- Hs.
    apply refreshed_again.
Qed.

(** The three runs of [Delete]. *)
Lemma Delete_run data w t0 :
  let domainName := ValueString (DomainName data) in
  let run := exec (Delete svc data) w t0 in
  (ValueBool (AllowDelete data) = false
   /\ trace (snd run) = [] /\ DeleteDiagnostics (fst run) = [])
  \/ (ValueBool (AllowDelete data) = true
      /\ exists err,
           trace (snd run) = [EvDeleteDomain domainName (Err err)]
           /\ DeleteDiagnostics (fst run)
              = [AddError "Error deleting domain"
                   ("Could not delete domain " ++ domainName ++ ": " ++ err
                      ++ ". Note: Domain deletion may not be supported by the registry. The domain has been removed from Terraform state.")])
  \/ (ValueBool (AllowDelete data) = true
      /\ exists evs err,
           trace (snd run) = EvDeleteDomain domainName (Ok tt) :: evs
           /\ ZoneRun domainName evs err
           /\ DeleteDiagnostics (fst run) = []).
Proof.
  intros domainName run. subst run.
  destruct (exec (Delete svc data) w t0) as [resp st] eqn:Hrun. revert Hrun.
  unfold exec, Delete. fold domainName.
  destruct (ValueBool (AllowDelete data)); simpl.
  2:{ intros H. inversion H. left. auto. }
  right. revert Hrun. unfold bind at 1. unfold call at 1. simpl.
  destruct (DeleteDomain svc domainName w) as [[[] | err] w1].
  2:{ intros H. inversion H. left. split; [reflexivity |]. exists err. auto. }
  unfold bind.
  match goal with |- context [deleteRegistrarHostedZone svc ?d ?st0] =>
    destruct (deleteRegistrarHostedZone_run svc d st0) as (evs & Ht & Hzone);
    destruct (deleteRegistrarHostedZone svc d st0) as [err st1] end.
  simpl in Ht, Hzone. intros H. inversion H; subst.
  right. split; [reflexivity |]. exists evs, err. auto.
Qed.

(** X13: [Delete] reports a diagnostic exactly when it called
    [DeleteDomain] and the call failed, and then it called nothing else.
    It calls [DeleteDomain] at most once and before anything else, and
    Route 53 only after [DeleteDomain] succeeded; it makes no other kind of
    call. *)
Theorem Delete_zone_only_after_domain data w t0 :
  let domainName := ValueString (DomainName data) in
  let run := exec (Delete svc data) w t0 in
  (DeleteDiagnostics (fst run) <> []
   <-> exists err, trace (snd run) = [EvDeleteDomain domainName (Err err)])
  /\ (length (DeleteDiagnostics (fst run)) <= 1)%nat
  /\ (calls isDeleteDomain (trace (snd run)) <= 1)%nat
  /\ (calls isRoute53 (trace (snd run)) <> 0%nat ->
        exists rest, trace (snd run) = EvDeleteDomain domainName (Ok tt) :: rest)
  /\ Forall (fun e => isDeleteDomain e || isRoute53 e = true) (trace (snd run)).
Proof.
  intros domainName run.
  destruct (Delete_run data w t0)
    as [(Hflag & Ht & Hd) | [(Hflag & err & Ht & Hd) | (Hflag & evs & err & Ht & Hz & Hd)]];
    fold domainName run in Ht, Hd; rewrite Ht, Hd.
  - unfold calls. simpl. repeat split; try lia; try constructor;
      try congruence; intros (e & H); discriminate H.
  - unfold calls. simpl. repeat split; try lia; try (repeat constructor);
      try congruence; intros _; exists err; reflexivity.
  - pose proof (ZoneRun_route53 _ _ _ Hz) as Hall.
    change (EvDeleteDomain domainName (Ok tt) :: evs)
      with ([EvDeleteDomain domainName (Ok tt)] ++ evs)%list.
    rewrite calls_app.
    rewrite (calls_filter_nil isDeleteDomain evs).
    2:{ apply route53_filter; [| assumption]. intros [] He; simpl in *; congruence. }
    simpl. repeat split; try lia.
    + intros H. contradiction.
    + intros (e & H). discriminate.
    + intros _. exists evs. reflexivity.
    + constructor; [reflexivity |].
      eapply Forall_impl; [| exact Hall]. intros e He. rewrite He.
      apply orb_true_r.
Qed.

(** X14: a [DeleteHostedZone] call of [Delete] is the last of exactly four
    calls: [DeleteDomain], which succeeded, the zone listing, the record
    listing of the same zone, and the delete of a listed zone that passes
    the four checks. *)
Theorem Delete_deletes_only_eligible_zone data w t0 id r :
  let domainName := ValueString (DomainName data) in
  let run := exec (Delete svc data) w t0 in
  In (EvDeleteHostedZone id r) (trace (snd run)) ->
  ValueBool (AllowDelete data) = true
  /\ exists zones zone records,
       trace (snd run)
       = [EvDeleteDomain domainName (Ok tt);
          EvListHostedZonesByName (zonesByNameInput domainName) (Ok zones);
          EvListResourceRecordSets id (Ok records);
          EvDeleteHostedZone id r]
       /\ In zone zones
       /\ id = ToString (Id zone)
       /\ eligible domainName zone records.
Proof.
  intros domainName run Hin.
  destruct (Delete_run data w t0)
    as [(Hflag & Ht & Hd) | [(Hflag & err & Ht & Hd) | (Hflag & evs & err & Ht & Hz & Hd)]];
    fold domainName run in Ht; rewrite Ht in Hin |- *.
  - contradiction.
  - destruct Hin as [Hin | []]. discriminate.
  - destruct Hin as [Hin | Hin]; [discriminate |].
    destruct (ZoneRun_delete_inv _ _ _ _ _ Hz Hin)
      as (zones & zone & records & Hevs & Hzone & Hid & Helig & _).
    split; [assumption |]. exists zones, zone, records. rewrite Hevs. auto.
Qed.

(** X15: [Delete] does not look at [delete_hosted_zone]: with
    [allow_delete] set, once [DeleteDomain] has succeeded, a listed zone
    that passes the four checks is deleted whether or not the state asks
    for the hosted zone to be deleted. *)
Theorem Delete_ignores_delete_hosted_zone data w w1 w2 w3 t0 zone records :
  let domainName := ValueString (DomainName data) in
  ValueBool (AllowDelete data) = true ->
  DeleteDomain svc domainName w = (Ok tt, w1) ->
  ListHostedZonesByName svc (zonesByNameInput domainName) w1 = (Ok [zone], w2) ->
  ListResourceRecordSets svc (ToString (Id zone)) w2 = (Ok records, w3) ->
  eligible domainName zone records ->
  trace (snd (exec (Delete svc data) w t0))
  = [EvDeleteDomain domainName (Ok tt);
     EvListHostedZonesByName (zonesByNameInput domainName) (Ok [zone]);
     EvListResourceRecordSets (ToString (Id zone)) (Ok records);
     EvDeleteHostedZone (ToString (Id zone))
       (fst (DeleteHostedZone svc (ToString (Id zone)) w3))].
Proof.
  intros domainName Hallow Hdomain Hlist Hrecords (Hname & Hpublic & Hcomment & Hns).
  unfold exec, Delete. fold domainName. rewrite Hallow. simpl.
  unfold bind at 1. unfold call at 1. simpl. rewrite Hdomain.
  unfold bind at 1. unfold deleteRegistrarHostedZone, bind, call. simpl.
  rewrite Hlist. simpl.
  apply zoneNameIs_true in Hname. rewrite Hname. simpl.
  unfold deleteCheckedZone, bind, call, ret. rewrite Hpublic.
  apply String.eqb_eq in Hcomment. rewrite Hcomment. simpl.
  rewrite Hrecords. simpl.
  apply firstCustomRecord_None in Hns. rewrite Hns. simpl.
  destruct (DeleteHostedZone svc (ToString (Id zone)) w3) as [[u | err] w4];
    reflexivity.
Qed.

End ReadDeleteMore.

(** ** Update *)

Section UpdateFacts.

Context {W : Type} (usvc : UpdateServices W).

Local Arguments String.append : simpl never.

Lemma orReturn_run (step : UM W (option Diagnostic)) (rest : UM W Response) st :
  orReturn step rest st
  = match fst (step st) with
    | Some d => ({| Diagnostics := [d]; State := None |}, snd (step st))
    | None => rest (snd (step st))
    end.
Proof.
  unfold orReturn, ubind, uret. destruct (step st) as [[d |] st']; reflexivity.
Qed.

Lemma updateAutoRenew_run data state w t :
  let domainName := ValueString (DomainName data) in
  let r := updateAutoRenew usvc data state domainName (w, t) in
  (fst r = None /\ snd (snd r) = (t ++ autoRenewEvents data state)%list)
  \/ (exists err,
        ValueBool (AutoRenew data) = true /\ ValueBool (AutoRenew state) = false
        /\ fst r = Some (AddError "Error enabling auto-renew"
                           ("Could not enable auto-renew for " ++ domainName
                              ++ ": " ++ err))
        /\ snd (snd r) = (t ++ [UvEnableDomainAutoRenew domainName (Err err)])%list)
  \/ (exists err,
        ValueBool (AutoRenew data) = false /\ ValueBool (AutoRenew state) = true
        /\ fst r = Some (AddError "Error disabling auto-renew"
                           ("Could not disable auto-renew for " ++ domainName
                              ++ ": " ++ err))
        /\ snd (snd r) = (t ++ [UvDisableDomainAutoRenew domainName (Err err)])%list).
Proof.
  intros domainName r. subst r.
  unfold updateAutoRenew, autoRenewEvents, ubind, ucall, uret, reported.
  fold domainName.
  destruct (ValueBool (AutoRenew data)), (ValueBool (AutoRenew state)); simpl;
    try (left; rewrite app_nil_r; auto; fail).
  - destruct (EnableDomainAutoRenew usvc domainName w) as [[[] | err] w1]; simpl;
      [left; auto | right; left; exists err; auto].
  - destruct (DisableDomainAutoRenew usvc domainName w) as [[[] | err] w1]; simpl;
      [left; auto | right; right; exists err; auto].
Qed.

Lemma updatePlanNameservers_run data w t :
  let domainName := ValueString (DomainName data) in
  let r := updatePlanNameservers usvc data domainName (w, t) in
  (fst r = None /\ snd (snd r) = (t ++ planNameserverEvents data)%list)
  \/ (exists err,
        Nameservers data <> []
        /\ fst r = Some (AddError "Error updating nameservers"
                           ("Could not update nameservers for " ++ domainName
                              ++ ": " ++ err))
        /\ snd (snd r)
           = (t ++ [UvUpdateDomainNameservers domainName
                      (map ValueString (Nameservers data)) (Err err)])%list).
Proof.
  intros domainName r. subst r.
  unfold updatePlanNameservers, planNameserverEvents, ubind, ucall, uret, reported.
  fold domainName.
  destruct (0 <? length (Nameservers data))%nat eqn:Hlen; simpl.
  - destruct (UpdateDomainNameservers (domains usvc) domainName _ w)
      as [[[] | err] w1]; simpl; [left; auto |].
    right. exists err. split; [| auto].
    destruct (Nameservers data); [discriminate | congruence].
  - left. rewrite app_nil_r. auto.
Qed.

(** Every run of [Update] is one of the seven runs of [UpdateRun]. *)
Lemma Update_run data state w :
  UpdateRun data state
    (snd (snd (urun (Update usvc data state) w)))
    (fst (urun (Update usvc data state) w)).
Proof.
  unfold urun, Update. rewrite orReturn_run.
  destruct (updateAutoRenew_run data state w [])
    as [[Hnone Ht] | [(err & Hplan & Hstate & Hsome & Ht) | (err & Hplan & Hstate & Hsome & Ht)]];
    simpl in Ht;
    destruct (updateAutoRenew usvc data state (ValueString (DomainName data)) (w, []))
      as [renewed [w1 t1]]; simpl in *; subst renewed t1;
    [| simpl; apply UpdateRun_enable; assumption
     | simpl; apply UpdateRun_disable; assumption].
  rewrite orReturn_run.
  destruct (updatePlanNameservers_run data w1 (autoRenewEvents data state))
    as [[Hnone Ht] | (err & Hne & Hsome & Ht)];
    destruct (updatePlanNameservers usvc data (ValueString (DomainName data))
                (w1, autoRenewEvents data state))
      as [updated [w2 t2]]; simpl in *; subst updated t2;
    [| simpl; apply UpdateRun_nameservers; assumption].
  rewrite !orReturn_run.
  unfold updateContacts, updatePrivacy, ubind, ucall, uret, reported. simpl.
  destruct (UpdateDomainContact usvc _ _ _ _ w2) as [[[] | err] w3]; simpl.
  2:{ rewrite <- app_assoc. apply UpdateRun_contacts. }
  destruct (UpdateDomainContactPrivacy usvc _ _ _ _ w3) as [[[] | err] w4]; simpl.
  2:{ rewrite <- !app_assoc. apply UpdateRun_privacy. }
  destruct (GetDomainDetail (domains usvc) _ w4) as [[detail | err] w5]; simpl;
    rewrite <- !app_assoc; [apply UpdateRun_done | apply UpdateRun_detail].
Qed.

End UpdateFacts.

Section UpdateTheorems.

Context {W : Type} (usvc : UpdateServices W).

Local Arguments String.append : simpl never.

Lemma autoRenewEvents_succeeded data state :
  forallb succeeded (autoRenewEvents data state) = true.
Proof.
  unfold autoRenewEvents.
  destruct (negb _); [destruct (ValueBool (AutoRenew data)) |]; reflexivity.
Qed.

Lemma planNameserverEvents_succeeded data :
  forallb succeeded (planNameserverEvents data) = true.
Proof.
  unfold planNameserverEvents. destruct (0 <? length (Nameservers data))%nat; reflexivity.
Qed.

(** X16: every run of [Update] ends with its only failed call, or with a
    successful [GetDomainDetail] when no call failed. [Update] reports one
    diagnostic and sets no state in the first case; in the second it
    reports none and sets the state to the plan with id, status and dates
    refreshed from the detail, the plan's own attributes and the hosted
    zone id unchanged. *)
Theorem Update_stops_at_first_failure data state w :
  let domainName := ValueString (DomainName data) in
  let run := urun (Update usvc data state) w in
  exists init last,
    snd (snd run) = (init ++ [last])%list
    /\ forallb succeeded init = true
    /\ (succeeded last = false ->
          length (Diagnostics (fst run)) = 1%nat /\ State (fst run) = None)
    /\ (succeeded last = true ->
          Diagnostics (fst run) = []
          /\ exists domainDetail updated,
               last = UvGetDomainDetail domainName (Ok domainDetail)
               /\ State (fst run) = Some updated
               /\ updated = withDomainDetail data domainName domainDetail
               /\ ID updated = tfKnown domainName
               /\ sameContactsAndFlags data updated
               /\ AutoRenew updated = AutoRenew data
               /\ Nameservers updated = Nameservers data
               /\ HostedZoneID updated = HostedZoneID data).
Proof.
  intros domainName run. subst run domainName.
  pose proof (Update_run usvc data state w) as Hrun.
  pose proof (autoRenewEvents_succeeded data state) as Har.
  pose proof (planNameserverEvents_succeeded data) as Hns.
  inversion Hrun as [err Hp Hs Ht Hr | err Hp Hs Ht Hr | err Hne Ht Hr | err Ht Hr
                     | err Ht Hr | err Ht Hr | detail Ht Hr].
  - exists [], (UvEnableDomainAutoRenew (ValueString (DomainName data)) (Err err)).
    simpl. repeat split; discriminate.
  - exists [], (UvDisableDomainAutoRenew (ValueString (DomainName data)) (Err err)).
    simpl. repeat split; discriminate.
  - eexists; eexists. split; [reflexivity |]. split; [assumption |].
    simpl. split; [auto | discriminate].
  - exists (autoRenewEvents data state ++ planNameserverEvents data)%list,
           (contactEvent data (Err err)).
    split; [rewrite <- app_assoc; reflexivity |].
    rewrite forallb_app, Har, Hns. simpl. repeat split; discriminate.
  - exists (autoRenewEvents data state ++ planNameserverEvents data
              ++ [contactEvent data (Ok tt)])%list,
           (privacyEvent data (Err err)).
    split; [rewrite <- !app_assoc; reflexivity |].
    rewrite !forallb_app, Har, Hns. simpl. repeat split; discriminate.
  - exists (autoRenewEvents data state ++ planNameserverEvents data
              ++ [contactEvent data (Ok tt); privacyEvent data (Ok tt)])%list,
           (UvGetDomainDetail (ValueString (DomainName data)) (Err err)).
    split; [rewrite <- !app_assoc; reflexivity |].
    rewrite !forallb_app, Har, Hns. simpl. repeat split; discriminate.
  - exists (autoRenewEvents data state ++ planNameserverEvents data
              ++ [contactEvent data (Ok tt); privacyEvent data (Ok tt)])%list,
           (UvGetDomainDetail (ValueString (DomainName data)) (Ok detail)).
    split; [rewrite <- !app_assoc; reflexivity |].
    rewrite !forallb_app, Har, Hns. simpl.
    split; [reflexivity |]. split; [discriminate |]. intros _.
    split; [reflexivity |]. eexists; eexists.
    split; [reflexivity |]. split; [reflexivity |]. split; [reflexivity |].
    unfold sameContactsAndFlags. simpl. repeat split.
Qed.

(** X17: [Update] calls [EnableDomainAutoRenew] first when the plan turns
    auto-renew on and the state has it off, [DisableDomainAutoRenew] first
    in the opposite case, and neither when plan and state agree, a null or
    unknown value counting as off; it never calls both. *)
Theorem Update_auto_renew_only_if_changed data state w :
  let domainName := ValueString (DomainName data) in
  let t := snd (snd (urun (Update usvc data state) w)) in
  (ValueBool (AutoRenew data) = ValueBool (AutoRenew state) ->
     ucalls isEnableAutoRenew t = 0%nat /\ ucalls isDisableAutoRenew t = 0%nat)
  /\ (ValueBool (AutoRenew data) = true -> ValueBool (AutoRenew state) = false ->
       (exists r rest, t = UvEnableDomainAutoRenew domainName r :: rest)
       /\ ucalls isEnableAutoRenew t = 1%nat /\ ucalls isDisableAutoRenew t = 0%nat)
  /\ (ValueBool (AutoRenew data) = false -> ValueBool (AutoRenew state) = true ->
       (exists r rest, t = UvDisableDomainAutoRenew domainName r :: rest)
       /\ ucalls isDisableAutoRenew t = 1%nat /\ ucalls isEnableAutoRenew t = 0%nat).
Proof.
  intros domainName t. subst t domainName.
  pose proof (Update_run usvc data state w) as Hrun.
  assert (Hcount : forall p rest,
            ucalls p (autoRenewEvents data state ++ planNameserverEvents data ++ rest)
            = (ucalls p (autoRenewEvents data state)
               + ucalls p (planNameserverEvents data) + ucalls p rest)%nat).
  { intros p rest. unfold ucalls. rewrite !filter_app, !length_app. lia. }
  assert (Hns : ucalls isEnableAutoRenew (planNameserverEvents data) = 0%nat
                /\ ucalls isDisableAutoRenew (planNameserverEvents data) = 0%nat).
  { unfold planNameserverEvents. destruct (0 <? length (Nameservers data))%nat; auto. }
  destruct Hns as [Hns1 Hns2].
  assert (Hshape :
    exists tail,
      (snd (snd (urun (Update usvc data state) w))
       = [UvEnableDomainAutoRenew (ValueString (DomainName data)) tail]
       /\ ValueBool (AutoRenew data) = true /\ ValueBool (AutoRenew state) = false)
      \/ (snd (snd (urun (Update usvc data state) w))
          = [UvDisableDomainAutoRenew (ValueString (DomainName data)) tail]
          /\ ValueBool (AutoRenew data) = false /\ ValueBool (AutoRenew state) = true)
      \/ exists rest,
           snd (snd (urun (Update usvc data state) w))
           = (autoRenewEvents data state ++ rest)%list
           /\ ucalls isEnableAutoRenew rest = 0%nat
           /\ ucalls isDisableAutoRenew rest = 0%nat).
  { inversion Hrun as [err Hp Hs Ht Hr | err Hp Hs Ht Hr | err Hne Ht Hr | err Ht Hr
                       | err Ht Hr | err Ht Hr | detail Ht Hr].
    - exists (Err err). left. auto.
    - exists (Err err). right. left. auto.
    - exists (Ok tt). right. right. eexists. split; [reflexivity |]. auto.
    - exists (Ok tt). right. right. eexists. split; [reflexivity |].
      unfold ucalls. rewrite !filter_app, !length_app.
      fold (ucalls isEnableAutoRenew (planNameserverEvents data)).
      fold (ucalls isDisableAutoRenew (planNameserverEvents data)).
      rewrite Hns1, Hns2. auto.
    - exists (Ok tt). right. right. eexists. split; [reflexivity |].
      unfold ucalls. rewrite !filter_app, !length_app.
      fold (ucalls isEnableAutoRenew (planNameserverEvents data)).
      fold (ucalls isDisableAutoRenew (planNameserverEvents data)).
      rewrite Hns1, Hns2. auto.
    - exists (Ok tt). right. right. eexists. split; [reflexivity |].
      unfold ucalls. rewrite !filter_app, !length_app.
      fold (ucalls isEnableAutoRenew (planNameserverEvents data)).
      fold (ucalls isDisableAutoRenew (planNameserverEvents data)).
      rewrite Hns1, Hns2. auto.
    - exists (Ok tt). right. right. eexists. split; [reflexivity |].
      unfold ucalls. rewrite !filter_app, !length_app.
      fold (ucalls isEnableAutoRenew (planNameserverEvents data)).
      fold (ucalls isDisableAutoRenew (planNameserverEvents data)).
      rewrite Hns1, Hns2. auto. }
  destruct Hshape as (tail & [(Ht & Hp & Hs) | [(Ht & Hp & Hs) | (rest & Ht & He & Hd)]]);
    rewrite Ht.
  - repeat match goal with
           | |- _ /\ _ => split
           | |- _ -> _ => intro
           end; try congruence; try reflexivity; do 2 eexists; reflexivity.
  - repeat match goal with
           | |- _ /\ _ => split
           | |- _ -> _ => intro
           end; try congruence; try reflexivity; do 2 eexists; reflexivity.
  - unfold ucalls in *. rewrite !filter_app, !length_app, He, Hd.
    unfold autoRenewEvents.
    destruct (ValueBool (AutoRenew data)), (ValueBool (AutoRenew state)); simpl;
      repeat match goal with
             | |- _ /\ _ => split
             | |- _ -> _ => intro
             end; try congruence; try reflexivity; do 2 eexists; reflexivity.
Qed.

(** X18: [Update] sends the nameservers, the three contacts and the three
    privacy flags of the plan whether or not they differ from the state:
    a run for a plan equal to the state in which no call fails is the
    nameserver update (when the plan has nameservers), the contact update,
    the privacy update and the detail read. *)
Theorem Update_unchanged_plan_sends_all data w :
  let domainName := ValueString (DomainName data) in
  let run := urun (Update usvc data data) w in
  Diagnostics (fst run) = [] ->
  exists domainDetail,
    snd (snd run)
    = (planNameserverEvents data
         ++ [UvUpdateDomainContact domainName
               (contactModelToAWS (AdminContact data))
               (contactModelToAWS (RegistrantContact data))
               (contactModelToAWS (TechContact data)) (Ok tt);
             UvUpdateDomainContactPrivacy domainName
               (Some (ValueBool (AdminPrivacy data)))
               (Some (ValueBool (RegistrantPrivacy data)))
               (Some (ValueBool (TechPrivacy data))) (Ok tt);
             UvGetDomainDetail domainName (Ok domainDetail)])%list.
Proof.
  intros domainName run Hdiag. subst run domainName.
  pose proof (Update_run usvc data data w) as Hrun.
  assert (Har : autoRenewEvents data data = []).
  { unfold autoRenewEvents. rewrite Bool.eqb_reflx. reflexivity. }
  inversion Hrun as [err Hp Hs Ht Hr | err Hp Hs Ht Hr | err Hne Ht Hr | err Ht Hr
                     | err Ht Hr | err Ht Hr | detail Ht Hr];
    rewrite <- Hr in Hdiag; try discriminate Hdiag.
  exists detail. rewrite Har. reflexivity.
Qed.

(** X19: [Update] never sends an empty nameserver list: it calls
    [UpdateDomainNameservers] at most once, with the plan's nameservers,
    and not at all when the plan has none, so that taking the nameservers
    out of the plan changes nothing at the registry. *)
Theorem Update_never_clears_nameservers data state w :
  let domainName := ValueString (DomainName data) in
  let t := snd (snd (urun (Update usvc data state) w)) in
  (ucalls isNameserversUpdate t <= 1)%nat
  /\ (Nameservers data = [] -> ucalls isNameserversUpdate t = 0%nat)
  /\ (forall name nameservers r,
        In (UvUpdateDomainNameservers name nameservers r) t ->
        name = domainName
        /\ nameservers = map ValueString (Nameservers data)
        /\ nameservers <> []).
Proof.
  intros domainName t. subst t domainName.
  pose proof (Update_run usvc data state w) as Hrun.
  assert (Har : forall e, In e (autoRenewEvents data state) -> isNameserversUpdate e = false).
  { unfold autoRenewEvents. intros e.
    destruct (negb _); [destruct (ValueBool (AutoRenew data)) |]; simpl;
      intros Hin; repeat (destruct Hin as [<- | Hin]; [reflexivity |]);
      contradiction. }
  assert (Harc : ucalls isNameserversUpdate (autoRenewEvents data state) = 0%nat).
  { unfold ucalls, autoRenewEvents.
    destruct (negb _); [destruct (ValueBool (AutoRenew data)) |]; reflexivity. }
  assert (Hnsc : (ucalls isNameserversUpdate (planNameserverEvents data) <= 1)%nat
                 /\ (Nameservers data = [] ->
                     ucalls isNameserversUpdate (planNameserverEvents data) = 0%nat)).
  { unfold ucalls, planNameserverEvents. split.
    - destruct (0 <? length (Nameservers data))%nat; simpl; lia.
    - intros Hnil. rewrite Hnil. reflexivity. }
  assert (Hnsin : forall name ns r,
            In (UvUpdateDomainNameservers name ns r) (planNameserverEvents data) ->
            name = ValueString (DomainName data)
            /\ ns = map ValueString (Nameservers data) /\ ns <> []).
  { unfold planNameserverEvents. intros name ns r.
    destruct (Nameservers data) as [| n rest] eqn:Hplan; simpl; [contradiction |].
    intros [He | []]. inversion He.
    split; [reflexivity | split; [reflexivity | simpl; discriminate]]. }
  assert (Hin : forall name ns r rest,
            (forall e, In e rest -> isNameserversUpdate e = false) ->
            In (UvUpdateDomainNameservers name ns r)
               (autoRenewEvents data state ++ planNameserverEvents data ++ rest) ->
            name = ValueString (DomainName data)
            /\ ns = map ValueString (Nameservers data) /\ ns <> []).
  { intros name ns r rest Hrest Hi. apply in_app_or in Hi.
    destruct Hi as [Hi | Hi]; [apply Har in Hi; discriminate |].
    apply in_app_or in Hi. destruct Hi as [Hi | Hi]; [eauto |].
    apply Hrest in Hi. discriminate. }
  destruct Hnsc as [Hns1 Hns0].
  inversion Hrun as [err Hp Hs Ht Hr | err Hp Hs Ht Hr | err Hne Ht Hr | err Ht Hr
                     | err Ht Hr | err Ht Hr | detail Ht Hr];
    unfold ucalls in *; rewrite ?filter_app, ?length_app, ?Harc; simpl.
  - split; [lia | split; [reflexivity |]].
    intros n0 ns0 r0 [He | []]. discriminate He.
  - split; [lia | split; [reflexivity |]].
    intros n0 ns0 r0 [He | []]. discriminate He.
  - split; [lia | split; [intros Hnil; contradiction |]].
    intros n0 ns0 r0 Hi. apply in_app_or in Hi.
    destruct Hi as [Hi | [He | []]]; [apply Har in Hi; discriminate Hi |].
    inversion He.
    split; [reflexivity | split; [reflexivity |]].
    destruct (Nameservers data); [contradiction | discriminate].
  - split; [lia | split; [intros Hnil; rewrite Hns0 by assumption; lia |]].
    intros n0 ns0 r0 Hi. eapply Hin; [| exact Hi].
    intros e Hrest; simpl in Hrest;
      repeat (destruct Hrest as [<- | Hrest]; [reflexivity |]); contradiction.
  - split; [lia | split; [intros Hnil; rewrite Hns0 by assumption; lia |]].
    intros n0 ns0 r0 Hi. eapply Hin; [| exact Hi].
    intros e Hrest; simpl in Hrest;
      repeat (destruct Hrest as [<- | Hrest]; [reflexivity |]); contradiction.
  - split; [lia | split; [intros Hnil; rewrite Hns0 by assumption; lia |]].
    intros n0 ns0 r0 Hi. eapply Hin; [| exact Hi].
    intros e Hrest; simpl in Hrest;
      repeat (destruct Hrest as [<- | Hrest]; [reflexivity |]); contradiction.
  - split; [lia | split; [intros Hnil; rewrite Hns0 by assumption; lia |]].
    intros n0 ns0 r0 Hi. eapply Hin; [| exact Hi].
    intros e Hrest; simpl in Hrest;
      repeat (destruct Hrest as [<- | Hrest]; [reflexivity |]); contradiction.
Qed.

End UpdateTheorems.

(** ** Contacts *)

Lemma isKnown_value {A} (v : tfValue A) :
  isKnown v = true -> exists a, v = tfKnown a.
Proof.
  destruct v; simpl; try discriminate. eauto.
Qed.

(** X20: [contactModelToAWS] loses nothing of a contact block whose
    attributes are all set: two such blocks that are sent as the same
    [ContactDetail] are equal. *)
Theorem contactModelToAWS_injective_on_known m1 m2 :
  allKnown m1 = true -> allKnown m2 = true ->
  contactModelToAWS (Some m1) = contactModelToAWS (Some m2) ->
  m1 = m2.
Proof.
  unfold allKnown. intros H1 H2 Heq.
  do 10 (apply andb_prop in H1; destruct H1 as [H1 ?]).
  do 10 (apply andb_prop in H2; destruct H2 as [H2 ?]).
  destruct m1, m2. simpl in *.
  repeat match goal with
         | H : isKnown ?v = true |- _ =>
             apply isKnown_value in H; destruct H as [? H]; subst v
         end.
  simpl in Heq. inversion Heq. reflexivity.
Qed.

(** ** Runs of the added properties on scripted remotes *)

(** The registrar's zone is deleted third, as listed. *)
Lemma zone_deleted_only_if_eligible_witness :
  exists zones zone records,
    trace (snd (exec (deleteRegistrarHostedZone (scripted settled) "example.com")
                     registrarAccount 0))
    = [EvListHostedZonesByName (zonesByNameInput "example.com") (Ok zones);
       EvListResourceRecordSets "/hostedzone/Z1234567890ABC" (Ok records);
       EvDeleteHostedZone "/hostedzone/Z1234567890ABC" (Ok tt)]
    /\ In zone zones
    /\ "/hostedzone/Z1234567890ABC" = ToString (Id zone)
    /\ eligible "example.com" zone records.
Proof.
  apply (zone_deleted_only_if_eligible (scripted settled) "example.com"
           registrarAccount 0 "/hostedzone/Z1234567890ABC" (Ok tt)).
  vm_compute. do 2 right. left. reflexivity.
Defined.

(** The zone listed as "/hostedzone/Z1234567890ABC" is stored as
    "Z1234567890ABC". *)
Lemma hosted_zone_id_prefix_witness :
  fst (exec (findHostedZoneID (scripted settled) "example.com") registrarAccount 0)
  = inl "Z1234567890ABC".
Proof.
  destruct (hosted_zone_id_prefix (scripted settled) "example.com"
              [registrarZone] registrarZone registrarAccount 0 eq_refl eq_refl)
    as (H & _).
  exact (H "Z1234567890ABC" eq_refl).
Defined.

(** [Read] of a registered domain keeps the plan's contacts and flags. *)
Lemma Read_keeps_user_attributes_witness :
  let data := plan "example.com" 900 [] false false in
  sameContactsAndFlags data
    (setHostedZoneID
       (withDomainDetail
          (setAutoRenewNameservers data (tfKnown false)
             [tfKnown "ns-1.awsdns-01.org"])
          "example.com" registeredDetail)
       (tfKnown "Z1234567890ABC")).
Proof.
  intros data.
  exact (proj1 (Read_keeps_user_attributes (scripted settled) data registrarAccount 0
                  _ eq_refl)).
Defined.

(** A second [Read] gives the state of the first. *)
Lemma Read_idempotent_witness :
  let data := plan "example.com" 900 [] false false in
  let state :=
    setHostedZoneID
      (withDomainDetail
         (setAutoRenewNameservers data (tfKnown false)
            [tfKnown "ns-1.awsdns-01.org"])
         "example.com" registeredDetail)
      (tfKnown "Z1234567890ABC") in
  State (fst (exec (Read (scripted settled) state) registrarAccount 60)) = Some state.
Proof.
  intros data state.
  exact (Read_idempotent (scripted settled) data registrarAccount 0
           registrarAccount 60 state eq_refl eq_refl eq_refl).
Defined.

(** [Delete] deletes the registrar's zone as its fourth call. *)
Lemma Delete_deletes_only_eligible_zone_witness :
  exists zones zone records,
    trace (snd (exec (Delete (scripted settled)
                        (plan "example.com" 900 [] true false))
                     registrarAccount 0))
    = [EvDeleteDomain "example.com" (Ok tt);
       EvListHostedZonesByName (zonesByNameInput "example.com") (Ok zones);
       EvListResourceRecordSets "/hostedzone/Z1234567890ABC" (Ok records);
       EvDeleteHostedZone "/hostedzone/Z1234567890ABC" (Ok tt)]
    /\ In zone zones
    /\ "/hostedzone/Z1234567890ABC" = ToString (Id zone)
    /\ eligible "example.com" zone records.
Proof.
  apply (Delete_deletes_only_eligible_zone (scripted settled)
           (plan "example.com" 900 [] true false) registrarAccount 0
           "/hostedzone/Z1234567890ABC" (Ok tt)).
  vm_compute. do 3 right. left. reflexivity.
Defined.

(** With [delete_hosted_zone] false, [Delete] deletes the registrar's
    zone. *)
Lemma Delete_ignores_delete_hosted_zone_witness :
  ValueBool (DeleteHostedZone_ (plan "example.com" 900 [] true false)) = false
  /\ trace (snd (exec (Delete (scripted settled)
                         (plan "example.com" 900 [] true false))
                      registrarAccount 0))
     = [EvDeleteDomain "example.com" (Ok tt);
        EvListHostedZonesByName (zonesByNameInput "example.com") (Ok [registrarZone]);
        EvListResourceRecordSets "/hostedzone/Z1234567890ABC" (Ok registrarRecords);
        EvDeleteHostedZone "/hostedzone/Z1234567890ABC" (Ok tt)].
Proof.
  split; [reflexivity |].
  apply (Delete_ignores_delete_hosted_zone (scripted settled)
           (plan "example.com" 900 [] true false)
           registrarAccount registrarAccount registrarAccount registrarAccount 0
           registrarZone registrarRecords);
    try reflexivity.
  unfold eligible. repeat (split; [reflexivity |]).
  unfold onlyNSandSOA, registrarRecords.
  repeat (apply Forall_cons; [simpl; auto |]). apply Forall_nil.
Defined.

(** An [Update] that changes nothing sends the nameservers, the contacts
    and the privacy flags again. *)
Lemma Update_unchanged_plan_sends_all_witness :
  let data := stored "example.com" false ["ns1.example.net"] in
  exists domainDetail,
    snd (snd (urun (Update (scriptedUpdate settled (Ok tt) (Ok tt) (Ok tt) (Ok tt))
                      data data)
                   registrarAccount))
    = [UvUpdateDomainNameservers "example.com" ["ns1.example.net"] (Ok tt);
       UvUpdateDomainContact "example.com"
         (contactModelToAWS (Some contact)) (contactModelToAWS (Some contact))
         (contactModelToAWS (Some contact)) (Ok tt);
       UvUpdateDomainContactPrivacy "example.com"
         (Some true) (Some true) (Some true) (Ok tt);
       UvGetDomainDetail "example.com" (Ok domainDetail)].
Proof.
  intros data.
  exact (Update_unchanged_plan_sends_all
           (scriptedUpdate settled (Ok tt) (Ok tt) (Ok tt) (Ok tt))
           data registrarAccount eq_refl).
Defined.

(** A contact block with every attribute set is recovered from what is
    sent for it. *)
Lemma contactModelToAWS_injective_on_known_witness :
  allKnown companyContact = true
  /\ companyContact = companyContact.
Proof.
  split; [reflexivity |].
  exact (contactModelToAWS_injective_on_known companyContact companyContact
           eq_refl eq_refl eq_refl).
Defined.

(** ** The record listing is one page *)

(** The four checks of the guard, read on the fields of the zone and on
    the records given: a zone without [Config] is public and has no
    comment, so it is never deleted. *)
Lemma eligible_fields domainName zone records :
  eligible domainName zone records
  <-> TrimSuffix (ToString (Name zone)) "." = domainName
      /\ (forall config, Config zone = Some config -> PrivateZone config = false)
      /\ (exists config,
            Config zone = Some config /\ Comment config = Some RegistrarComment)
      /\ (forall record, In record records ->
            rrType record = "NS" \/ rrType record = "SOA").
Proof.
  unfold eligible, isPrivate, zoneComment, onlyNSandSOA. rewrite Forall_forall.
  destruct (Config zone) as [config |].
  - split.
    + intros (Hname & Hpublic & Hcomment & Hrecords).
      split; [assumption |]. split; [intros c Hc; inversion Hc; subst; assumption |].
      split; [| assumption]. exists config. split; [reflexivity |].
      destruct (Comment config) as [comment |]; simpl in Hcomment;
        [subst comment; reflexivity | discriminate Hcomment].
    + intros (Hname & Hpublic & (c & Hc & Hcomment) & Hrecords).
      inversion Hc; subst c. rewrite Hcomment. auto.
  - split.
    + intros (_ & _ & Hcomment & _). discriminate Hcomment.
    + intros (_ & _ & (c & Hc & _) & _). discriminate Hc.
Qed.

(** A public zone of the domain with only NS and SOA records that does not
    carry the registrar's comment is refused, with its comment, before its
    records are listed. *)
Example own_zone_refused :
  let run := exec (deleteRegistrarHostedZone (scripted settled) "example.com")
                  ownAccount 0 in
  fst run = Some (CommentMismatch "managed by hand")
  /\ trace (snd run)
     = [EvListHostedZonesByName (zonesByNameInput "example.com") (Ok [ownZone])].
Proof.
  vm_compute. split; reflexivity.
Qed.

Lemma delegatedRecords_first_page :
  onlyNSandSOA (firstn 300 delegatedRecords).
Proof.
  apply firstCustomRecord_None. vm_compute. reflexivity.
Qed.

(** C2: the guard lists the records of the zone once and takes the answer
    for the zone. The registrar's zone of "example.com", public and with
    the registrar's comment, holds 301 record sets: the apex NS and SOA,
    298 NS delegations and an A record for www. Route 53 lists 300 of them,
    all NS or SOA, and [deleteRegistrarHostedZone] issues
    [DeleteHostedZone] for the zone, whatever the answer to it, although
    the zone holds a record that is neither NS nor SOA. *)
Theorem safe_delete_reads_one_page (deleted : result unit) :
  let run := exec (deleteRegistrarHostedZone (paged 300 (answering deleted))
                     "example.com")
                  delegatedAccount 0 in
  zones delegatedAccount = [(registrarZone, delegatedRecords)]
  /\ Name registrarZone = Some "example.com."
  /\ Config registrarZone
     = Some {| Comment := Some "HostedZone created by Route53 Registrar";
               PrivateZone := false |}
  /\ length delegatedRecords = 301%nat
  /\ In (record "www.example.com." "A") delegatedRecords
  /\ ~ onlyNSandSOA delegatedRecords
  /\ onlyNSandSOA (firstn 300 delegatedRecords)
  /\ trace (snd run)
     = [EvListHostedZonesByName (zonesByNameInput "example.com") (Ok [registrarZone]);
        EvListResourceRecordSets "/hostedzone/Z1234567890ABC"
          (Ok (firstn 300 delegatedRecords));
        EvDeleteHostedZone "/hostedzone/Z1234567890ABC" deleted]
  /\ fst run = match deleted with
               | Ok _ => None
               | Err err => Some (DeleteZoneFailed err)
               end.
Proof.
  intros run.
  assert (Hwww : In (record "www.example.com." "A") delegatedRecords).
  { unfold delegatedRecords. apply in_or_app. right. left. reflexivity. }
  split; [reflexivity |]. split; [reflexivity |]. split; [reflexivity |].
  split; [reflexivity |]. split; [exact Hwww |]. split.
  { unfold onlyNSandSOA. rewrite Forall_forall. intros Hall.
    destruct (Hall _ Hwww) as [H | H]; discriminate H. }
  split; [exact delegatedRecords_first_page |].
  subst run. destruct deleted as [[] | err]; vm_compute; split; reflexivity.
Qed.
